(** * WorkloadSpread admission validation

    A shallow embedding of
    [pkg/webhook/workloadspread/validating/workloadspread_validation.go]
    and the properties of its validation functions.

    Go values are embedded as follows.
    - [string] is a Rocq [string]; [[]byte] is a [list byte]; a pointer or a
      slice whose nil-ness the code tests is an [option].
    - [int] is a [Z] kept in the 64-bit range by [int_wrap]; [int32] is a [Z]
      kept in range by [int32_wrap].
    - an [error] is its message ([option string], [None] for a nil error).
    - a run-time panic (a failed type assertion, a nil dereference, a
      division by zero, an index out of range) is the [Panics] outcome of the
      [Outcome] monad.
    - the object store, the codecs and the structural validators of
      Kubernetes, and the constants of the API packages, are the fields of a
      [Collaborators] record: the functions of this file are stated for every
      such record.

    The file has four parts: the program; a sample cluster on which it
    runs; the properties, their vocabulary first; and the properties at
    work on the sample cluster. *)

From Stdlib Require Import ZArith String Ascii List Bool Lia.
From Stdlib Require Import Strings.Byte Numbers.DecimalString.
From stdpp Require Import base option list strings gmap.

Local Open Scope Z_scope.

(** ** Machine integers *)

Definition int_wrap (z : Z) : Z := (z + 2 ^ 63) mod 2 ^ 64 - 2 ^ 63.
Definition int32_wrap (z : Z) : Z := (z + 2 ^ 31) mod 2 ^ 32 - 2 ^ 31.

(** [math.MaxInt32] *)
Definition MaxInt32 : Z := 2147483647.

(** [a + b] on [int] *)
Definition int_add (a b : Z) : Z := int_wrap (a + b).

(** [fmt.Sprintf("%d", z)] *)
Definition fmt_d (z : Z) : string := NilZero.string_of_int (Z.to_int z).

(** [fmt.Sprintf("%v", err)] for an [error] that may be nil *)
Definition fmt_v (err : option string) : string :=
  match err with
  | Some msg => msg
  | None => "<nil>"
  end.

(** [p != nil] *)
Definition notNil {A : Type} (p : option A) : bool :=
  match p with
  | Some _ => true
  | None => false
  end.

(** ** Outcomes: a value, or a run-time panic *)

Inductive Outcome (A : Type) : Type :=
  | Done (a : A)
  | Panics (why : string).
Arguments Done {A} a.
Arguments Panics {A} why.

#[global] Instance Outcome_ret : MRet Outcome := fun _ a => Done a.
#[global] Instance Outcome_bind : MBind Outcome := fun _ _ f m =>
  match m with
  | Done a => f a
  | Panics why => Panics why
  end.

(** A call that reports failure through its [error] result. *)
Inductive Result (A : Type) : Type :=
  | Ok (a : A)
  | Err (msg : string).
Arguments Ok {A} a.
Arguments Err {A} msg.

(** ** [k8s.io/apimachinery/pkg/util/validation/field] *)

Module field.

(** A path is a linked list of elements from the leaf to the root. *)
Inductive Path : Type :=
  | NewPath (name : string)
  | Child (parent : Path) (name : string)
  | Index (parent : Path) (index : nat).

Inductive ErrorType : Type :=
  | ErrorTypeRequired
  | ErrorTypeInvalid
  | ErrorTypeInternal.

(** [p] is [root] or one of its descendants. *)
Fixpoint under (root p : Path) {struct p} : Prop :=
  p = root \/
  match p with
  | NewPath _ => False
  | Child parent _ => under root parent
  | Index parent _ => under root parent
  end.

End field.
Export field.

(** ** [k8s.io/apimachinery/pkg/runtime/schema] *)

Module GroupVersion.
Record t : Type := mk { Group : string; Version : string }.
End GroupVersion.
Abbreviation GroupVersion := GroupVersion.t.

Module GroupVersionKind.
Record t : Type := mk { Group : string; Version : string; Kind : string }.
End GroupVersionKind.
Abbreviation GroupVersionKind := GroupVersionKind.t.

(** [gv.WithKind(kind)] *)
Definition WithKind (gv : GroupVersion) (kind : string) : GroupVersionKind :=
  GroupVersionKind.mk (GroupVersion.Group gv) (GroupVersion.Version gv) kind.

#[global] Instance GroupVersionKind_eq_dec : EqDecision GroupVersionKind.
Proof. solve_decision. Defined.

(** ** [k8s.io/apimachinery/pkg/util/intstr] *)

Module intstr.
(** [type Type int64], with [Int] and [String] its two named values. *)
Definition Int : Z := 0.
Definition String : Z := 1.
End intstr.

Module IntOrString.
Record t : Type := mk { Type_ : Z; IntVal : Z; StrVal : string }.
End IntOrString.
Abbreviation IntOrString := IntOrString.t.

(** ** The API objects, with the fields the validation reads *)

Module TargetReference.
Record t : Type := mk { APIVersion : string; Kind : string; Name : string }.
End TargetReference.
Abbreviation TargetReference := TargetReference.t.

(** The Kubernetes types the validation only hands to its collaborators,
    with the zero values Go gives them. *)
Class K8sTypes : Type := {
  NodeSelectorTerm : Type;
  core_NodeSelectorTerm : Type;
  PreferredSchedulingTerm : Type;
  core_PreferredSchedulingTerm : Type;
  Toleration : Type;
  core_Toleration : Type;
  ObjectMeta : Type;
  PodSpecFields : Type;
  VolumeSources : Type;
  Pod : Type;
  core_Pod : Type;
  LabelSelector : Type;
  zero_ObjectMeta : ObjectMeta;
  zero_PodSpecFields : PodSpecFields;
}.

Section Objects.
Context {K : K8sTypes}.

(** [v1.Volume]: its name and its source, of which the code sets the
    [PersistentVolumeClaim] member. *)
Record PersistentVolumeClaimVolumeSource : Type :=
  { ClaimName : string }.

Record VolumeSource : Type := {
  VolumeSource_PersistentVolumeClaim : option PersistentVolumeClaimVolumeSource;
  otherSources : option VolumeSources;
}.

Record Volume : Type := { Volume_Name : string; Volume_Source : VolumeSource }.

Record PodSpec : Type := { Volumes : list Volume; podSpecFields : PodSpecFields }.

Record PodTemplateSpec : Type :=
  { Template_ObjectMeta : ObjectMeta; Template_Spec : PodSpec }.

Definition zero_PodTemplateSpec : PodTemplateSpec :=
  {| Template_ObjectMeta := zero_ObjectMeta;
     Template_Spec := {| Volumes := []; podSpecFields := zero_PodSpecFields |} |}.

Record PersistentVolumeClaim : Type := { PVC_Name : string }.

(** A fetched workload: the kind its [TypeMeta] reports and the parts of
    its spec that are read. *)
Record CloneSet : Type := {
  CloneSet_GVK : GroupVersionKind;
  CloneSet_Template : PodTemplateSpec;
  CloneSet_VolumeClaimTemplates : list PersistentVolumeClaim;
}.
Record Deployment : Type :=
  { Deployment_GVK : GroupVersionKind; Deployment_Template : PodTemplateSpec }.
Record ReplicaSet : Type :=
  { ReplicaSet_GVK : GroupVersionKind; ReplicaSet_Template : PodTemplateSpec }.
Record Job : Type :=
  { Job_GVK : GroupVersionKind; Job_Template : PodTemplateSpec }.
Record StatefulSet : Type := {
  StatefulSet_GVK : GroupVersionKind;
  StatefulSet_Template : PodTemplateSpec;
  StatefulSet_VolumeClaimTemplates : list PersistentVolumeClaim;
}.

(** [client.Object]: the interface value held by [workloadTemplate]. *)
Inductive clientObject : Type :=
  | ptrCloneSet (o : CloneSet)
  | ptrDeployment (o : Deployment)
  | ptrReplicaSet (o : ReplicaSet)
  | ptrJob (o : Job)
  | ptrStatefulSet (o : StatefulSet).

(** [obj.GetObjectKind().GroupVersionKind()] *)
Definition GetObjectKind_GroupVersionKind (obj : clientObject) : GroupVersionKind :=
  match obj with
  | ptrCloneSet o => CloneSet_GVK o
  | ptrDeployment o => Deployment_GVK o
  | ptrReplicaSet o => ReplicaSet_GVK o
  | ptrJob o => Job_GVK o
  | ptrStatefulSet o => StatefulSet_GVK o
  end.

End Objects.

Module RawExtension.
Record t : Type := mk { Raw : option (list byte) }.
End RawExtension.

Module WorkloadSpreadSubset.
Section Subset.
Context {K : K8sTypes}.
Record t : Type := mk {
  Name : string;
  RequiredNodeSelectorTerm : option NodeSelectorTerm;
  PreferredNodeSelectorTerms : option (list PreferredSchedulingTerm);
  Tolerations : option (list Toleration);
  MaxReplicas : option IntOrString;
  Patch : RawExtension.t;
}.
End Subset.
Arguments t : clear implicits.
Arguments mk {K}.
End WorkloadSpreadSubset.
Abbreviation WorkloadSpreadSubset := WorkloadSpreadSubset.t.

Module AdaptiveWorkloadSpreadStrategy.
Record t : Type := mk { RescheduleCriticalSeconds : option Z }.
End AdaptiveWorkloadSpreadStrategy.

Module WorkloadSpreadScheduleStrategy.
Record t : Type := mk {
  Type_ : string;
  Adaptive : option AdaptiveWorkloadSpreadStrategy.t;
}.
End WorkloadSpreadScheduleStrategy.

Module TargetFilter.
Section Filter.
Context {K : K8sTypes}.
Record t : Type := mk { Selector : option LabelSelector }.
End Filter.
Arguments t : clear implicits.
Arguments mk {K}.
End TargetFilter.

Module WorkloadSpreadSpec.
Section Spec.
Context {K : K8sTypes}.
Record t : Type := mk {
  TargetReference : option TargetReference.t;
  TargetFilter : option (TargetFilter.t K);
  Subsets : list (WorkloadSpreadSubset K);
  ScheduleStrategy : WorkloadSpreadScheduleStrategy.t;
}.
End Spec.
Arguments t : clear implicits.
Arguments mk {K}.
End WorkloadSpreadSpec.

Module WorkloadSpread.
Section Object.
Context {K : K8sTypes}.
Record t : Type := mk {
  Name : string;
  Namespace : string;
  Spec : WorkloadSpreadSpec.t K;
}.
End Object.
Arguments t : clear implicits.
Arguments mk {K}.
End WorkloadSpread.
Abbreviation WorkloadSpread := WorkloadSpread.t.

(** ** Field errors *)

Section Errors.
Context {K : K8sTypes}.

(** The values the validation reports as [BadValue] (an [interface{}]). *)
Inductive BadValue : Type :=
  | BadNil
  | BadString (s : string)
  | BadTargetReference (ref : option TargetReference)
  | BadNodeSelectorTerm (term : option NodeSelectorTerm)
  | BadPreferredSchedulingTerms (terms : option (list PreferredSchedulingTerm))
  | BadTolerations (tolerations : option (list Toleration))
  | BadIntOrString (v : option IntOrString)
  | BadPod (pod : Pod)
  | BadInt32 (v : option Z)
  | BadTargetFilter (f : option (TargetFilter.t K)).

(** [field.Error]. [Field] holds the path itself; Go stores its rendering
    [Path.String()]. *)
Record Error : Type := {
  Type_ : ErrorType;
  Field : Path;
  Value : BadValue;
  Detail : string;
}.

Definition ErrorList : Type := list Error.

(** [field.Required(path, detail)] *)
Definition Required (p : Path) (detail : string) : Error :=
  {| Type_ := ErrorTypeRequired; Field := p; Value := BadString ""; Detail := detail |}.

(** [field.Invalid(path, value, detail)] *)
Definition Invalid (p : Path) (value : BadValue) (detail : string) : Error :=
  {| Type_ := ErrorTypeInvalid; Field := p; Value := value; Detail := detail |}.

(** [field.InternalError(path, err)] *)
Definition InternalError (p : Path) (err : string) : Error :=
  {| Type_ := ErrorTypeInternal; Field := p; Value := BadNil; Detail := err |}.

End Errors.

(** ** The collaborators of the validation *)

Module ObjectKey.
Record t : Type := mk { Namespace : string; Name : string }.
End ObjectKey.

(** An entry of the custom workload white list. *)
Module SchemaGroupKind.
Record t : Type := mk { Group : string; Kind : string }.
End SchemaGroupKind.

(** Everything the validation calls but does not define: the group versions
    and strategy names declared by the API packages, the client [h.Client],
    the library functions and the structural validators. *)
Record Collaborators {K : K8sTypes} : Type := {
  (* constants of the API packages *)
  appsv1alpha1_SchemeGroupVersion : GroupVersion;
  appsvbeta1_SchemeGroupVersion : GroupVersion;
  appsv1_SchemeGroupVersion : GroupVersion;
  batchv1_SchemeGroupVersion : GroupVersion;
  FixedWorkloadSpreadScheduleStrategyType : string;
  AdaptiveWorkloadSpreadScheduleStrategyType : string;
  (* h.Client *)
  Get_CloneSet : ObjectKey.t -> Result CloneSet;
  Get_Deployment : ObjectKey.t -> Result Deployment;
  Get_ReplicaSet : ObjectKey.t -> Result ReplicaSet;
  Get_Job : ObjectKey.t -> Result Job;
  Get_StatefulSet : ObjectKey.t -> Result StatefulSet;
  List_WorkloadSpread : string -> Result (list (WorkloadSpread K));
  GetWSWatchCustomWorkloadWhiteList : Result (list SchemaGroupKind.t);
  (* library functions *)
  ParseGroupVersion : string -> GroupVersion * option string;
  GetValueFromIntOrPercent : option IntOrString -> Z -> bool -> Z * option string;
  LabelSelectorAsSelector : option LabelSelector -> option string;
  json_Marshal : PodTemplateSpec -> list byte;
  StrategicMergePatch : list byte -> list byte -> list byte * option string;
  json_Unmarshal : list byte -> Pod * option string;
  ConvertPod : Pod -> option core_Pod * option string;
  Convert_v1_NodeSelectorTerm_To_core_NodeSelectorTerm :
    NodeSelectorTerm -> Result core_NodeSelectorTerm;
  Convert_v1_PreferredSchedulingTerm_To_core_PreferredSchedulingTerm :
    PreferredSchedulingTerm -> Result core_PreferredSchedulingTerm;
  Convert_v1_Toleration_To_core_Toleration : Toleration -> Result core_Toleration;
  (* structural validators *)
  ValidateNodeSelectorTerm : core_NodeSelectorTerm -> bool -> Path -> ErrorList;
  ValidatePreferredSchedulingTerms : list core_PreferredSchedulingTerm -> Path -> ErrorList;
  ValidateTolerations : list core_Toleration -> Path -> ErrorList;
  ValidatePodSpec : core_Pod -> Path -> ErrorList;
  ValidateObjectMetaUpdate : WorkloadSpread K -> WorkloadSpread K -> Path -> ErrorList;
}.
Arguments Collaborators : clear implicits.

Section Validating.
Context {K : K8sTypes} (h : Collaborators K).

Definition MaxScheduledFailedDuration_Seconds : Z := 300.

Definition controllerKruiseKindCS : GroupVersionKind :=
  WithKind (appsv1alpha1_SchemeGroupVersion h) "CloneSet".
Definition controllerKindSts : GroupVersionKind :=
  WithKind (appsv1_SchemeGroupVersion h) "StatefulSet".
Definition controllerKindRS : GroupVersionKind :=
  WithKind (appsv1_SchemeGroupVersion h) "ReplicaSet".
Definition controllerKindDep : GroupVersionKind :=
  WithKind (appsv1_SchemeGroupVersion h) "Deployment".
Definition controllerKindJob : GroupVersionKind :=
  WithKind (batchv1_SchemeGroupVersion h) "Job".
Definition controllerKruiseKindBetaSts : GroupVersionKind :=
  WithKind (appsvbeta1_SchemeGroupVersion h) "StatefulSet".
Definition controllerKruiseKindAlphaSts : GroupVersionKind :=
  WithKind (appsv1alpha1_SchemeGroupVersion h) "StatefulSet".

Definition verifyGroupKind (ref : TargetReference) (expectedKind : string)
    (expectedGroups : list string) : bool * option string :=
  let '(gv, err) := ParseGroupVersion h (TargetReference.APIVersion ref) in
  match err with
  | Some e => (false, Some e)
  | None =>
      if negb (TargetReference.Kind ref =? expectedKind)%string then (false, None)
      else if existsb (fun group => (group =? GroupVersion.Group gv)%string) expectedGroups
           then (true, None)
           else (false, None)
  end.

(** The [targetRef] block of [validateWorkloadSpreadSpec]: the errors it
    appends to [allErrs] and the value it leaves in [workloadTemplate]. *)
Definition validateTargetRef (obj : WorkloadSpread K) (fldPath : Path)
    : ErrorList * option clientObject :=
  let spec := WorkloadSpread.Spec obj in
  match WorkloadSpreadSpec.TargetReference spec with
  | None =>
      ([Required (Child fldPath "targetRef") "no targetRef defined in WorkloadSpread"], None)
  | Some ref =>
      let invalid (detail : string) :=
        Invalid (Child fldPath "targetRef") (BadTargetReference (Some ref)) detail in
      let key := ObjectKey.mk (WorkloadSpread.Namespace obj) (TargetReference.Name ref) in
      let kind := TargetReference.Kind ref in
      if (TargetReference.APIVersion ref =? "")%string
         || (TargetReference.Name ref =? "")%string
         || (TargetReference.Kind ref =? "")%string
      then ([invalid "empty TargetReference is not valid for WorkloadSpread."], None)
      else if (kind =? GroupVersionKind.Kind controllerKruiseKindCS)%string then
        let '(ok, err) :=
          verifyGroupKind ref (GroupVersionKind.Kind controllerKruiseKindCS)
            [GroupVersionKind.Group controllerKruiseKindCS] in
        if negb ok || notNil err
        then ([invalid "TargetReference is not valid for CloneSet."], None)
        else match Get_CloneSet h key with
             | Ok set => ([], Some (ptrCloneSet set))
             | Err _ => ([], None)
             end
      else if (kind =? GroupVersionKind.Kind controllerKindDep)%string then
        let '(ok, err) :=
          verifyGroupKind ref (GroupVersionKind.Kind controllerKindDep)
            [GroupVersionKind.Group controllerKindDep] in
        if negb ok || notNil err
        then ([invalid "TargetReference is not valid for Deployment."], None)
        else match Get_Deployment h key with
             | Ok set => ([], Some (ptrDeployment set))
             | Err _ => ([], None)
             end
      else if (kind =? GroupVersionKind.Kind controllerKindRS)%string then
        let '(ok, err) :=
          verifyGroupKind ref (GroupVersionKind.Kind controllerKindRS)
            [GroupVersionKind.Group controllerKindRS] in
        if negb ok || notNil err
        then ([invalid "TargetReference is not valid for ReplicaSet."], None)
        else match Get_ReplicaSet h key with
             | Ok set => ([], Some (ptrReplicaSet set))
             | Err _ => ([], None)
             end
      else if (kind =? GroupVersionKind.Kind controllerKindJob)%string then
        let '(ok, err) :=
          verifyGroupKind ref (GroupVersionKind.Kind controllerKindJob)
            [GroupVersionKind.Group controllerKindJob] in
        if negb ok || notNil err
        then ([invalid "TargetReference is not valid for Job."], None)
        else match Get_Job h key with
             | Ok set => ([], Some (ptrJob set))
             | Err _ => ([], None)
             end
      else if (kind =? GroupVersionKind.Kind controllerKindSts)%string then
        let '(ok, err) :=
          verifyGroupKind ref (GroupVersionKind.Kind controllerKindSts)
            [GroupVersionKind.Group controllerKindSts;
             GroupVersionKind.Group controllerKruiseKindAlphaSts;
             GroupVersionKind.Group controllerKruiseKindBetaSts] in
        if negb ok || notNil err
        then ([invalid "TargetReference is not valid for StatefulSet."], None)
        else match Get_StatefulSet h key with
             | Ok set => ([], Some (ptrStatefulSet set))
             | Err _ => ([], None)
             end
      else
        match GetWSWatchCustomWorkloadWhiteList h with
        | Err err => ([InternalError (Child fldPath "targetRef") err], None)
        | Ok whiteList =>
            let matched :=
              existsb (fun wl => fst (verifyGroupKind ref (SchemaGroupKind.Kind wl)
                                        [SchemaGroupKind.Group wl])) whiteList in
            if negb matched
            then ([invalid "TargetReference's GroupKind is not permitted."], None)
            else ([], None)
        end
  end.

Definition withVolumeClaimTemplates (pod : PodTemplateSpec)
    (claims : list PersistentVolumeClaim) : PodTemplateSpec :=
  fold_left
    (fun pod pvc =>
       {| Template_ObjectMeta := Template_ObjectMeta pod;
          Template_Spec :=
            {| Volumes :=
                 Volumes (Template_Spec pod) ++
                 [{| Volume_Name := PVC_Name pvc;
                     Volume_Source :=
                       {| VolumeSource_PersistentVolumeClaim :=
                            Some {| ClaimName := PVC_Name pvc |};
                          otherSources := None |} |}];
               podSpecFields := podSpecFields (Template_Spec pod) |} |})
    claims pod.

(** *** [validateWorkloadSpreadSubsets] *)

(** The variables the loop over the subsets updates. *)
Record loopVars : Type := {
  allErrs : ErrorList;
  subSetNames : gset string;
  maxReplicasSum : Z;
  firstMaxReplicasType : option Z;
}.

(** How an iteration ends: by falling through to the next one, or by
    [return allErrs]. *)
Inductive Flow : Type :=
  | Continue (v : loopVars)
  | Return (errs : ErrorList).

(** The name check: the errors appended and the new [subSetNames]. *)
Definition checkName (fldPath : Path) (i : nat) (subset : WorkloadSpreadSubset K)
    (names : gset string) : ErrorList * gset string :=
  let subsetName := WorkloadSpreadSubset.Name subset in
  if (subsetName =? "")%string
  then ([Invalid (Child (Index fldPath i) "name") (BadString subsetName) ""], names)
  else
    ((if bool_decide (subsetName ∈ names)
      then [Invalid (Child (Index fldPath i) "name") (BadString subsetName)
              ("duplicated subset name " +:+ subsetName)]
      else []),
     {[subsetName]} ∪ names).

Definition checkRequiredNodeSelectorTerm (fldPath : Path) (i : nat)
    (subset : WorkloadSpreadSubset K) : ErrorList :=
  match WorkloadSpreadSubset.RequiredNodeSelectorTerm subset with
  | None => []
  | Some term =>
      match Convert_v1_NodeSelectorTerm_To_core_NodeSelectorTerm h term with
      | Err err =>
          [Invalid (Child (Index fldPath i) "requiredNodeSelectorTerm")
             (BadNodeSelectorTerm (Some term))
             ("Convert_v1_NodeSelectorTerm_To_core_NodeSelectorTerm failed: " +:+ err)]
      | Ok coreNodeSelectorTerm =>
          ValidateNodeSelectorTerm h coreNodeSelectorTerm false
            (Child (Index fldPath i) "requiredNodeSelectorTerm")
      end
  end.

(** The inner loop over the preferred terms, from index [i] on: the errors
    appended and the terms appended to [corePreferredSchedulingTerms]. *)
Fixpoint convertPreferredSchedulingTerms (fldPath : Path)
    (all : option (list PreferredSchedulingTerm)) (i : nat)
    (terms : list PreferredSchedulingTerm)
    : ErrorList * list core_PreferredSchedulingTerm :=
  match terms with
  | [] => ([], [])
  | term :: rest =>
      let '(errs, converted) := convertPreferredSchedulingTerms fldPath all (S i) rest in
      match Convert_v1_PreferredSchedulingTerm_To_core_PreferredSchedulingTerm h term with
      | Err err =>
          (Invalid (Child (Index fldPath i) "preferredSchedulingTerms")
             (BadPreferredSchedulingTerms all)
             ("Convert_v1_PreferredSchedulingTerm_To_core_PreferredSchedulingTerm failed: "
              +:+ err) :: errs,
           converted)
      | Ok corePreferredSchedulingTerm => (errs, corePreferredSchedulingTerm :: converted)
      end
  end.

Definition checkPreferredNodeSelectorTerms (fldPath : Path) (i : nat)
    (subset : WorkloadSpreadSubset K) : ErrorList :=
  match WorkloadSpreadSubset.PreferredNodeSelectorTerms subset with
  | None => []
  | Some terms =>
      let '(errs, corePreferredSchedulingTerms) :=
        convertPreferredSchedulingTerms fldPath (Some terms) 0 terms in
      errs ++ ValidatePreferredSchedulingTerms h corePreferredSchedulingTerms
                (Child (Index fldPath i) "preferredSchedulingTerms")
  end.

(** The inner loop over the tolerations, from index [i] on. *)
Fixpoint convertTolerations (fldPath : Path) (all : option (list Toleration)) (i : nat)
    (tolerations : list Toleration) : ErrorList * list core_Toleration :=
  match tolerations with
  | [] => ([], [])
  | toleration :: rest =>
      let '(errs, converted) := convertTolerations fldPath all (S i) rest in
      match Convert_v1_Toleration_To_core_Toleration h toleration with
      | Err err =>
          (Invalid (Child (Index fldPath i) "tolerations") (BadTolerations all)
             ("Convert_v1_Toleration_To_core_Toleration failed: " +:+ err) :: errs,
           converted)
      | Ok coreToleration => (errs, coreToleration :: converted)
      end
  end.

Definition checkTolerations (fldPath : Path) (i : nat)
    (subset : WorkloadSpreadSubset K) : ErrorList :=
  match WorkloadSpreadSubset.Tolerations subset with
  | None => []
  | Some tolerations =>
      let '(errs, coreTolerations) :=
        convertTolerations fldPath (Some tolerations) 0 tolerations in
      errs ++ ValidateTolerations h coreTolerations (Child (Index fldPath i) "tolerations")
  end.

(** The switch over the kind of [workloadTemplate], with its type
    assertions: the [podSpec] it leaves. *)
Definition podSpecOf (workloadTemplate : clientObject) : Outcome PodTemplateSpec :=
  let gvk := GetObjectKind_GroupVersionKind workloadTemplate in
  if decide (gvk = controllerKruiseKindCS) then
    match workloadTemplate with
    | ptrCloneSet cs =>
        Done (withVolumeClaimTemplates (CloneSet_Template cs) (CloneSet_VolumeClaimTemplates cs))
    | _ => Panics "interface conversion: client.Object is not *v1alpha1.CloneSet"
    end
  else if decide (gvk = controllerKindDep) then
    match workloadTemplate with
    | ptrDeployment o => Done (Deployment_Template o)
    | _ => Panics "interface conversion: client.Object is not *v1.Deployment"
    end
  else if decide (gvk = controllerKindRS) then
    match workloadTemplate with
    | ptrReplicaSet o => Done (ReplicaSet_Template o)
    | _ => Panics "interface conversion: client.Object is not *v1.ReplicaSet"
    end
  else if decide (gvk = controllerKindJob) then
    match workloadTemplate with
    | ptrJob o => Done (Job_Template o)
    | _ => Panics "interface conversion: client.Object is not *v1.Job"
    end
  else if decide (gvk = controllerKindSts) then
    match workloadTemplate with
    | ptrStatefulSet sts =>
        Done (withVolumeClaimTemplates (StatefulSet_Template sts)
                (StatefulSet_VolumeClaimTemplates sts))
    | _ => Panics "interface conversion: client.Object is not *v1.StatefulSet"
    end
  else Done zero_PodTemplateSpec.

(** The patch block of one iteration: the errors it appends. *)
Definition checkPatch (workloadTemplate : option clientObject) (fldPath : Path) (i : nat)
    (subset : WorkloadSpreadSubset K) : Outcome ErrorList :=
  match RawExtension.Raw (WorkloadSpreadSubset.Patch subset) with
  | None => Done []
  | Some raw =>
      match workloadTemplate with
      | None => Done []
      | Some workloadTemplate =>
          podSpec ← podSpecOf workloadTemplate;
          let podBytes := json_Marshal h podSpec in
          let '(modified, err) := StrategicMergePatch h podBytes raw in
          let mergeErrs :=
            match err with
            | Some err =>
                [Invalid (Child (Index fldPath i) "patch")
                   (BadString (string_of_list_byte raw))
                   ("failed to merge patch: " +:+ err)]
            | None => []
            end in
          let '(newPod, err) := json_Unmarshal h modified in
          let unmarshalErrs :=
            match err with
            | Some err =>
                [Invalid (Child (Index fldPath i) "patch")
                   (BadString (string_of_list_byte raw))
                   ("failed to unmarshal: " +:+ err)]
            | None => []
            end in
          let '(coreNewPod, CovErr) := ConvertPod h newPod in
          let convertErrs :=
            if notNil CovErr
            then [Invalid (Child (Index fldPath i) "patch") (BadPod newPod)
                    ("Convert_v1_Pod_To_core_Pod failed: " +:+ fmt_v err)]
            else [] in
          match coreNewPod with
          | None => Panics "invalid memory address or nil pointer dereference"
          | Some coreNewPod =>
              Done (mergeErrs ++ unmarshalErrs ++ convertErrs ++
                    ValidatePodSpec h coreNewPod (Child (Index fldPath i) "patch"))
          end
      end
  end.

(** The [MaxReplicas] block of one iteration. It either rejects the subset
    with the error it appends before [return allErrs], or accepts it with the
    new [maxReplicasSum] and [firstMaxReplicasType]. *)
Inductive Verdict : Type :=
  | Accept (maxReplicasSum : Z) (firstMaxReplicasType : option Z)
  | Reject (e : Error).

Definition checkMaxReplicas (ws : WorkloadSpread K) (fldPath : Path) (i : nat)
    (subset : WorkloadSpreadSubset K) (maxReplicasSum : Z)
    (firstMaxReplicasType : option Z) : Verdict :=
  match WorkloadSpreadSubset.MaxReplicas subset with
  | None => Accept maxReplicasSum firstMaxReplicasType
  | Some maxReplicas =>
      let invalid (detail : string) :=
        Invalid (Child (Index fldPath i) "maxReplicas")
          (BadIntOrString (Some maxReplicas)) detail in
      let type := IntOrString.Type_ maxReplicas in
      let mismatch :=
        match firstMaxReplicasType with
        | None => false
        | Some first => negb (type =? first)
        end in
      if mismatch
      then Reject (invalid "the maxReplicas type of all subsets must be the same")
      else
        let firstMaxReplicasType :=
          match firstMaxReplicasType with
          | None => Some type
          | Some first => Some first
          end in
        let isStatefulSet :=
          match WorkloadSpreadSpec.TargetReference (WorkloadSpread.Spec ws) with
          | None => false
          | Some ref =>
              (TargetReference.Kind ref =? GroupVersionKind.Kind controllerKindSts)%string
          end in
        if isStatefulSet && negb (type =? intstr.Int)
        then Reject (invalid "the maxReplicas type must be Int for StatefulSet")
        else
          let '(subsetMaxReplicas, err) :=
            GetValueFromIntOrPercent h (Some maxReplicas) 100 true in
          if notNil err || (subsetMaxReplicas <? 0)
          then Reject (invalid "maxReplicas is not valid for subset")
          else if type =? intstr.String then
            let maxReplicasSum := int_add maxReplicasSum subsetMaxReplicas in
            if maxReplicasSum >? 100
            then Reject (invalid
                   "the sum of all subset's maxReplicas exceeds 100% is no permitted")
            else Accept maxReplicasSum firstMaxReplicasType
          else Accept maxReplicasSum firstMaxReplicasType
  end.

(** The body of the loop, for the subset at index [i]. *)
Definition subsetBody (ws : WorkloadSpread K) (workloadTemplate : option clientObject)
    (fldPath : Path) (i : nat) (subset : WorkloadSpreadSubset K) (v : loopVars)
    : Outcome Flow :=
  let '(nameErrs, names) := checkName fldPath i subset (subSetNames v) in
  let allErrs := allErrs v ++ nameErrs in
  let allErrs := allErrs ++ checkRequiredNodeSelectorTerm fldPath i subset in
  let allErrs := allErrs ++ checkPreferredNodeSelectorTerms fldPath i subset in
  let allErrs := allErrs ++ checkTolerations fldPath i subset in
  patchErrs ← checkPatch workloadTemplate fldPath i subset;
  let allErrs := allErrs ++ patchErrs in
  match checkMaxReplicas ws fldPath i subset (maxReplicasSum v) (firstMaxReplicasType v) with
  | Reject e => Done (Return (allErrs ++ [e]))
  | Accept sum first =>
      Done (Continue {| allErrs := allErrs; subSetNames := names;
                        maxReplicasSum := sum; firstMaxReplicasType := first |})
  end.

(** [for i, subset := range subsets], from index [i] on. *)
Fixpoint subsetsLoop (ws : WorkloadSpread K) (workloadTemplate : option clientObject)
    (fldPath : Path) (i : nat) (subsets : list (WorkloadSpreadSubset K)) (v : loopVars)
    : Outcome Flow :=
  match subsets with
  | [] => Done (Continue v)
  | subset :: rest =>
      r ← subsetBody ws workloadTemplate fldPath i subset v;
      match r with
      | Continue v => subsetsLoop ws workloadTemplate fldPath (S i) rest v
      | Return errs => Done (Return errs)
      end
  end.

(** [subsets[i]] *)
Definition at_index {A : Type} (l : list A) (i : nat) : Outcome A :=
  match l !! i with
  | Some a => Done a
  | None => Panics "index out of range"
  end.

Definition validateWorkloadSpreadSubsets (ws : WorkloadSpread K)
    (subsets : list (WorkloadSpreadSubset K)) (workloadTemplate : option clientObject)
    (fldPath : Path) : Outcome ErrorList :=
  if (length subsets =? 0)%nat
  then Done [Required fldPath "subsets number must >= 1 in WorkloadSpread"]
  else
    r ← subsetsLoop ws workloadTemplate fldPath 0 subsets
          {| allErrs := []; subSetNames := ∅;
             maxReplicasSum := 0; firstMaxReplicasType := None |};
    match r with
    | Return errs => Done errs
    | Continue v =>
        let isPercent :=
          match firstMaxReplicasType v with
          | None => false
          | Some first => first =? intstr.String
          end in
        if isPercent && (maxReplicasSum v <? 100) then
          last ← at_index subsets (length subsets - 1);
          if notNil (WorkloadSpreadSubset.MaxReplicas last) then
            first ← at_index subsets 0;
            Done (allErrs v ++
                  [Invalid (Child (Index fldPath 0) "maxReplicas")
                     (BadIntOrString (WorkloadSpreadSubset.MaxReplicas first))
                     "maxReplicas sum of all subsets must equal 100% when type is specified as percent"])
          else Done (allErrs v)
        else Done (allErrs v)
    end.

(** *** [validateWorkloadSpreadSpec] *)

(** [a / b] on [int32]: a zero divisor panics. *)
Definition int32_div (a b : Z) : Outcome Z :=
  if b =? 0 then Panics "integer divide by zero"
  else Done (int32_wrap (Z.quot a b)).

(** The check of [spec.ScheduleStrategy.Type]. *)
Definition checkScheduleStrategyType (spec : WorkloadSpreadSpec.t K) (fldPath : Path)
    : ErrorList :=
  let type := WorkloadSpreadScheduleStrategy.Type_ (WorkloadSpreadSpec.ScheduleStrategy spec) in
  if negb (type =? "")%string
     && negb (type =? FixedWorkloadSpreadScheduleStrategyType h)%string
     && negb (type =? AdaptiveWorkloadSpreadScheduleStrategyType h)%string
  then [Invalid (Child (Child fldPath "scheduleStrategy") "type") (BadString type)
          "ScheduleStrategy's type is not valid"]
  else [].

(** [allowedMaxSeconds]. The float [MaxScheduledFailedDuration.Seconds()-5]
    is the integer 295, which its conversion to [int32] keeps. *)
Definition allowedMaxSeconds (spec : WorkloadSpreadSpec.t K) : Outcome Z :=
  let subsets := WorkloadSpreadSpec.Subsets spec in
  if (1 <? Z.of_nat (length subsets))
  then int32_div (int32_wrap (MaxScheduledFailedDuration_Seconds - 5))
                 (int32_wrap (Z.of_nat (length subsets) - 1))
  else Done MaxInt32.

(** The check of [RescheduleCriticalSeconds] against [allowedMaxSeconds]. *)
Definition checkRescheduleCriticalSeconds (fldPath : Path)
    (adaptive : AdaptiveWorkloadSpreadStrategy.t) (allowedMaxSeconds : Z) : ErrorList :=
  match AdaptiveWorkloadSpreadStrategy.RescheduleCriticalSeconds adaptive with
  | None => []
  | Some seconds =>
      if (seconds <? 0) || (seconds >? allowedMaxSeconds)
      then [Invalid
              (Child (Child (Child fldPath "scheduleStrategy") "adaptive")
                 "rescheduleCriticalSeconds")
              (BadInt32 (Some seconds))
              ("rescheduleCriticalSeconds < 0 or rescheduleCriticalSeconds > "
               +:+ fmt_d allowedMaxSeconds +:+ " is not permitted")]
      else []
  end.

(** The block guarded by [spec.ScheduleStrategy.Adaptive != nil]. *)
Definition checkAdaptive (spec : WorkloadSpreadSpec.t K) (fldPath : Path)
    : Outcome ErrorList :=
  let strategy := WorkloadSpreadSpec.ScheduleStrategy spec in
  let subsets := WorkloadSpreadSpec.Subsets spec in
  match WorkloadSpreadScheduleStrategy.Adaptive strategy with
  | None => Done []
  | Some adaptive =>
      let seconds := AdaptiveWorkloadSpreadStrategy.RescheduleCriticalSeconds adaptive in
      let typeErrs :=
        if negb (WorkloadSpreadScheduleStrategy.Type_ strategy
                 =? AdaptiveWorkloadSpreadScheduleStrategyType h)%string
        then [Invalid (Child (Child fldPath "scheduleStrategy") "type") (BadInt32 seconds)
                "the scheduleStrategy's type must be adaptive when using adaptive scheduleStrategy"]
        else [] in
      lastSet ←
        (if (1 <? Z.of_nat (length subsets))
         then last ← at_index subsets (length subsets - 1);
              Done (notNil (WorkloadSpreadSubset.MaxReplicas last))
         else Done false);
      let lastErrs :=
        if lastSet : bool
        then [Invalid (Child (Child fldPath "scheduleStrategy") "adaptive") (BadInt32 seconds)
                "the last subset's maxReplicas must be not specified when using adaptive scheduleStrategy"]
        else [] in
      allowed ← allowedMaxSeconds spec;
      Done (typeErrs ++ lastErrs ++ checkRescheduleCriticalSeconds fldPath adaptive allowed)
  end.

(** The check of [spec.TargetFilter]. *)
Definition checkTargetFilter (spec : WorkloadSpreadSpec.t K) (fldPath : Path) : ErrorList :=
  match WorkloadSpreadSpec.TargetFilter spec with
  | None => []
  | Some filter =>
      match LabelSelectorAsSelector h (TargetFilter.Selector filter) with
      | Some err => [Invalid (Child fldPath "targetFilter") (BadTargetFilter (Some filter)) err]
      | None => []
      end
  end.

Definition validateWorkloadSpreadSpec (obj : WorkloadSpread K) (fldPath : Path)
    : Outcome ErrorList :=
  let spec := WorkloadSpread.Spec obj in
  let '(allErrs, workloadTemplate) := validateTargetRef obj fldPath in
  subsetErrs ← validateWorkloadSpreadSubsets obj (WorkloadSpreadSpec.Subsets spec)
                 workloadTemplate (Child fldPath "subsets");
  let allErrs := allErrs ++ subsetErrs in
  let allErrs := allErrs ++ checkScheduleStrategyType spec fldPath in
  adaptiveErrs ← checkAdaptive spec fldPath;
  let allErrs := allErrs ++ adaptiveErrs in
  Done (allErrs ++ checkTargetFilter spec fldPath).

(** *** [validateWorkloadSpreadConflict] *)

Fixpoint validateWorkloadSpreadConflict (ws : WorkloadSpread K)
    (others : list (WorkloadSpread K)) (fldPath : Path) : ErrorList :=
  match others with
  | [] => []
  | other :: rest =>
      if (WorkloadSpread.Name other =? WorkloadSpread.Name ws)%string
      then validateWorkloadSpreadConflict ws rest fldPath
      else
        match WorkloadSpreadSpec.TargetReference (WorkloadSpread.Spec ws),
              WorkloadSpreadSpec.TargetReference (WorkloadSpread.Spec other) with
        | Some targetRef1, Some targetRef2 =>
            let gv1 := fst (ParseGroupVersion h (TargetReference.APIVersion targetRef1)) in
            let gv2 := fst (ParseGroupVersion h (TargetReference.APIVersion targetRef2)) in
            if (GroupVersion.Group gv1 =? GroupVersion.Group gv2)%string
               && (TargetReference.Kind targetRef1 =? TargetReference.Kind targetRef2)%string
               && (TargetReference.Name targetRef1 =? TargetReference.Name targetRef2)%string
            then [Invalid (Child fldPath "targetRef") (BadTargetReference (Some targetRef1))
                    ("ws.spec.targetRef is in conflict with other WorkloadSpread "
                     +:+ WorkloadSpread.Name other)]
            else validateWorkloadSpreadConflict ws rest fldPath
        | _, _ => validateWorkloadSpreadConflict ws rest fldPath
        end
  end.

Definition validatingWorkloadSpreadFn (obj : WorkloadSpread K) : Outcome ErrorList :=
  allErrs ← validateWorkloadSpreadSpec obj (NewPath "spec");
  match List_WorkloadSpread h (WorkloadSpread.Namespace obj) with
  | Err err =>
      Done (allErrs ++
            [InternalError (NewPath "") ("query other WorkloadSpread failed, err: " +:+ err)])
  | Ok items => Done (allErrs ++ validateWorkloadSpreadConflict obj items (NewPath "spec"))
  end.

(** *** [validateWorkloadSpreadUpdate] *)

Definition validateWorkloadSpreadTargetRefUpdate (targetRef oldTargetRef : option TargetReference)
    (fldPath : Path) : ErrorList :=
  match targetRef, oldTargetRef with
  | Some new, Some old =>
      let gv1 := fst (ParseGroupVersion h (TargetReference.APIVersion new)) in
      let gv2 := fst (ParseGroupVersion h (TargetReference.APIVersion old)) in
      if negb (GroupVersion.Group gv1 =? GroupVersion.Group gv2)%string
         || negb (TargetReference.Kind new =? TargetReference.Kind old)%string
         || negb (TargetReference.Name new =? TargetReference.Name old)%string
      then [Invalid (Child fldPath "targetRef") (BadTargetReference (Some new))
              "change TargetReference is not permitted for WorkloadSpread"]
      else []
  | _, _ => []
  end.

Definition validateWorkloadSpreadUpdate (new old : WorkloadSpread K) : ErrorList :=
  let allErrs := ValidateObjectMetaUpdate h new old (NewPath "metadata") in
  allErrs ++
  validateWorkloadSpreadTargetRefUpdate
    (WorkloadSpreadSpec.TargetReference (WorkloadSpread.Spec new))
    (WorkloadSpreadSpec.TargetReference (WorkloadSpread.Spec old))
    (NewPath "spec").

End Validating.

(** ** A sample cluster

    Concrete collaborators on which the functions above can be run: the
    group versions of the API packages, [schema.ParseGroupVersion] and the
    integer reading of [intstr.GetValueFromIntOrPercent] as the libraries
    define them, a store holding one Deployment, codecs that accept the
    byte strings delimited by braces, and validators that only require a pod
    to be non-empty. *)

Module Sample.

#[local] Instance types : K8sTypes := {|
  NodeSelectorTerm := unit;
  core_NodeSelectorTerm := unit;
  PreferredSchedulingTerm := unit;
  core_PreferredSchedulingTerm := unit;
  Toleration := unit;
  core_Toleration := unit;
  ObjectMeta := unit;
  PodSpecFields := unit;
  VolumeSources := unit;
  Pod := list byte;
  core_Pod := list byte;
  LabelSelector := unit;
  zero_ObjectMeta := tt;
  zero_PodSpecFields := tt;
|}.

(** [strings.Count(s, "/")] *)
Fixpoint countSlash (s : string) : nat :=
  match s with
  | EmptyString => 0
  | String c rest => ((if Ascii.eqb c "/" then 1 else 0) + countSlash rest)%nat
  end.

(** [s[:strings.Index(s, "/")]] *)
Fixpoint beforeSlash (s : string) : string :=
  match s with
  | EmptyString => EmptyString
  | String c rest => if Ascii.eqb c "/" then EmptyString else String c (beforeSlash rest)
  end.

(** [s[strings.Index(s, "/")+1:]] *)
Fixpoint afterSlash (s : string) : string :=
  match s with
  | EmptyString => EmptyString
  | String c rest => if Ascii.eqb c "/" then rest else afterSlash rest
  end.

(** [schema.ParseGroupVersion] *)
Definition parseGroupVersion (gv : string) : GroupVersion * option string :=
  if (gv =? "")%string || (gv =? "/")%string
  then (GroupVersion.mk "" "", None)
  else
    match countSlash gv with
    | 0%nat => (GroupVersion.mk "" gv, None)
    | 1%nat => (GroupVersion.mk (beforeSlash gv) (afterSlash gv), None)
    | _ => (GroupVersion.mk "" "", Some ("unexpected GroupVersion string: " +:+ gv))
    end.

(** [strconv.Atoi] on the decimal digits of [s], most significant first. *)
Fixpoint atoi (acc : Z) (s : string) : option Z :=
  match s with
  | EmptyString => Some acc
  | String c rest =>
      let d := Z.of_nat (nat_of_ascii c) - 48 in
      if (0 <=? d) && (d <=? 9) then atoi (10 * acc + d) rest else None
  end.

(** [strings.Replace(s, "%", "", -1)] *)
Fixpoint dropPercent (s : string) : string :=
  match s with
  | EmptyString => EmptyString
  | String c rest => if Ascii.eqb c "%" then dropPercent rest else String c (dropPercent rest)
  end.

(** [intstr.GetValueFromIntOrPercent], on values whose scaling is exact. *)
Definition getValueFromIntOrPercent (v : option IntOrString) (total : Z) (roundUp : bool)
    : Z * option string :=
  match v with
  | None => (0, Some "nil value for IntOrString")
  | Some v =>
      if IntOrString.Type_ v =? intstr.Int then (IntOrString.IntVal v, None)
      else if IntOrString.Type_ v =? intstr.String then
        match dropPercent (IntOrString.StrVal v) with
        | EmptyString => (0, Some "invalid value for IntOrString")
        | digits =>
            match atoi 0 digits with
            | Some percent =>
                (if roundUp then - ((- (percent * total)) / 100) else percent * total / 100,
                 None)
            | None => (0, Some "invalid value for IntOrString")
            end
        end
      else (0, Some "invalid value for IntOrString: invalid type")
  end.

(** The one workload of the store. *)
Definition webDeployment : Deployment := {|
  Deployment_GVK := GroupVersionKind.mk "apps" "v1" "Deployment";
  Deployment_Template := zero_PodTemplateSpec;
|}.

(** [b] opens with [{] and closes with [}]. *)
Definition braces (b : list byte) : bool :=
  match b, rev b with
  | x7b :: _, x7d :: _ => true
  | _, _ => false
  end.

(** A validator that requires the field [child] of what it validates. *)
Definition requireUnder (child : string) (empty : bool) (p : Path) : ErrorList :=
  if empty then [Required (Child p child) ""] else [].

Definition cluster : Collaborators types := {|
  appsv1alpha1_SchemeGroupVersion := GroupVersion.mk "apps.kruise.io" "v1alpha1";
  appsvbeta1_SchemeGroupVersion := GroupVersion.mk "apps.kruise.io" "v1beta1";
  appsv1_SchemeGroupVersion := GroupVersion.mk "apps" "v1";
  batchv1_SchemeGroupVersion := GroupVersion.mk "batch" "v1";
  FixedWorkloadSpreadScheduleStrategyType := "Fixed";
  AdaptiveWorkloadSpreadScheduleStrategyType := "Adaptive";
  Get_CloneSet := fun _ => Err "not found";
  Get_Deployment := fun key =>
    if (ObjectKey.Namespace key =? "default")%string && (ObjectKey.Name key =? "web")%string
    then Ok webDeployment else Err "not found";
  Get_ReplicaSet := fun _ => Err "not found";
  Get_Job := fun _ => Err "not found";
  Get_StatefulSet := fun _ => Err "not found";
  List_WorkloadSpread := fun _ => Ok [];
  GetWSWatchCustomWorkloadWhiteList := Ok [];
  ParseGroupVersion := parseGroupVersion;
  GetValueFromIntOrPercent := getValueFromIntOrPercent;
  LabelSelectorAsSelector := fun _ => None;
  json_Marshal := fun _ => [x7b; x7d];
  StrategicMergePatch := fun original patch =>
    if braces original && braces patch then (patch, None) else ([], Some "invalid JSON");
  json_Unmarshal := fun data =>
    if braces data then (data, None) else ([], Some "unexpected end of JSON input");
  ConvertPod := fun pod => (Some pod, None);
  Convert_v1_NodeSelectorTerm_To_core_NodeSelectorTerm := fun term => Ok term;
  Convert_v1_PreferredSchedulingTerm_To_core_PreferredSchedulingTerm := fun term => Ok term;
  Convert_v1_Toleration_To_core_Toleration := fun toleration => Ok toleration;
  ValidateNodeSelectorTerm := fun _ _ _ => [];
  ValidatePreferredSchedulingTerms := fun _ _ => [];
  ValidateTolerations := fun _ _ => [];
  ValidatePodSpec := fun pod => requireUnder "containers" (bool_decide (pod = []));
  ValidateObjectMetaUpdate := fun _ _ _ => [];
|}.

(** A subset that only has a name and a replica cap. *)
Definition subset (name : string) (maxReplicas : option IntOrString)
    : WorkloadSpreadSubset types :=
  WorkloadSpreadSubset.mk name None None None maxReplicas (RawExtension.mk None).

(** The cap [s], a percentage. *)
Definition percent (s : string) : option IntOrString :=
  Some (IntOrString.mk intstr.String 0 s).

(** The cap [n], a number of replicas. *)
Definition count (n : Z) : option IntOrString :=
  Some (IntOrString.mk intstr.Int n "").

(** A WorkloadSpread of the namespace [default]. *)
Definition spread (name : string) (ref : option TargetReference)
    (subsets : list (WorkloadSpreadSubset types))
    (strategy : WorkloadSpreadScheduleStrategy.t) : WorkloadSpread types :=
  WorkloadSpread.mk name "default" (WorkloadSpreadSpec.mk ref None subsets strategy).

(** The Deployment of the store, as a target. *)
Definition web : option TargetReference :=
  Some (TargetReference.mk "apps/v1" "Deployment" "web").

(** The Fixed strategy, without adaptive configuration. *)
Definition fixed : WorkloadSpreadScheduleStrategy.t :=
  WorkloadSpreadScheduleStrategy.mk "Fixed" None.

(** A spread of the sample Deployment whose subset [a] carries the patch
    [{], which is not a JSON object. *)
Definition brokenPatch : WorkloadSpreadSubset types :=
  WorkloadSpreadSubset.mk "a" None None None None (RawExtension.mk (Some [x7b])).

(** The path of the subsets in an admission request. *)
Definition subsetsPath : Path := Child (NewPath "spec") "subsets".

(** The StatefulSet of the examples below. *)
Definition db : option TargetReference :=
  Some (TargetReference.mk "apps/v1" "StatefulSet" "db").

(** A spread of the Deployment whose first cap is a count below zero and
    whose second cap is a percentage. *)
Definition negativeThenPercent : WorkloadSpread types :=
  spread "ws" web [subset "a" (count (-1)); subset "b" (percent "50%")] fixed.

(** A spread of the StatefulSet with two percentages that sum to 110. *)
Definition percentagesOfStatefulSet : WorkloadSpread types :=
  spread "ws" db [subset "a" (percent "60%"); subset "b" (percent "50%")] fixed.

(** An adaptive configuration under the Fixed strategy, with the last of
    two subsets capped. *)
Definition adaptiveUnderFixed (seconds : Z) : WorkloadSpread types :=
  spread "ws" web [subset "a" None; subset "b" (count 3)]
    (WorkloadSpreadScheduleStrategy.mk "Fixed"
       (Some (AdaptiveWorkloadSpreadStrategy.mk (Some seconds)))).

(** A spread of a Deployment that does not exist yet. *)
Definition missing : TargetReference := TargetReference.mk "apps/v1" "Deployment" "missing".

(** A custom workload, of a kind the validation does not know by name. *)
Definition rollout : TargetReference := TargetReference.mk "example.io/v1" "Rollout" "web".

(** The Deployment of the store, named in another version of its group. *)
Definition webInV2 : TargetReference := TargetReference.mk "apps/v2" "Deployment" "web".

(** Two zones, the first capped at three replicas. *)
Definition zones : list (WorkloadSpreadSubset types) :=
  [subset "zone-a" (count 3); subset "zone-b" None].

(** Two zones that share the replicas by halves. *)
Definition halves : list (WorkloadSpreadSubset types) :=
  [subset "zone-a" (percent "50%"); subset "zone-b" (percent "50%")].

(** The Adaptive strategy that reschedules after [seconds]. *)
Definition adaptiveAfter (seconds : Z) : WorkloadSpreadScheduleStrategy.t :=
  WorkloadSpreadScheduleStrategy.mk "Adaptive"
    (Some (AdaptiveWorkloadSpreadStrategy.mk (Some seconds))).

(** The sample cluster with a conversion that fails on the empty pod and
    then returns no pod. *)
Definition strictConversion : Collaborators types := {|
  appsv1alpha1_SchemeGroupVersion := appsv1alpha1_SchemeGroupVersion cluster;
  appsvbeta1_SchemeGroupVersion := appsvbeta1_SchemeGroupVersion cluster;
  appsv1_SchemeGroupVersion := appsv1_SchemeGroupVersion cluster;
  batchv1_SchemeGroupVersion := batchv1_SchemeGroupVersion cluster;
  FixedWorkloadSpreadScheduleStrategyType := FixedWorkloadSpreadScheduleStrategyType cluster;
  AdaptiveWorkloadSpreadScheduleStrategyType :=
    AdaptiveWorkloadSpreadScheduleStrategyType cluster;
  Get_CloneSet := Get_CloneSet cluster;
  Get_Deployment := Get_Deployment cluster;
  Get_ReplicaSet := Get_ReplicaSet cluster;
  Get_Job := Get_Job cluster;
  Get_StatefulSet := Get_StatefulSet cluster;
  List_WorkloadSpread := List_WorkloadSpread cluster;
  GetWSWatchCustomWorkloadWhiteList := GetWSWatchCustomWorkloadWhiteList cluster;
  ParseGroupVersion := ParseGroupVersion cluster;
  GetValueFromIntOrPercent := GetValueFromIntOrPercent cluster;
  LabelSelectorAsSelector := LabelSelectorAsSelector cluster;
  json_Marshal := json_Marshal cluster;
  StrategicMergePatch := StrategicMergePatch cluster;
  json_Unmarshal := json_Unmarshal cluster;
  ConvertPod := fun pod =>
    if bool_decide (pod = []) then (None, Some "empty pod") else (Some pod, None);
  Convert_v1_NodeSelectorTerm_To_core_NodeSelectorTerm :=
    Convert_v1_NodeSelectorTerm_To_core_NodeSelectorTerm cluster;
  Convert_v1_PreferredSchedulingTerm_To_core_PreferredSchedulingTerm :=
    Convert_v1_PreferredSchedulingTerm_To_core_PreferredSchedulingTerm cluster;
  Convert_v1_Toleration_To_core_Toleration := Convert_v1_Toleration_To_core_Toleration cluster;
  ValidateNodeSelectorTerm := ValidateNodeSelectorTerm cluster;
  ValidatePreferredSchedulingTerms := ValidatePreferredSchedulingTerms cluster;
  ValidateTolerations := ValidateTolerations cluster;
  ValidatePodSpec := ValidatePodSpec cluster;
  ValidateObjectMetaUpdate := ValidateObjectMetaUpdate cluster;
|}.

End Sample.

(** * Properties *)

Section Properties.
Context {K : K8sTypes} (h : Collaborators K).

(** ** The vocabulary of the statements *)

(** *** Targets and conflicts *)

(** The group a reference's [APIVersion] parses to. *)
Definition parsedGroup (ref : TargetReference) : string :=
  GroupVersion.Group (fst (ParseGroupVersion h (TargetReference.APIVersion ref))).

(** Two references name the same target: the API version counts only
    through its group. *)
Definition sameTarget (a b : TargetReference) : Prop :=
  parsedGroup a = parsedGroup b /\
  TargetReference.Kind a = TargetReference.Kind b /\
  TargetReference.Name a = TargetReference.Name b.

(** [other] is a sibling in conflict with [ws]. *)
Definition conflictsWith (ws other : WorkloadSpread K) : Prop :=
  WorkloadSpread.Name other <> WorkloadSpread.Name ws /\
  exists r1 r2,
    WorkloadSpreadSpec.TargetReference (WorkloadSpread.Spec ws) = Some r1 /\
    WorkloadSpreadSpec.TargetReference (WorkloadSpread.Spec other) = Some r2 /\
    sameTarget r1 r2.

(** The error reported for the colliding sibling [other]. *)
Definition conflictError (ws other : WorkloadSpread K) (fldPath : Path) : Error :=
  Invalid (Child fldPath "targetRef")
    (BadTargetReference (WorkloadSpreadSpec.TargetReference (WorkloadSpread.Spec ws)))
    ("ws.spec.targetRef is in conflict with other WorkloadSpread "
     +:+ WorkloadSpread.Name other).

(** The error reported for a changed reference. *)
Definition changedError (new : TargetReference) (fldPath : Path) : Error :=
  Invalid (Child fldPath "targetRef") (BadTargetReference (Some new))
    "change TargetReference is not permitted for WorkloadSpread".

(** *** Field paths *)

(** The number of elements between [p] and the root of its path. *)
Fixpoint depth (p : Path) : nat :=
  match p with
  | NewPath _ => 0
  | Child parent _ => S (depth parent)
  | Index parent _ => S (depth parent)
  end.

(** *** The subsets and their replica caps *)

(** The structural validators report their errors under the path they are
    given. *)
Definition reportsUnder (validate : Path -> ErrorList) : Prop :=
  forall p e, In e (validate p) -> under p (Field e).

Record ValidatorsReportUnder : Prop := {
  nodeSelectorTerm_under :
    forall term allow, reportsUnder (ValidateNodeSelectorTerm h term allow);
  preferredSchedulingTerms_under :
    forall terms, reportsUnder (ValidatePreferredSchedulingTerms h terms);
  tolerations_under :
    forall tolerations, reportsUnder (ValidateTolerations h tolerations);
  podSpec_under :
    forall pod, reportsUnder (ValidatePodSpec h pod);
}.

(** The type of the first replica cap that is set, after [first]. *)
Fixpoint firstTypeFrom (first : option Z) (subsets : list (WorkloadSpreadSubset K))
    : option Z :=
  match subsets with
  | [] => first
  | subset :: rest =>
      firstTypeFrom
        (match first, WorkloadSpreadSubset.MaxReplicas subset with
         | None, Some maxReplicas => Some (IntOrString.Type_ maxReplicas)
         | _, _ => first
         end) rest
  end.

(** The percentage a subset adds to the running sum. *)
Definition percentOf (sum : Z) (subset : WorkloadSpreadSubset K) : Z :=
  match WorkloadSpreadSubset.MaxReplicas subset with
  | Some maxReplicas =>
      if IntOrString.Type_ maxReplicas =? intstr.String
      then int_add sum (fst (GetValueFromIntOrPercent h (Some maxReplicas) 100 true))
      else sum
  | None => sum
  end.

(** The sum of the percentage caps, accumulated from [sum] on Go's [int]. *)
Fixpoint percentSumFrom (sum : Z) (subsets : list (WorkloadSpreadSubset K)) : Z :=
  match subsets with
  | [] => sum
  | subset :: rest => percentSumFrom (percentOf sum subset) rest
  end.

Definition firstType (subsets : list (WorkloadSpreadSubset K)) : option Z :=
  firstTypeFrom None subsets.

Definition percentSum (subsets : list (WorkloadSpreadSubset K)) : Z :=
  percentSumFrom 0 subsets.

(** The variables at the start of the loop. *)
Definition initialVars : loopVars :=
  {| allErrs := []; subSetNames := ∅; maxReplicasSum := 0; firstMaxReplicasType := None |}.

(** The errors an iteration appends before its [MaxReplicas] block. *)
Definition structuralErrs (fldPath : Path) (i : nat) (subset : WorkloadSpreadSubset K)
    (names : gset string) (patchErrs : ErrorList) : ErrorList :=
  fst (checkName fldPath i subset names)
  ++ checkRequiredNodeSelectorTerm h fldPath i subset
  ++ checkPreferredNodeSelectorTerms h fldPath i subset
  ++ checkTolerations h fldPath i subset
  ++ patchErrs.

(** [e] is reported under a field of some subset other than its
    [maxReplicas]. *)
Definition offMaxReplicas (fldPath : Path) (e : Error) : Prop :=
  exists j name,
    name <> "maxReplicas" /\ under (Child (Index fldPath j) name) (Field e).

(** The error of the check that follows the loop. *)
Definition sumError (subsets : list (WorkloadSpreadSubset K)) (fldPath : Path) : Error :=
  Invalid (Child (Index fldPath 0) "maxReplicas")
    (BadIntOrString (head subsets ≫= WorkloadSpreadSubset.MaxReplicas))
    "maxReplicas sum of all subsets must equal 100% when type is specified as percent".

(** The last subset has its [MaxReplicas] set. *)
Definition lastCapSet (subsets : list (WorkloadSpreadSubset K)) : Prop :=
  exists subset, last subsets = Some subset /\ WorkloadSpreadSubset.MaxReplicas subset <> None.

(** The condition of the check that follows the loop. *)
Definition sumFallsShort (subsets : list (WorkloadSpreadSubset K)) : Prop :=
  firstType subsets = Some intstr.String /\ percentSum subsets < 100 /\ lastCapSet subsets.

(** The target of [ws] is of kind StatefulSet. *)
Definition statefulSetTarget (ws : WorkloadSpread K) : Prop :=
  exists ref,
    WorkloadSpreadSpec.TargetReference (WorkloadSpread.Spec ws) = Some ref /\
    TargetReference.Kind ref = "StatefulSet".

(** The cap of [subset], if set, is a percentage. *)
Definition percentTyped (subset : WorkloadSpreadSubset K) : Prop :=
  forall maxReplicas,
    WorkloadSpreadSubset.MaxReplicas subset = Some maxReplicas ->
    IntOrString.Type_ maxReplicas = intstr.String.

(** The cap of [subset], if set, resolves against 100 to a value that is
    not negative. *)
Definition resolvesNonNegative (subset : WorkloadSpreadSubset K) : Prop :=
  forall maxReplicas,
    WorkloadSpreadSubset.MaxReplicas subset = Some maxReplicas ->
    exists value,
      GetValueFromIntOrPercent h (Some maxReplicas) 100 true = (value, None) /\ 0 <= value.

(** The error of a cap that does not resolve, or resolves below zero. *)
Definition notValidError (fldPath : Path) (i : nat) (maxReplicas : IntOrString) : Error :=
  Invalid (Child (Index fldPath i) "maxReplicas") (BadIntOrString (Some maxReplicas))
    "maxReplicas is not valid for subset".

(** The error of a percentage that takes the sum over 100. *)
Definition exceedsError (fldPath : Path) (i : nat) (maxReplicas : IntOrString) : Error :=
  Invalid (Child (Index fldPath i) "maxReplicas") (BadIntOrString (Some maxReplicas))
    "the sum of all subset's maxReplicas exceeds 100% is no permitted".

(** *** Patches *)

(** The error of a failed conversion, if any; its message prints the
    error of the decoding. *)
Definition convertErrors (fldPath : Path) (i : nat) (newPod : Pod)
    (unmarshalErr CovErr : option string) : ErrorList :=
  if notNil CovErr
  then [Invalid (Child (Index fldPath i) "patch") (BadPod newPod)
          ("Convert_v1_Pod_To_core_Pod failed: " +:+ fmt_v unmarshalErr)]
  else [].

(** [subset] with its patch taken away. *)
Definition withoutPatch (subset : WorkloadSpreadSubset K) : WorkloadSpreadSubset K :=
  WorkloadSpreadSubset.mk
    (WorkloadSpreadSubset.Name subset)
    (WorkloadSpreadSubset.RequiredNodeSelectorTerm subset)
    (WorkloadSpreadSubset.PreferredNodeSelectorTerms subset)
    (WorkloadSpreadSubset.Tolerations subset)
    (WorkloadSpreadSubset.MaxReplicas subset)
    (RawExtension.mk None).

(** The error that carries the failure of the merge. *)
Definition mergeError (fldPath : Path) (i : nat) (raw : list byte) (err : string) : Error :=
  Invalid (Child (Index fldPath i) "patch") (BadString (string_of_list_byte raw))
    ("failed to merge patch: " +:+ err).

(** The error that carries the failure to decode the merged pod. *)
Definition unmarshalError (fldPath : Path) (i : nat) (raw : list byte) (err : string) : Error :=
  Invalid (Child (Index fldPath i) "patch") (BadString (string_of_list_byte raw))
    ("failed to unmarshal: " +:+ err).

(** *** The schedule strategy and the target *)

(** The bound on [RescheduleCriticalSeconds] for a number of subsets. *)
Definition allowedMax (subsetCount : Z) : Z :=
  if 1 <? subsetCount then (300 - 5) / (subsetCount - 1) else MaxInt32.

(** The three errors of the adaptive block. *)
Definition adaptiveTypeError (fldPath : Path) (seconds : option Z) : Error :=
  Invalid (Child (Child fldPath "scheduleStrategy") "type") (BadInt32 seconds)
    "the scheduleStrategy's type must be adaptive when using adaptive scheduleStrategy".

Definition adaptiveLastSubsetError (fldPath : Path) (seconds : option Z) : Error :=
  Invalid (Child (Child fldPath "scheduleStrategy") "adaptive") (BadInt32 seconds)
    "the last subset's maxReplicas must be not specified when using adaptive scheduleStrategy".

Definition rescheduleField (fldPath : Path) : Path :=
  Child (Child (Child fldPath "scheduleStrategy") "adaptive") "rescheduleCriticalSeconds".

Definition rescheduleError (fldPath : Path) (seconds allowed : Z) : Error :=
  Invalid (rescheduleField fldPath) (BadInt32 (Some seconds))
    ("rescheduleCriticalSeconds < 0 or rescheduleCriticalSeconds > "
     +:+ fmt_d allowed +:+ " is not permitted").

Definition subsetsOf (obj : WorkloadSpread K) : list (WorkloadSpreadSubset K) :=
  WorkloadSpreadSpec.Subsets (WorkloadSpread.Spec obj).

Definition strategyOf (obj : WorkloadSpread K) : WorkloadSpreadScheduleStrategy.t :=
  WorkloadSpreadSpec.ScheduleStrategy (WorkloadSpread.Spec obj).

(** Subset validation returns for [obj]: it does not panic. *)
Definition subsetsValidationReturns (obj : WorkloadSpread K) (fldPath : Path) : Prop :=
  exists subsetErrs,
    validateWorkloadSpreadSubsets h obj (subsetsOf obj)
      (snd (validateTargetRef h obj fldPath)) (Child fldPath "subsets")
    = Done subsetErrs.

(** The reference names a workload of a recognized kind in a group
    accepted for that kind, and fetching that workload fails. *)
Inductive recognizedButNotFetched (obj : WorkloadSpread K) (ref : TargetReference) : Prop :=
  | missingCloneSet (err : string) :
      TargetReference.Kind ref = "CloneSet" ->
      verifyGroupKind h ref "CloneSet" [GroupVersionKind.Group (controllerKruiseKindCS h)]
      = (true, None) ->
      Get_CloneSet h (ObjectKey.mk (WorkloadSpread.Namespace obj) (TargetReference.Name ref))
      = Err err ->
      recognizedButNotFetched obj ref
  | missingDeployment (err : string) :
      TargetReference.Kind ref = "Deployment" ->
      verifyGroupKind h ref "Deployment" [GroupVersionKind.Group (controllerKindDep h)]
      = (true, None) ->
      Get_Deployment h (ObjectKey.mk (WorkloadSpread.Namespace obj) (TargetReference.Name ref))
      = Err err ->
      recognizedButNotFetched obj ref
  | missingReplicaSet (err : string) :
      TargetReference.Kind ref = "ReplicaSet" ->
      verifyGroupKind h ref "ReplicaSet" [GroupVersionKind.Group (controllerKindRS h)]
      = (true, None) ->
      Get_ReplicaSet h (ObjectKey.mk (WorkloadSpread.Namespace obj) (TargetReference.Name ref))
      = Err err ->
      recognizedButNotFetched obj ref
  | missingJob (err : string) :
      TargetReference.Kind ref = "Job" ->
      verifyGroupKind h ref "Job" [GroupVersionKind.Group (controllerKindJob h)]
      = (true, None) ->
      Get_Job h (ObjectKey.mk (WorkloadSpread.Namespace obj) (TargetReference.Name ref))
      = Err err ->
      recognizedButNotFetched obj ref
  | missingStatefulSet (err : string) :
      TargetReference.Kind ref = "StatefulSet" ->
      verifyGroupKind h ref "StatefulSet"
        [GroupVersionKind.Group (controllerKindSts h);
         GroupVersionKind.Group (controllerKruiseKindAlphaSts h);
         GroupVersionKind.Group (controllerKruiseKindBetaSts h)]
      = (true, None) ->
      Get_StatefulSet h (ObjectKey.mk (WorkloadSpread.Namespace obj) (TargetReference.Name ref))
      = Err err ->
      recognizedButNotFetched obj ref.

(** *** Further vocabulary: volumes, targets, accepted subsets *)

(** The volume the code synthesizes for a claim template. *)
Definition claimVolume (pvc : PersistentVolumeClaim) : Volume :=
  {| Volume_Name := PVC_Name pvc;
     Volume_Source :=
       {| VolumeSource_PersistentVolumeClaim := Some {| ClaimName := PVC_Name pvc |};
          otherSources := None |} |}.

(** [pod] with [volumes] added after its own. *)
Definition addVolumes (pod : PodTemplateSpec) (volumes : list Volume) : PodTemplateSpec :=
  {| Template_ObjectMeta := Template_ObjectMeta pod;
     Template_Spec :=
       {| Volumes := Volumes (Template_Spec pod) ++ volumes;
          podSpecFields := podSpecFields (Template_Spec pod) |} |}.

(** The key under which the target of [obj] is fetched. *)
Definition targetKey (obj : WorkloadSpread K) (ref : TargetReference) : ObjectKey.t :=
  ObjectKey.mk (WorkloadSpread.Namespace obj) (TargetReference.Name ref).

(** [template] is the workload of the kind of [ref] that the client returned
    for the target of [obj]. *)
Definition fetchedFor (obj : WorkloadSpread K) (ref : TargetReference)
    (template : clientObject) : Prop :=
  match template with
  | ptrCloneSet o =>
      TargetReference.Kind ref = "CloneSet" /\ Get_CloneSet h (targetKey obj ref) = Ok o
  | ptrDeployment o =>
      TargetReference.Kind ref = "Deployment" /\ Get_Deployment h (targetKey obj ref) = Ok o
  | ptrReplicaSet o =>
      TargetReference.Kind ref = "ReplicaSet" /\ Get_ReplicaSet h (targetKey obj ref) = Ok o
  | ptrJob o =>
      TargetReference.Kind ref = "Job" /\ Get_Job h (targetKey obj ref) = Ok o
  | ptrStatefulSet o =>
      TargetReference.Kind ref = "StatefulSet" /\ Get_StatefulSet h (targetKey obj ref) = Ok o
  end.

(** The kinds the validation knows by name. *)
Definition builtinKind (kind : string) : Prop :=
  kind = "CloneSet" \/ kind = "Deployment" \/ kind = "ReplicaSet" \/ kind = "Job" \/
  kind = "StatefulSet".

(** The white list names the kind and the parsed group of [ref]. *)
Definition whiteListed (whiteList : list SchemaGroupKind.t) (ref : TargetReference) : Prop :=
  snd (ParseGroupVersion h (TargetReference.APIVersion ref)) = None /\
  exists wl, In wl whiteList /\
             SchemaGroupKind.Kind wl = TargetReference.Kind ref /\
             SchemaGroupKind.Group wl = parsedGroup ref.

(** The error of a reference that the white list does not permit. *)
Definition notPermittedError (fldPath : Path) (ref : TargetReference) : Error :=
  Invalid (Child fldPath "targetRef") (BadTargetReference (Some ref))
    "TargetReference's GroupKind is not permitted.".

(** The errors a run of the loop ends with. *)
Definition errorsOf (r : Flow) : ErrorList :=
  match r with
  | Continue v => allErrs v
  | Return errs => errs
  end.

(** The names of the subsets, in order. *)
Definition namesOf (subsets : list (WorkloadSpreadSubset K)) : list string :=
  WorkloadSpreadSubset.Name <$> subsets.

(** The error of an empty subset name. *)
Definition emptyNameError (fldPath : Path) (i : nat) : Error :=
  Invalid (Child (Index fldPath i) "name") (BadString "") "".

(** The error of a subset name met before. *)
Definition duplicatedNameError (fldPath : Path) (i : nat) (name : string) : Error :=
  Invalid (Child (Index fldPath i) "name") (BadString name)
    ("duplicated subset name " +:+ name).

(** The error of a percentage cap for a StatefulSet. *)
Definition statefulSetTypeError (fldPath : Path) (i : nat) (maxReplicas : IntOrString)
    : Error :=
  Invalid (Child (Index fldPath i) "maxReplicas") (BadIntOrString (Some maxReplicas))
    "the maxReplicas type must be Int for StatefulSet".

(** The cap of [subset], if set, is a count. *)
Definition countTyped (subset : WorkloadSpreadSubset K) : Prop :=
  forall maxReplicas,
    WorkloadSpreadSubset.MaxReplicas subset = Some maxReplicas ->
    IntOrString.Type_ maxReplicas = intstr.Int.

(** [subset] has no node selector terms and no tolerations. *)
Definition unconstrained (subset : WorkloadSpreadSubset K) : Prop :=
  WorkloadSpreadSubset.RequiredNodeSelectorTerm subset = None /\
  WorkloadSpreadSubset.PreferredNodeSelectorTerms subset = None /\
  WorkloadSpreadSubset.Tolerations subset = None.

(** [subset] carries no patch. *)
Definition patchless (subset : WorkloadSpreadSubset K) : Prop :=
  RawExtension.Raw (WorkloadSpreadSubset.Patch subset) = None.

(** The error of a cap whose type is not that of the first cap. *)
Definition typeMismatchError (fldPath : Path) (i : nat) (maxReplicas : IntOrString)
    : Error :=
  Invalid (Child (Index fldPath i) "maxReplicas") (BadIntOrString (Some maxReplicas))
    "the maxReplicas type of all subsets must be the same".

(** The patch block has nothing to examine: there is no template, or no
    subset carries a patch. *)
Definition nothingToPatch (tmpl : option clientObject)
    (subsets : list (WorkloadSpreadSubset K)) : Prop :=
  tmpl = None \/ Forall patchless subsets.

(** The names are not empty and differ from one another. *)
Definition wellNamed (subsets : list (WorkloadSpreadSubset K)) : Prop :=
  Forall (fun name => name <> "") (namesOf subsets) /\ NoDup (namesOf subsets).

(** The groups in which the validation accepts a kind it knows by name. *)
Definition groupsOfKind (kind : string) : list string :=
  if (kind =? "CloneSet")%string
  then [GroupVersion.Group (appsv1alpha1_SchemeGroupVersion h)]
  else if (kind =? "Deployment")%string
  then [GroupVersion.Group (appsv1_SchemeGroupVersion h)]
  else if (kind =? "ReplicaSet")%string
  then [GroupVersion.Group (appsv1_SchemeGroupVersion h)]
  else if (kind =? "Job")%string
  then [GroupVersion.Group (batchv1_SchemeGroupVersion h)]
  else if (kind =? "StatefulSet")%string
  then [GroupVersion.Group (appsv1_SchemeGroupVersion h);
        GroupVersion.Group (appsv1alpha1_SchemeGroupVersion h);
        GroupVersion.Group (appsvbeta1_SchemeGroupVersion h)]
  else [].

(** The internal error of a failed listing of the siblings. *)
Definition listError (err : string) : Error :=
  InternalError (NewPath "") ("query other WorkloadSpread failed, err: " +:+ err).

(** [e] is reported on the [maxReplicas] field of some subset. *)
Definition onMaxReplicas (fldPath : Path) (e : Error) : Prop :=
  exists k, Field e = Child (Index fldPath k) "maxReplicas".

(** ** Target references: immutability and conflicts *)

#[local] Instance sameTarget_dec a b : Decision (sameTarget a b).
Proof. unfold sameTarget. apply _. Defined.

Lemma sameTarget_eqb a b :
  (parsedGroup a =? parsedGroup b)%string
  && (TargetReference.Kind a =? TargetReference.Kind b)%string
  && (TargetReference.Name a =? TargetReference.Name b)%string = true
  <-> sameTarget a b.
Proof.
  unfold sameTarget. rewrite !andb_true_iff, !String.eqb_eq. tauto.
Qed.

(** One step of the scan: a sibling that does not conflict is passed over. *)
Lemma conflict_skip ws other rest fldPath :
  ~ conflictsWith ws other ->
  validateWorkloadSpreadConflict h ws (other :: rest) fldPath
  = validateWorkloadSpreadConflict h ws rest fldPath.
Proof.
  intros Hno. simpl.
  destruct (String.eqb_spec (WorkloadSpread.Name other) (WorkloadSpread.Name ws)) as [|Hne];
    [reflexivity|].
  destruct (WorkloadSpreadSpec.TargetReference (WorkloadSpread.Spec ws)) as [r1|] eqn:E1;
    [|reflexivity].
  destruct (WorkloadSpreadSpec.TargetReference (WorkloadSpread.Spec other)) as [r2|] eqn:E2;
    [|reflexivity].
  fold (parsedGroup r1) (parsedGroup r2).
  destruct (_ && _ && _) eqn:Hsame; [|reflexivity].
  exfalso. apply Hno. split; [assumption|].
  exists r1, r2. rewrite E1. repeat split; try assumption.
  all: apply sameTarget_eqb in Hsame; apply Hsame.
Qed.

(** One step of the scan: at a conflicting sibling the scan returns. *)
Lemma conflict_stop ws other rest fldPath :
  conflictsWith ws other ->
  validateWorkloadSpreadConflict h ws (other :: rest) fldPath
  = [conflictError ws other fldPath].
Proof.
  intros [Hne (r1 & r2 & E1 & E2 & Hsame)]. simpl. unfold conflictError.
  destruct (String.eqb_spec (WorkloadSpread.Name other) (WorkloadSpread.Name ws));
    [contradiction|].
  rewrite E1, E2. fold (parsedGroup r1) (parsedGroup r2).
  apply sameTarget_eqb in Hsame. rewrite Hsame. reflexivity.
Qed.

#[local] Instance conflictsWith_dec ws other : Decision (conflictsWith ws other).
Proof.
  unfold conflictsWith.
  destruct (WorkloadSpreadSpec.TargetReference (WorkloadSpread.Spec ws)) as [r1|];
    destruct (WorkloadSpreadSpec.TargetReference (WorkloadSpread.Spec other)) as [r2|].
  - destruct (decide (WorkloadSpread.Name other <> WorkloadSpread.Name ws)) as [Hn|Hn];
      [destruct (decide (sameTarget r1 r2)) as [Hs|Hs]|].
    + left. split; [assumption|]. exists r1, r2. auto.
    + right. intros [_ (a & b & Ha & Hb & Hab)]. congruence.
    + right. intros [Hne _]. contradiction.
  - right. intros [_ (a & b & Ha & Hb & Hab)]. discriminate.
  - right. intros [_ (a & b & Ha & Hb & Hab)]. discriminate.
  - right. intros [_ (a & b & Ha & Hb & Hab)]. discriminate.
Defined.

(** C7. The conflict scan passes over a sibling that bears the name of
    the candidate; a sibling of another name conflicts exactly when both
    references are present and have the same parsed group, kind and name,
    whatever their versions; with no conflicting sibling the scan returns
    nothing; at the first conflicting sibling it returns the single Invalid
    error that names it, whatever follows; so it never returns more than one
    error. *)
Theorem conflict_scan_stops_at_first_conflict :
  forall (ws : WorkloadSpread K) (others : list (WorkloadSpread K)) (fldPath : Path),
    (forall other rest,
        WorkloadSpread.Name other = WorkloadSpread.Name ws ->
        validateWorkloadSpreadConflict h ws (other :: rest) fldPath
        = validateWorkloadSpreadConflict h ws rest fldPath) /\
    (forall other r1 r2,
        WorkloadSpread.Name other <> WorkloadSpread.Name ws ->
        WorkloadSpreadSpec.TargetReference (WorkloadSpread.Spec ws) = Some r1 ->
        WorkloadSpreadSpec.TargetReference (WorkloadSpread.Spec other) = Some r2 ->
        (conflictsWith ws other <->
         parsedGroup r1 = parsedGroup r2 /\
         TargetReference.Kind r1 = TargetReference.Kind r2 /\
         TargetReference.Name r1 = TargetReference.Name r2)) /\
    (Forall (fun other => ~ conflictsWith ws other) others ->
     validateWorkloadSpreadConflict h ws others fldPath = []) /\
    (forall before other after,
        others = before ++ other :: after ->
        Forall (fun sibling => ~ conflictsWith ws sibling) before ->
        conflictsWith ws other ->
        validateWorkloadSpreadConflict h ws others fldPath
        = [conflictError ws other fldPath]) /\
    (length (validateWorkloadSpreadConflict h ws others fldPath) <= 1)%nat.
Proof.
  intros ws others fldPath.
  split; [|split; [|split; [|split]]].
  - intros other rest Heq. apply conflict_skip. intros [Hne _]. contradiction.
  - intros other r1 r2 Hne E1 E2. split.
    + intros [_ (a & b & Ha & Hb & Hab)]. unfold sameTarget in Hab. congruence.
    + intros Hab. split; [assumption|]. exists r1, r2. auto.
  - induction 1 as [|other rest Hno _ IH]; [reflexivity|].
    rewrite conflict_skip by assumption. exact IH.
  - intros before other after -> Hbefore Hconflict.
    induction Hbefore as [|sibling rest Hno _ IH]; simpl app.
    + apply conflict_stop. assumption.
    + rewrite conflict_skip by assumption. exact IH.
  - induction others as [|other rest IH]; [simpl; lia|].
    destruct (decide (conflictsWith ws other)) as [Hc|Hc].
    + rewrite conflict_stop by assumption. simpl. lia.
    + rewrite conflict_skip by assumption. exact IH.
Qed.

(** C8. When the old and the new reference are both present, the update
    check returns one Invalid error if the parsed group, the kind or the name
    differs, and no error if none of the three does. *)
Theorem targetRef_update_rejects_exactly_changes :
  forall (new old : TargetReference) (fldPath : Path),
    (parsedGroup new <> parsedGroup old \/
     TargetReference.Kind new <> TargetReference.Kind old \/
     TargetReference.Name new <> TargetReference.Name old
     <-> validateWorkloadSpreadTargetRefUpdate h (Some new) (Some old) fldPath
         = [changedError new fldPath]) /\
    (parsedGroup new = parsedGroup old /\
     TargetReference.Kind new = TargetReference.Kind old /\
     TargetReference.Name new = TargetReference.Name old
     <-> validateWorkloadSpreadTargetRefUpdate h (Some new) (Some old) fldPath = []).
Proof.
  intros new old fldPath. unfold validateWorkloadSpreadTargetRefUpdate, changedError.
  fold (parsedGroup new) (parsedGroup old).
  destruct (String.eqb_spec (parsedGroup new) (parsedGroup old));
    destruct (String.eqb_spec (TargetReference.Kind new) (TargetReference.Kind old));
    destruct (String.eqb_spec (TargetReference.Name new) (TargetReference.Name old));
    simpl; split; split; intros H; try reflexivity; try discriminate; tauto.
Qed.

(** C10. When the old or the new reference is absent, the update check
    returns no error. *)
Theorem targetRef_update_ignores_absent_reference :
  forall (new old : option TargetReference) (fldPath : Path),
    new = None \/ old = None ->
    validateWorkloadSpreadTargetRefUpdate h new old fldPath = [].
Proof.
  intros new old fldPath [-> | ->]; [reflexivity|].
  destruct new; reflexivity.
Qed.

(** ** Field paths *)

Lemma under_refl p : under p p.
Proof. destruct p; left; reflexivity. Qed.

Lemma under_depth root p : under root p -> (depth root <= depth p)%nat.
Proof.
  induction p as [name|parent IH name|parent IH i]; simpl;
    intros [<- | H]; simpl; try lia; try contradiction.
  all: specialize (IH H); lia.
Qed.

Lemma under_trans a b c : under a b -> under b c -> under a c.
Proof.
  intros Hab. induction c as [name|parent IH name|parent IH i]; simpl.
  - intros [<- | []]. exact Hab.
  - intros [<- | H]; [exact Hab | right; auto].
  - intros [<- | H]; [exact Hab | right; auto].
Qed.

(** A path under [fldPath[j].name] is not [fldPath[k].other] when the two
    names differ. *)
Lemma under_sibling_neq fldPath j k name other p :
  name <> other ->
  under (Child (Index fldPath j) name) p ->
  p <> Child (Index fldPath k) other.
Proof.
  intros Hne Hunder ->. simpl in Hunder.
  destruct Hunder as [Heq | [Heq | Hunder]].
  - congruence.
  - discriminate.
  - apply under_depth in Hunder. simpl in Hunder. lia.
Qed.

(** ** The loop over the subsets *)

Lemma percentSumFrom_app sum pre post :
  percentSumFrom sum (pre ++ post) = percentSumFrom (percentSumFrom sum pre) post.
Proof. revert sum. induction pre as [|s pre IH]; intros sum; simpl; auto. Qed.

(** What an iteration that does not panic does. *)
Lemma subsetBody_Done ws tmpl fldPath i subset v r :
  subsetBody h ws tmpl fldPath i subset v = Done r ->
  exists patchErrs,
    checkPatch h tmpl fldPath i subset = Done patchErrs /\
    let errs := allErrs v ++ structuralErrs fldPath i subset (subSetNames v) patchErrs in
    match checkMaxReplicas h ws fldPath i subset (maxReplicasSum v) (firstMaxReplicasType v) with
    | Reject e => r = Return (errs ++ [e])
    | Accept sum first =>
        r = Continue {| allErrs := errs;
                        subSetNames := snd (checkName fldPath i subset (subSetNames v));
                        maxReplicasSum := sum; firstMaxReplicasType := first |}
    end.
Proof.
  unfold subsetBody, structuralErrs.
  destruct (checkName fldPath i subset (subSetNames v)) as [nameErrs names].
  destruct (checkPatch h tmpl fldPath i subset) as [patchErrs|why]; simpl; [|discriminate].
  intros Hr. exists patchErrs. split; [reflexivity|].
  rewrite <- !app_assoc in Hr.
  destruct (checkMaxReplicas _ _ _ _ _ _ _); injection Hr as <-; reflexivity.
Qed.

Lemma subsetBody_intro ws tmpl fldPath i subset v patchErrs :
  checkPatch h tmpl fldPath i subset = Done patchErrs ->
  subsetBody h ws tmpl fldPath i subset v =
  let errs := allErrs v ++ structuralErrs fldPath i subset (subSetNames v) patchErrs in
  match checkMaxReplicas h ws fldPath i subset (maxReplicasSum v) (firstMaxReplicasType v) with
  | Reject e => Done (Return (errs ++ [e]))
  | Accept sum first =>
      Done (Continue {| allErrs := errs;
                        subSetNames := snd (checkName fldPath i subset (subSetNames v));
                        maxReplicasSum := sum; firstMaxReplicasType := first |})
  end.
Proof.
  intros Hpatch. unfold subsetBody, structuralErrs.
  destruct (checkName fldPath i subset (subSetNames v)) as [nameErrs names].
  rewrite Hpatch. simpl. rewrite <- !app_assoc. reflexivity.
Qed.

(** The loop over [pre ++ post] runs over [pre], then, unless that
    returned, over [post]. *)
Lemma subsetsLoop_app ws tmpl fldPath i pre post v :
  subsetsLoop h ws tmpl fldPath i (pre ++ post) v =
  match subsetsLoop h ws tmpl fldPath i pre v with
  | Done (Continue v') => subsetsLoop h ws tmpl fldPath (i + length pre) post v'
  | Done (Return errs) => Done (Return errs)
  | Panics why => Panics why
  end.
Proof.
  revert i v. induction pre as [|subset pre IH]; intros i v; simpl.
  - rewrite Nat.add_0_r. reflexivity.
  - destruct (subsetBody h ws tmpl fldPath i subset v) as [[v'|errs]|why]; simpl;
      try reflexivity.
    rewrite IH. replace (S i + length pre)%nat with (i + S (length pre))%nat by lia.
    reflexivity.
Qed.

(** What an accepted [MaxReplicas] block leaves in the two counters. *)
Lemma checkMaxReplicas_Accept ws fldPath i subset sum first sum' first' :
  checkMaxReplicas h ws fldPath i subset sum first = Accept sum' first' ->
  sum' = percentOf sum subset /\ first' = firstTypeFrom first [subset].
Proof.
  unfold checkMaxReplicas, percentOf. simpl.
  destruct (WorkloadSpreadSubset.MaxReplicas subset) as [maxReplicas|].
  2:{ intros [= <- <-]. destruct first; auto. }
  destruct (match first with None => false | Some f => _ end); [discriminate|].
  destruct (_ && _); [discriminate|].
  destruct (GetValueFromIntOrPercent h (Some maxReplicas) 100 true) as [value err].
  destruct (_ || _); [discriminate|]. simpl.
  destruct (IntOrString.Type_ maxReplicas =? intstr.String).
  - destruct (_ >? 100); [discriminate|]. intros [= <- <-]. destruct first; auto.
  - intros [= <- <-]. destruct first; auto.
Qed.

(** The counters of a loop that ran to its end. *)
Lemma subsetsLoop_counters ws tmpl fldPath subsets : forall i v v',
  subsetsLoop h ws tmpl fldPath i subsets v = Done (Continue v') ->
  maxReplicasSum v' = percentSumFrom (maxReplicasSum v) subsets /\
  firstMaxReplicasType v' = firstTypeFrom (firstMaxReplicasType v) subsets.
Proof.
  induction subsets as [|subset rest IH]; intros i v v'; simpl.
  - intros [= <-]. auto.
  - destruct (subsetBody h ws tmpl fldPath i subset v) as [r|why] eqn:Hbody; simpl;
      [|discriminate].
    apply subsetBody_Done in Hbody as (patchErrs & _ & Hr). simpl in Hr.
    destruct (checkMaxReplicas _ _ _ _ _ _ _) as [sum first|e] eqn:Hcheck; subst r;
      [|discriminate].
    intros Hloop. apply IH in Hloop as [Hsum Hfirst]. simpl in Hsum, Hfirst.
    apply checkMaxReplicas_Accept in Hcheck as [-> ->]. simpl in Hfirst.
    split; [exact Hsum|].
    rewrite Hfirst. destruct (firstMaxReplicasType v), (WorkloadSpreadSubset.MaxReplicas subset);
      reflexivity.
Qed.

(** The loop returns or runs to its end as soon as the patch block of each
    subset does. *)
Lemma subsetsLoop_Done ws tmpl fldPath subsets : forall i v,
  (forall j subset, subsets !! j = Some subset ->
                    exists patchErrs,
                      checkPatch h tmpl fldPath (i + j) subset = Done patchErrs) ->
  exists r, subsetsLoop h ws tmpl fldPath i subsets v = Done r.
Proof.
  induction subsets as [|subset rest IH]; intros i v Hpatch; simpl.
  - eexists. reflexivity.
  - destruct (Hpatch 0%nat subset eq_refl) as [patchErrs Hp]. rewrite Nat.add_0_r in Hp.
    rewrite (subsetBody_intro ws tmpl fldPath i subset v patchErrs Hp). cbv zeta.
    destruct (checkMaxReplicas _ _ _ _ _ _ _) as [sum first|e]; cbn [mbind Outcome_bind].
    + apply IH. intros j s Hj. replace (S i + j)%nat with (i + S j)%nat by lia.
      apply Hpatch. exact Hj.
    + eexists. reflexivity.
Qed.

(** Subset validation returns as soon as the patch block of each subset
    does: nothing else in it can panic. *)
Lemma validateWorkloadSpreadSubsets_Done ws subsets tmpl fldPath :
  (forall j subset, subsets !! j = Some subset ->
                    exists patchErrs, checkPatch h tmpl fldPath j subset = Done patchErrs) ->
  exists errs, validateWorkloadSpreadSubsets h ws subsets tmpl fldPath = Done errs.
Proof.
  intros Hpatch. unfold validateWorkloadSpreadSubsets.
  destruct (Nat.eqb_spec (length subsets) 0) as [_|Hlen]; [eexists; reflexivity|].
  fold initialVars.
  destruct (subsetsLoop_Done ws tmpl fldPath subsets 0 initialVars Hpatch) as [r ->].
  cbn [mbind Outcome_bind]. destruct r as [v|errs]; [|eexists; reflexivity].
  destruct (_ && _); [|eexists; reflexivity].
  unfold at_index. rewrite Nat.sub_1_r, <- last_lookup, <- head_lookup.
  destruct (last subsets) as [lastSubset|] eqn:Hlast.
  2:{ apply last_None in Hlast. subst subsets. contradiction. }
  cbn [mbind Outcome_bind]. destruct (notNil _); [|eexists; reflexivity].
  destruct (head subsets) as [firstSubset|] eqn:Hhead.
  2:{ apply head_None in Hhead. subst subsets. contradiction. }
  eexists. reflexivity.
Qed.

(** *** Where the errors of an iteration are reported *)

Lemma offMaxReplicas_at fldPath j name value detail :
  name <> "maxReplicas" ->
  offMaxReplicas fldPath (Invalid (Child (Index fldPath j) name) value detail).
Proof. intros Hne. exists j, name. split; [exact Hne | apply under_refl]. Qed.

Lemma offMaxReplicas_validator fldPath j name validate :
  name <> "maxReplicas" ->
  reportsUnder validate ->
  Forall (offMaxReplicas fldPath) (validate (Child (Index fldPath j) name)).
Proof.
  intros Hne Hunder. apply Forall_forall. intros e He%list_elem_of_In.
  exists j, name. split; [exact Hne | apply Hunder, He].
Qed.

Lemma offMaxReplicas_neq fldPath k e :
  offMaxReplicas fldPath e -> Field e <> Child (Index fldPath k) "maxReplicas".
Proof. intros (j & name & Hne & Hunder). eapply under_sibling_neq; eauto. Qed.

Lemma offMaxReplicas_under fldPath e :
  offMaxReplicas fldPath e -> under fldPath (Field e).
Proof.
  intros (j & name & _ & Hunder). eapply under_trans; [|exact Hunder].
  simpl. right. right. apply under_refl.
Qed.

Lemma convertPreferredSchedulingTerms_fields fldPath all terms : forall i,
  Forall (offMaxReplicas fldPath) (fst (convertPreferredSchedulingTerms h fldPath all i terms)).
Proof.
  induction terms as [|term rest IH]; intros i; simpl; [constructor|].
  specialize (IH (S i)).
  destruct (convertPreferredSchedulingTerms h fldPath all (S i) rest) as [errs converted].
  destruct (Convert_v1_PreferredSchedulingTerm_To_core_PreferredSchedulingTerm h term);
    simpl in *; [exact IH|].
  constructor; [|exact IH]. apply offMaxReplicas_at. discriminate.
Qed.

Lemma convertTolerations_fields fldPath all tolerations : forall i,
  Forall (offMaxReplicas fldPath) (fst (convertTolerations h fldPath all i tolerations)).
Proof.
  induction tolerations as [|toleration rest IH]; intros i; simpl; [constructor|].
  specialize (IH (S i)).
  destruct (convertTolerations h fldPath all (S i) rest) as [errs converted].
  destruct (Convert_v1_Toleration_To_core_Toleration h toleration);
    simpl in *; [exact IH|].
  constructor; [|exact IH]. apply offMaxReplicas_at. discriminate.
Qed.

Lemma checkPatch_fields tmpl fldPath i subset patchErrs :
  ValidatorsReportUnder ->
  checkPatch h tmpl fldPath i subset = Done patchErrs ->
  Forall (offMaxReplicas fldPath) patchErrs.
Proof.
  intros Hval. unfold checkPatch.
  destruct (RawExtension.Raw _) as [raw|]; [|intros [= <-]; constructor].
  destruct tmpl as [workloadTemplate|]; [|intros [= <-]; constructor].
  destruct (podSpecOf h workloadTemplate) as [podSpec|]; simpl; [|discriminate].
  destruct (StrategicMergePatch h _ raw) as [modified mergeErr].
  destruct (json_Unmarshal h modified) as [newPod unmarshalErr].
  destruct (ConvertPod h newPod) as [[coreNewPod|] CovErr]; [|discriminate].
  intros [= <-]. rewrite !Forall_app. repeat split.
  - destruct mergeErr; repeat constructor. apply offMaxReplicas_at. discriminate.
  - destruct unmarshalErr; repeat constructor. apply offMaxReplicas_at. discriminate.
  - destruct (notNil CovErr); repeat constructor. apply offMaxReplicas_at. discriminate.
  - apply offMaxReplicas_validator; [discriminate | apply Hval].
Qed.

Lemma structuralErrs_fields tmpl fldPath i subset names patchErrs :
  ValidatorsReportUnder ->
  checkPatch h tmpl fldPath i subset = Done patchErrs ->
  Forall (offMaxReplicas fldPath) (structuralErrs fldPath i subset names patchErrs).
Proof.
  intros Hval Hpatch. unfold structuralErrs. rewrite !Forall_app. repeat split.
  - unfold checkName. destruct (_ =? _)%string; simpl.
    + repeat constructor. apply offMaxReplicas_at. discriminate.
    + destruct (bool_decide _); repeat constructor. apply offMaxReplicas_at. discriminate.
  - unfold checkRequiredNodeSelectorTerm.
    destruct (WorkloadSpreadSubset.RequiredNodeSelectorTerm subset) as [term|]; [|constructor].
    destruct (Convert_v1_NodeSelectorTerm_To_core_NodeSelectorTerm h term).
    + apply offMaxReplicas_validator; [discriminate | apply Hval].
    + repeat constructor. apply offMaxReplicas_at. discriminate.
  - unfold checkPreferredNodeSelectorTerms.
    destruct (WorkloadSpreadSubset.PreferredNodeSelectorTerms subset) as [terms|]; [|constructor].
    pose proof (convertPreferredSchedulingTerms_fields fldPath (Some terms) terms 0) as Hconv.
    destruct (convertPreferredSchedulingTerms h fldPath (Some terms) 0 terms) as [errs converted].
    apply Forall_app. split; [exact Hconv|].
    apply offMaxReplicas_validator; [discriminate | apply Hval].
  - unfold checkTolerations.
    destruct (WorkloadSpreadSubset.Tolerations subset) as [tolerations|]; [|constructor].
    pose proof (convertTolerations_fields fldPath (Some tolerations) tolerations 0) as Hconv.
    destruct (convertTolerations h fldPath (Some tolerations) 0 tolerations) as [errs converted].
    apply Forall_app. split; [exact Hconv|].
    apply offMaxReplicas_validator; [discriminate | apply Hval].
  - eapply checkPatch_fields; eauto.
Qed.

(** A rejection is reported on the [maxReplicas] field of the subset. *)
Lemma checkMaxReplicas_Reject ws fldPath i subset sum first e :
  checkMaxReplicas h ws fldPath i subset sum first = Reject e ->
  Type_ e = ErrorTypeInvalid /\ Field e = Child (Index fldPath i) "maxReplicas".
Proof.
  unfold checkMaxReplicas.
  destruct (WorkloadSpreadSubset.MaxReplicas subset) as [maxReplicas|]; [|discriminate].
  destruct (match first with None => false | Some f => _ end); [intros [= <-]; auto|].
  destruct (_ && _); [intros [= <-]; auto|].
  destruct (GetValueFromIntOrPercent h (Some maxReplicas) 100 true) as [value err].
  destruct (_ || _); [intros [= <-]; auto|].
  destruct (IntOrString.Type_ maxReplicas =? intstr.String); [|discriminate].
  destruct (_ >? 100); [intros [= <-]; auto|discriminate].
Qed.

(** The errors of a loop that did not panic: those accumulated are off the
    [maxReplicas] fields, and an early return adds one rejection to them. *)
Lemma subsetsLoop_fields ws tmpl fldPath subsets :
  ValidatorsReportUnder ->
  forall i v r,
    Forall (offMaxReplicas fldPath) (allErrs v) ->
    subsetsLoop h ws tmpl fldPath i subsets v = Done r ->
    match r with
    | Continue v' => Forall (offMaxReplicas fldPath) (allErrs v')
    | Return errs =>
        exists accumulated e k,
          errs = accumulated ++ [e] /\
          Forall (offMaxReplicas fldPath) accumulated /\
          Type_ e = ErrorTypeInvalid /\
          Field e = Child (Index fldPath k) "maxReplicas"
    end.
Proof.
  intros Hval. induction subsets as [|subset rest IH]; intros i v r Hv; simpl.
  - intros [= <-]. exact Hv.
  - destruct (subsetBody h ws tmpl fldPath i subset v) as [r'|why] eqn:Hbody; simpl;
      [|discriminate].
    apply subsetBody_Done in Hbody as (patchErrs & Hpatch & Hr). simpl in Hr.
    pose proof (structuralErrs_fields tmpl fldPath i subset (subSetNames v) patchErrs
                  Hval Hpatch) as Hstruct.
    destruct (checkMaxReplicas _ _ _ _ _ _ _) as [sum first|e] eqn:Hcheck; subst r'.
    + apply IH. simpl. apply Forall_app. auto.
    + intros [= <-]. apply checkMaxReplicas_Reject in Hcheck as [Htype Hfield].
      eexists _, e, i. repeat split; auto. apply Forall_app. auto.
Qed.

(** *** The check after the loop *)

(** Validation of a non-empty list whose loop ran to its end: the
    accumulated errors, followed by [sumError] when the sum falls short. *)
Lemma validateWorkloadSpreadSubsets_Continue ws subsets tmpl fldPath v :
  subsets <> [] ->
  subsetsLoop h ws tmpl fldPath 0 subsets initialVars = Done (Continue v) ->
  (sumFallsShort subsets /\
   validateWorkloadSpreadSubsets h ws subsets tmpl fldPath
   = Done (allErrs v ++ [sumError subsets fldPath])) \/
  (~ sumFallsShort subsets /\
   validateWorkloadSpreadSubsets h ws subsets tmpl fldPath = Done (allErrs v)).
Proof.
  intros Hne Hloop. unfold validateWorkloadSpreadSubsets, sumFallsShort, lastCapSet.
  destruct (Nat.eqb_spec (length subsets) 0) as [Hlen|Hlen].
  { destruct subsets; [contradiction | discriminate]. }
  fold initialVars. rewrite Hloop. cbn [mbind Outcome_bind].
  apply subsetsLoop_counters in Hloop as [Hsum Hfirst].
  change (percentSumFrom (maxReplicasSum initialVars) subsets) with (percentSum subsets) in Hsum.
  change (firstTypeFrom (firstMaxReplicasType initialVars) subsets) with (firstType subsets)
    in Hfirst.
  rewrite Hsum, Hfirst. clear Hsum Hfirst.
  unfold at_index, sumError. rewrite Nat.sub_1_r, <- last_lookup, <- head_lookup.
  destruct (firstType subsets) as [first|].
  2:{ right. split; [intros [? _]; discriminate | reflexivity]. }
  destruct (Z.eqb_spec first intstr.String) as [->|Hfirst].
  2:{ right. split; [intros [[= ?] _]; contradiction | reflexivity]. }
  destruct (Z.ltb_spec (percentSum subsets) 100) as [Hlt|Hge]; cbn [andb].
  2:{ right. split; [intros (_ & ? & _); lia | reflexivity]. }
  destruct (last subsets) as [lastSubset|] eqn:Hlast.
  2:{ apply last_None in Hlast. contradiction. }
  cbn [mbind Outcome_bind].
  destruct (WorkloadSpreadSubset.MaxReplicas lastSubset) as [cap|] eqn:Hcap; cbn [notNil].
  - left. split.
    + repeat split; auto. exists lastSubset. rewrite Hcap. split; [reflexivity|discriminate].
    + destruct (head subsets) as [firstSubset|] eqn:Hhead.
      * reflexivity.
      * apply head_None in Hhead. contradiction.
  - right. split; [|reflexivity].
    intros (_ & _ & s & [= <-] & Hset). contradiction.
Qed.

(** C2. For a non-empty list of subsets whose loop runs to its end (no
    subset is rejected by the arithmetic checks), validation reports an
    Invalid error on the [maxReplicas] field of the first subset exactly when
    the type fixed by the first cap is percentage, the accumulated sum of the
    percentages is below 100 and the last subset has its cap set. *)
Theorem sum_check_fires_exactly_when_percentages_fall_short :
  forall (ws : WorkloadSpread K) (subsets : list (WorkloadSpreadSubset K))
         (tmpl : option clientObject) (fldPath : Path),
    subsets <> [] ->
    ValidatorsReportUnder ->
    (exists v, subsetsLoop h ws tmpl fldPath 0 subsets initialVars = Done (Continue v)) ->
    exists errs,
      validateWorkloadSpreadSubsets h ws subsets tmpl fldPath = Done errs /\
      ((exists e, In e errs /\ Type_ e = ErrorTypeInvalid /\
                  Field e = Child (Index fldPath 0) "maxReplicas")
       <-> firstType subsets = Some intstr.String /\
           percentSum subsets < 100 /\
           lastCapSet subsets).
Proof.
  intros ws subsets tmpl fldPath Hne Hval [v Hloop].
  pose proof (subsetsLoop_fields ws tmpl fldPath subsets Hval 0 initialVars (Continue v)
                (List.Forall_nil _) Hloop) as Hfields. simpl in Hfields.
  destruct (validateWorkloadSpreadSubsets_Continue ws subsets tmpl fldPath v Hne Hloop)
    as [[Hshort ->] | [Hshort ->]].
  - eexists. split; [reflexivity|]. split; [intros _; exact Hshort|].
    intros _. exists (sumError subsets fldPath). split; [|split; reflexivity].
    apply in_or_app. right. left. reflexivity.
  - eexists. split; [reflexivity|]. split; [|intros H; contradiction].
    intros (e & Hin & _ & Hfield). exfalso.
    rewrite Forall_forall in Hfields. apply list_elem_of_In in Hin.
    apply (offMaxReplicas_neq fldPath 0 e (Hfields e Hin)). exact Hfield.
Qed.

(** *** Early returns *)

(** Validation of a list in which the subset after [pre] is rejected: the
    errors accumulated so far and the rejection, whatever follows. *)
Lemma validateWorkloadSpreadSubsets_Reject ws tmpl fldPath pre subset v patchErrs e :
  subsetsLoop h ws tmpl fldPath 0 pre initialVars = Done (Continue v) ->
  checkPatch h tmpl fldPath (length pre) subset = Done patchErrs ->
  checkMaxReplicas h ws fldPath (length pre) subset (maxReplicasSum v)
    (firstMaxReplicasType v) = Reject e ->
  forall post,
    validateWorkloadSpreadSubsets h ws (pre ++ subset :: post) tmpl fldPath
    = Done ((allErrs v ++ structuralErrs fldPath (length pre) subset (subSetNames v) patchErrs)
            ++ [e]).
Proof.
  intros Hloop Hpatch Hcheck post. unfold validateWorkloadSpreadSubsets.
  destruct (Nat.eqb_spec (length (pre ++ subset :: post)) 0) as [Hlen|_].
  { rewrite length_app in Hlen. simpl in Hlen. lia. }
  fold initialVars. rewrite subsetsLoop_app, Hloop. simpl subsetsLoop.
  rewrite (subsetBody_intro ws tmpl fldPath _ subset v patchErrs Hpatch).
  cbv zeta. rewrite Hcheck. reflexivity.
Qed.

(** C3. When validation reaches a subset whose cap is set with a type
    other than the type of the first cap set before it, it reports an Invalid
    error on the [maxReplicas] field of that subset and returns: the errors
    are those accumulated so far followed by this one, whatever subsets
    come after it. *)
Theorem type_mismatch_returns_at_once :
  forall (ws : WorkloadSpread K) (tmpl : option clientObject) (fldPath : Path)
         (pre : list (WorkloadSpreadSubset K)) (subset : WorkloadSpreadSubset K)
         (first : Z) (maxReplicas : IntOrString),
    (exists v, subsetsLoop h ws tmpl fldPath 0 pre initialVars = Done (Continue v)) ->
    (exists patchErrs, checkPatch h tmpl fldPath (length pre) subset = Done patchErrs) ->
    firstType pre = Some first ->
    WorkloadSpreadSubset.MaxReplicas subset = Some maxReplicas ->
    IntOrString.Type_ maxReplicas <> first ->
    exists accumulated,
      forall post,
        validateWorkloadSpreadSubsets h ws (pre ++ subset :: post) tmpl fldPath
        = Done (accumulated ++
                [Invalid (Child (Index fldPath (length pre)) "maxReplicas")
                   (BadIntOrString (Some maxReplicas))
                   "the maxReplicas type of all subsets must be the same"]).
Proof.
  intros ws tmpl fldPath pre subset first maxReplicas [v Hloop] [patchErrs Hpatch]
    Hfirst Hcap Hne.
  eexists. intros post.
  eapply validateWorkloadSpreadSubsets_Reject; eauto.
  pose proof (subsetsLoop_counters ws tmpl fldPath pre 0 initialVars v Hloop) as [_ Hv].
  simpl in Hv. fold (firstType pre) in Hv. rewrite Hfirst in Hv.
  unfold checkMaxReplicas. rewrite Hcap, Hv.
  destruct (Z.eqb_spec (IntOrString.Type_ maxReplicas) first); [contradiction|].
  reflexivity.
Qed.

(** *** Percentage caps *)

Lemma isStatefulSet_false ws :
  ~ statefulSetTarget ws ->
  match WorkloadSpreadSpec.TargetReference (WorkloadSpread.Spec ws) with
  | None => false
  | Some ref => (TargetReference.Kind ref =? GroupVersionKind.Kind (controllerKindSts h))%string
  end = false.
Proof.
  intros Hno. destruct (WorkloadSpreadSpec.TargetReference _) as [ref|] eqn:Href;
    [|reflexivity].
  cbn [controllerKindSts WithKind GroupVersionKind.Kind].
  destruct (String.eqb_spec (TargetReference.Kind ref) "StatefulSet") as [Hkind|]; [|reflexivity].
  exfalso. apply Hno. exists ref. auto.
Qed.

(** A percentage cap that keeps the sum within 100 is accepted. *)
Lemma checkMaxReplicas_percent_Accept ws fldPath i subset sum first :
  ~ statefulSetTarget ws ->
  percentTyped subset ->
  resolvesNonNegative subset ->
  first = None \/ first = Some intstr.String ->
  percentOf sum subset <= 100 ->
  checkMaxReplicas h ws fldPath i subset sum first
  = Accept (percentOf sum subset) (firstTypeFrom first [subset]).
Proof.
  intros Hsts Htyped Hres Hfirst Hsum. unfold checkMaxReplicas, percentOf in *.
  cbn [firstTypeFrom].
  destruct (WorkloadSpreadSubset.MaxReplicas subset) as [maxReplicas|] eqn:Hcap.
  2:{ destruct first; reflexivity. }
  rewrite (Htyped maxReplicas Hcap) in *.
  destruct (Hres maxReplicas Hcap) as (value & Hvalue & Hpos).
  rewrite Hvalue in *. simpl in Hsum.
  rewrite (isStatefulSet_false ws Hsts).
  destruct Hfirst as [-> | ->]; cbn [notNil orb andb negb Z.eqb intstr.String Pos.eqb].
  all: destruct (Z.ltb_spec value 0); [lia|].
  all: destruct (Z.gtb_spec (int_add sum value) 100); [lia|reflexivity].
Qed.

(** The loop runs to its end over percentage caps whose running sum stays
    within 100. *)
Lemma subsetsLoop_percent_runs ws tmpl fldPath subsets :
  ~ statefulSetTarget ws ->
  forall i v,
    firstMaxReplicasType v = None \/ firstMaxReplicasType v = Some intstr.String ->
    Forall percentTyped subsets ->
    Forall resolvesNonNegative subsets ->
    (forall k, (k <= length subsets)%nat ->
               percentSumFrom (maxReplicasSum v) (take k subsets) <= 100) ->
    (forall j subset, subsets !! j = Some subset ->
                      exists patchErrs,
                        checkPatch h tmpl fldPath (i + j) subset = Done patchErrs) ->
    exists v',
      subsetsLoop h ws tmpl fldPath i subsets v = Done (Continue v') /\
      (firstMaxReplicasType v' = None \/ firstMaxReplicasType v' = Some intstr.String).
Proof.
  intros Hsts. induction subsets as [|subset rest IH];
    intros i v Hfirst Htyped Hres Hsums Hpatch; simpl.
  - exists v. auto.
  - apply Forall_cons in Htyped as [Htyped Htyped'].
    apply Forall_cons in Hres as [Hres Hres'].
    destruct (Hpatch 0%nat subset eq_refl) as [patchErrs Hp].
    rewrite Nat.add_0_r in Hp.
    rewrite (subsetBody_intro ws tmpl fldPath i subset v patchErrs Hp). cbv zeta.
    rewrite (checkMaxReplicas_percent_Accept ws fldPath i subset _ _ Hsts Htyped Hres Hfirst).
    2:{ apply (Hsums 1%nat). simpl. lia. }
    cbn [mbind Outcome_bind].
    apply IH; simpl; auto.
    + destruct Hfirst as [-> | ->]; [|auto].
      destruct (WorkloadSpreadSubset.MaxReplicas subset) as [maxReplicas|] eqn:Hcap; [|auto].
      right. rewrite (Htyped maxReplicas Hcap). reflexivity.
    + intros k Hk. apply (Hsums (S k)). simpl. lia.
    + intros j s Hj. replace (S (i + j)) with (i + S j)%nat by lia.
      apply Hpatch. exact Hj.
Qed.

(** C4. Take subsets whose caps are all percentages, for a target that
    is not a StatefulSet. Each cap is resolved against 100. While the
    resolved values are not negative and their running sum stays within 100
    the loop goes on; at the first subset whose value fails to resolve or is
    negative, validation reports Invalid on its [maxReplicas] and returns;
    at the first subset that takes the running sum over 100, validation
    reports Invalid on its [maxReplicas] and returns. In both cases the
    subsets that follow do not change the result. *)
Theorem percentages_rejected_where_sum_first_exceeds_100 :
  forall (ws : WorkloadSpread K) (tmpl : option clientObject) (fldPath : Path)
         (pre : list (WorkloadSpreadSubset K)) (subset : WorkloadSpreadSubset K)
         (maxReplicas : IntOrString) (value : Z) (err : option string),
    ~ statefulSetTarget ws ->
    Forall percentTyped (pre ++ [subset]) ->
    Forall resolvesNonNegative pre ->
    (forall k, (k <= length pre)%nat -> percentSum (take k pre) <= 100) ->
    (forall j s, (pre ++ [subset]) !! j = Some s ->
                 exists patchErrs, checkPatch h tmpl fldPath j s = Done patchErrs) ->
    WorkloadSpreadSubset.MaxReplicas subset = Some maxReplicas ->
    GetValueFromIntOrPercent h (Some maxReplicas) 100 true = (value, err) ->
    exists accumulated,
      (err <> None \/ value < 0 ->
       forall post,
         validateWorkloadSpreadSubsets h ws (pre ++ subset :: post) tmpl fldPath
         = Done (accumulated ++ [notValidError fldPath (length pre) maxReplicas])) /\
      (err = None -> 0 <= value -> percentSum (pre ++ [subset]) > 100 ->
       forall post,
         validateWorkloadSpreadSubsets h ws (pre ++ subset :: post) tmpl fldPath
         = Done (accumulated ++ [exceedsError fldPath (length pre) maxReplicas])).
Proof.
  intros ws tmpl fldPath pre subset maxReplicas value err
    Hsts Htyped Hres Hsums Hpatch Hcap Hvalue.
  apply Forall_app in Htyped as [Htyped Hsubset]. apply Forall_cons in Hsubset as [Hsubset _].
  destruct (subsetsLoop_percent_runs ws tmpl fldPath pre Hsts 0 initialVars)
    as (v & Hloop & Hfirst); auto.
  { intros j s Hj. apply Hpatch. rewrite lookup_app_l; [exact Hj|].
    eapply lookup_lt_Some; eauto. }
  destruct (Hpatch (length pre) subset) as [patchErrs Hp].
  { rewrite lookup_app_r by lia. rewrite Nat.sub_diag. reflexivity. }
  pose proof (subsetsLoop_counters ws tmpl fldPath pre 0 initialVars v Hloop) as [Hsum _].
  change (percentSumFrom (maxReplicasSum initialVars) pre) with (percentSum pre) in Hsum.
  assert (Hcheck : checkMaxReplicas h ws fldPath (length pre) subset (maxReplicasSum v)
                     (firstMaxReplicasType v)
                   = if notNil err || (value <? 0)
                     then Reject (notValidError fldPath (length pre) maxReplicas)
                     else if int_add (percentSum pre) value >? 100
                          then Reject (exceedsError fldPath (length pre) maxReplicas)
                          else Accept (int_add (percentSum pre) value) (Some intstr.String)).
  { unfold checkMaxReplicas. rewrite Hcap, Hvalue, Hsum, (Hsubset maxReplicas Hcap).
    rewrite (isStatefulSet_false ws Hsts).
    destruct Hfirst as [-> | ->]; reflexivity. }
  exists (allErrs v ++ structuralErrs fldPath (length pre) subset (subSetNames v) patchErrs).
  split.
  - intros Hbad post.
    eapply validateWorkloadSpreadSubsets_Reject; eauto.
    rewrite Hcheck. destruct Hbad as [Herr | Hneg].
    + destruct err; [reflexivity | contradiction].
    + destruct (Z.ltb_spec value 0); [|lia]. rewrite orb_true_r. reflexivity.
  - intros -> Hpos Hexceeds post.
    eapply validateWorkloadSpreadSubsets_Reject; eauto.
    rewrite Hcheck. cbn [notNil orb].
    destruct (Z.ltb_spec value 0); [lia|].
    unfold percentSum in Hexceeds. rewrite percentSumFrom_app in Hexceeds.
    fold (percentSum pre) in Hexceeds. simpl in Hexceeds. unfold percentOf in Hexceeds.
    rewrite Hcap, (Hsubset maxReplicas Hcap), Hvalue in Hexceeds. simpl in Hexceeds.
    destruct (Z.gtb_spec (int_add (percentSum pre) value) 100); [reflexivity|lia].
Qed.

(** ** Patch simulation *)

(** C1. After a merge that failed, the patch block reports the Invalid
    error that carries the failure of the merge on the patch field of the
    subset, and goes on: it decodes what the merge returned, and when that
    fails too it reports a second Invalid error on the same field, followed
    by the errors of the conversion and of the pod validation. A failed
    merge is therefore not answered by the merge error alone. *)
Theorem failed_merge_is_followed_by_further_patch_errors :
  forall (workloadTemplate : clientObject) (fldPath : Path) (i : nat)
         (subset : WorkloadSpreadSubset K) (raw modified : list byte)
         (podSpec : PodTemplateSpec) (mergeErr unmarshalErr : string)
         (newPod : Pod) (coreNewPod : core_Pod) (CovErr : option string),
    RawExtension.Raw (WorkloadSpreadSubset.Patch subset) = Some raw ->
    podSpecOf h workloadTemplate = Done podSpec ->
    StrategicMergePatch h (json_Marshal h podSpec) raw = (modified, Some mergeErr) ->
    json_Unmarshal h modified = (newPod, Some unmarshalErr) ->
    ConvertPod h newPod = (Some coreNewPod, CovErr) ->
    checkPatch h (Some workloadTemplate) fldPath i subset
    = Done (mergeError fldPath i raw mergeErr
            :: unmarshalError fldPath i raw unmarshalErr
            :: convertErrors fldPath i newPod (Some unmarshalErr) CovErr
            ++ ValidatePodSpec h coreNewPod (Child (Index fldPath i) "patch")).
Proof.
  intros workloadTemplate fldPath i subset raw modified podSpec mergeErr unmarshalErr
    newPod coreNewPod CovErr Hraw Hpod Hmerge Hunmarshal Hconvert.
  unfold checkPatch. rewrite Hraw, Hpod. cbn [mbind Outcome_bind].
  rewrite Hmerge, Hunmarshal, Hconvert. reflexivity.
Qed.

(** Without a resolved workload the patch block reports nothing. *)
Lemma checkPatch_no_template fldPath i (subset : WorkloadSpreadSubset K) :
  checkPatch h None fldPath i subset = Done [].
Proof. unfold checkPatch. destruct (RawExtension.Raw _); reflexivity. Qed.

(** Without a resolved workload an iteration does not look at the patch. *)
Lemma subsetBody_withoutPatch ws fldPath i subset v :
  subsetBody h ws None fldPath i (withoutPatch subset) v
  = subsetBody h ws None fldPath i subset v.
Proof.
  unfold subsetBody. rewrite !checkPatch_no_template. reflexivity.
Qed.

Lemma subsetsLoop_withoutPatch ws fldPath subsets : forall i v,
  subsetsLoop h ws None fldPath i (withoutPatch <$> subsets) v
  = subsetsLoop h ws None fldPath i subsets v.
Proof.
  induction subsets as [|subset rest IH]; intros i v; [reflexivity|].
  cbn [fmap list_fmap subsetsLoop]. rewrite subsetBody_withoutPatch.
  destruct (subsetBody h ws None fldPath i subset v) as [[v'|errs]|why];
    cbn [mbind Outcome_bind]; auto.
Qed.

(** Without a resolved workload the patches of the subsets have no part in
    their validation. *)
Lemma validateWorkloadSpreadSubsets_withoutPatch ws subsets fldPath :
  validateWorkloadSpreadSubsets h ws subsets None fldPath
  = validateWorkloadSpreadSubsets h ws (withoutPatch <$> subsets) None fldPath.
Proof.
  unfold validateWorkloadSpreadSubsets.
  rewrite length_fmap, subsetsLoop_withoutPatch.
  destruct (length subsets =? 0)%nat; [reflexivity|].
  destruct (subsetsLoop _ _ _ _ _ _ _) as [[v|errs]|why]; cbn [mbind Outcome_bind];
    try reflexivity.
  destruct (_ && _); [|reflexivity].
  unfold at_index. rewrite !list_lookup_fmap.
  destruct (subsets !! (length subsets - 1)%nat) as [lastSubset|];
    cbn [fmap option_fmap option_map mbind Outcome_bind]; [|reflexivity].
  destruct (notNil _); [|reflexivity].
  destruct (subsets !! 0%nat) as [firstSubset|]; reflexivity.
Qed.

(** ** The specification as a whole *)

Lemma int32_wrap_small z : - 2 ^ 31 <= z < 2 ^ 31 -> int32_wrap z = z.
Proof. intros Hz. unfold int32_wrap. rewrite Z.mod_small; lia. Qed.

Lemma allowedMaxSeconds_Done (spec : WorkloadSpreadSpec.t K) :
  Z.of_nat (length (WorkloadSpreadSpec.Subsets spec)) <= 2 ^ 31 ->
  allowedMaxSeconds spec
  = Done (allowedMax (Z.of_nat (length (WorkloadSpreadSpec.Subsets spec)))).
Proof.
  intros Hlen. unfold allowedMaxSeconds, allowedMax, MaxScheduledFailedDuration_Seconds.
  set (n := Z.of_nat (length (WorkloadSpreadSpec.Subsets spec))) in *.
  destruct (Z.ltb_spec 1 n) as [Hn|Hn]; [|reflexivity].
  rewrite (int32_wrap_small (300 - 5)) by lia.
  rewrite (int32_wrap_small (n - 1)) by lia.
  unfold int32_div. destruct (Z.eqb_spec (n - 1) 0) as [|_]; [lia|].
  rewrite Z.quot_div_nonneg by lia.
  assert (0 <= (300 - 5) / (n - 1) <= 295).
  { split; [apply Z.div_pos; lia|]. apply Z.div_le_upper_bound; nia. }
  rewrite int32_wrap_small by lia. reflexivity.
Qed.

(** The adaptive block, for a list of subsets of a length that fits
    [int32]. *)
Lemma checkAdaptive_Done (spec : WorkloadSpreadSpec.t K) fldPath adaptive :
  let strategy := WorkloadSpreadSpec.ScheduleStrategy spec in
  let subsets := WorkloadSpreadSpec.Subsets spec in
  let seconds := AdaptiveWorkloadSpreadStrategy.RescheduleCriticalSeconds adaptive in
  WorkloadSpreadScheduleStrategy.Adaptive strategy = Some adaptive ->
  Z.of_nat (length subsets) <= 2 ^ 31 ->
  exists typeErrs lastErrs,
    checkAdaptive h spec fldPath
    = Done (typeErrs ++ lastErrs ++
            checkRescheduleCriticalSeconds fldPath adaptive
              (allowedMax (Z.of_nat (length subsets)))) /\
    (typeErrs = [adaptiveTypeError fldPath seconds] \/ typeErrs = []) /\
    (WorkloadSpreadScheduleStrategy.Type_ strategy
     <> AdaptiveWorkloadSpreadScheduleStrategyType h ->
     typeErrs = [adaptiveTypeError fldPath seconds]) /\
    (lastErrs = [adaptiveLastSubsetError fldPath seconds] \/ lastErrs = []) /\
    ((1 < length subsets)%nat -> lastCapSet subsets ->
     lastErrs = [adaptiveLastSubsetError fldPath seconds]).
Proof.
  intros strategy subsets seconds Hadaptive Hlen. unfold checkAdaptive.
  fold strategy subsets. rewrite Hadaptive. fold seconds.
  rewrite (allowedMaxSeconds_Done spec Hlen). fold subsets.
  set (typeErrs := if negb _ then _ else _).
  assert (Hlast : exists lastSet : bool,
             (if 1 <? Z.of_nat (length subsets)
              then at_index subsets (length subsets - 1) ≫=
                   (fun last => Done (notNil (WorkloadSpreadSubset.MaxReplicas last)))
              else Done false) = Done lastSet /\
             ((1 < length subsets)%nat -> lastCapSet subsets -> lastSet = true)).
  { destruct (Z.ltb_spec 1 (Z.of_nat (length subsets))) as [Hn|Hn].
    - unfold at_index. rewrite Nat.sub_1_r, <- last_lookup.
      destruct (last subsets) as [lastSubset|] eqn:Elast.
      + eexists. split; [reflexivity|].
        intros _ (s & Hs & Hset). rewrite Elast in Hs. injection Hs as <-.
        destruct (WorkloadSpreadSubset.MaxReplicas lastSubset); [reflexivity|contradiction].
      + apply last_None in Elast. rewrite Elast in Hn. simpl in Hn. lia.
    - exists false. split; [reflexivity|]. intros. lia. }
  destruct Hlast as (lastSet & -> & HlastSet). cbn [mbind Outcome_bind].
  eexists typeErrs, _. split; [reflexivity|]. repeat split.
  - subst typeErrs. destruct (negb _); auto.
  - intros Hne. subst typeErrs.
    destruct (String.eqb_spec (WorkloadSpreadScheduleStrategy.Type_ strategy)
                (AdaptiveWorkloadSpreadScheduleStrategyType h)); [contradiction|reflexivity].
  - destruct lastSet; auto.
  - intros Hn Hset. rewrite (HlastSet Hn Hset). reflexivity.
Qed.

(** C5. For a specification with an adaptive configuration, validation
    reports Invalid on [scheduleStrategy.type] when the strategy type is
    not Adaptive, and Invalid on [scheduleStrategy.adaptive] when there is
    more than one subset and the last one has its cap set. *)
Theorem adaptive_needs_adaptive_type_and_open_last_subset :
  forall (obj : WorkloadSpread K) (fldPath : Path) (type : string)
         (adaptive : AdaptiveWorkloadSpreadStrategy.t),
    strategyOf obj = WorkloadSpreadScheduleStrategy.mk type (Some adaptive) ->
    subsetsValidationReturns obj fldPath ->
    Z.of_nat (length (subsetsOf obj)) <= 2 ^ 31 ->
    exists errs,
      validateWorkloadSpreadSpec h obj fldPath = Done errs /\
      (type <> AdaptiveWorkloadSpreadScheduleStrategyType h ->
       In (adaptiveTypeError fldPath
             (AdaptiveWorkloadSpreadStrategy.RescheduleCriticalSeconds adaptive)) errs) /\
      ((1 < length (subsetsOf obj))%nat -> lastCapSet (subsetsOf obj) ->
       In (adaptiveLastSubsetError fldPath
             (AdaptiveWorkloadSpreadStrategy.RescheduleCriticalSeconds adaptive)) errs).
Proof.
  intros obj fldPath type adaptive Hstrategy [subsetErrs Hsubsets] Hlen.
  unfold strategyOf, subsetsOf in *.
  assert (Hadaptive : WorkloadSpreadScheduleStrategy.Adaptive
                        (WorkloadSpreadSpec.ScheduleStrategy (WorkloadSpread.Spec obj))
                      = Some adaptive) by (rewrite Hstrategy; reflexivity).
  assert (Htype' : WorkloadSpreadScheduleStrategy.Type_
                     (WorkloadSpreadSpec.ScheduleStrategy (WorkloadSpread.Spec obj)) = type)
    by (rewrite Hstrategy; reflexivity).
  destruct (checkAdaptive_Done (WorkloadSpread.Spec obj) fldPath adaptive Hadaptive Hlen)
    as (typeErrs & lastErrs & Hcheck & _ & Htype & _ & Hlast).
  unfold validateWorkloadSpreadSpec.
  destruct (validateTargetRef h obj fldPath) as [refErrs workloadTemplate].
  simpl snd in Hsubsets. rewrite Hsubsets. cbn [mbind Outcome_bind].
  rewrite Hcheck. cbn [mbind Outcome_bind].
  eexists. split; [reflexivity|]. split.
  - intros Hne. rewrite Htype' in Htype. rewrite (Htype Hne).
    rewrite !in_app_iff. simpl. tauto.
  - intros Hn Hset. rewrite (Hlast Hn Hset).
    rewrite !in_app_iff. simpl. tauto.
Qed.

(** *** Where the errors of the specification are reported *)

Lemma validateTargetRef_fields obj fldPath :
  Forall (fun e => Field e = Child fldPath "targetRef") (fst (validateTargetRef h obj fldPath)).
Proof.
  unfold validateTargetRef.
  repeat match goal with
         | |- context [match ?x with _ => _ end] => destruct x
         end; simpl; repeat constructor.
Qed.

Lemma validateWorkloadSpreadSubsets_under ws subsets tmpl fldPath errs :
  ValidatorsReportUnder ->
  validateWorkloadSpreadSubsets h ws subsets tmpl fldPath = Done errs ->
  Forall (fun e => under fldPath (Field e)) errs.
Proof.
  intros Hval. unfold validateWorkloadSpreadSubsets.
  destruct (Nat.eqb_spec (length subsets) 0) as [_|_].
  { intros [= <-]. constructor; [apply under_refl | constructor]. }
  fold initialVars.
  destruct (subsetsLoop h ws tmpl fldPath 0 subsets initialVars) as [r|why] eqn:Hloop;
    [|discriminate].
  pose proof (subsetsLoop_fields ws tmpl fldPath subsets Hval 0 initialVars r
                (List.Forall_nil _) Hloop) as Hfields.
  cbn [mbind Outcome_bind]. destruct r as [v|returned].
  - assert (Hv : Forall (fun e => under fldPath (Field e)) (allErrs v)).
    { eapply Forall_impl; [exact Hfields|]. apply offMaxReplicas_under. }
    destruct (_ && _); [|intros [= <-]; exact Hv].
    destruct (at_index subsets (length subsets - 1)) as [lastSubset|]; [|discriminate].
    cbn [mbind Outcome_bind].
    destruct (notNil _); [|intros [= <-]; exact Hv].
    destruct (at_index subsets 0) as [firstSubset|]; [|discriminate].
    cbn [mbind Outcome_bind]. intros [= <-].
    apply Forall_app. split; [exact Hv|].
    constructor; [|constructor]. simpl. right. right. apply under_refl.
  - destruct Hfields as (accumulated & e & k & -> & Hacc & _ & Hfield).
    intros [= <-]. apply Forall_app. split.
    + eapply Forall_impl; [exact Hacc|]. apply offMaxReplicas_under.
    + constructor; [|constructor]. rewrite Hfield. simpl. right. right. apply under_refl.
Qed.

Lemma rescheduleField_not_under_subsets fldPath :
  ~ under (Child fldPath "subsets") (rescheduleField fldPath).
Proof.
  unfold rescheduleField. simpl.
  intros [Heq | [Heq | [Heq | Hunder]]]; try congruence.
  apply under_depth in Hunder. simpl in Hunder. lia.
Qed.

(** C6. For a specification with an adaptive configuration whose
    [RescheduleCriticalSeconds] is set, validation reports an Invalid error
    on [rescheduleCriticalSeconds] exactly when the value is below 0 or above
    the allowed maximum, which is [(300 - 5) / (subsetCount - 1)] for more
    than one subset and [MaxInt32] otherwise; the error names that maximum;
    and the value -1 is rejected whatever the number of subsets. *)
Theorem rescheduleCriticalSeconds_must_lie_within_bounds :
  forall (obj : WorkloadSpread K) (fldPath : Path) (type : string) (seconds : Z),
    strategyOf obj
    = WorkloadSpreadScheduleStrategy.mk type
        (Some (AdaptiveWorkloadSpreadStrategy.mk (Some seconds))) ->
    ValidatorsReportUnder ->
    subsetsValidationReturns obj fldPath ->
    Z.of_nat (length (subsetsOf obj)) <= 2 ^ 31 ->
    exists errs,
      validateWorkloadSpreadSpec h obj fldPath = Done errs /\
      ((exists e, In e errs /\ Type_ e = ErrorTypeInvalid /\
                  Field e = rescheduleField fldPath)
       <-> seconds < 0 \/ seconds > allowedMax (Z.of_nat (length (subsetsOf obj)))) /\
      (seconds < 0 \/ seconds > allowedMax (Z.of_nat (length (subsetsOf obj))) ->
       In (rescheduleError fldPath seconds (allowedMax (Z.of_nat (length (subsetsOf obj)))))
          errs) /\
      (seconds = -1 ->
       In (rescheduleError fldPath seconds (allowedMax (Z.of_nat (length (subsetsOf obj)))))
          errs).
Proof.
  intros obj fldPath type seconds Hstrategy Hval [subsetErrs Hsubsets] Hlen.
  unfold strategyOf, subsetsOf in *.
  set (adaptive := AdaptiveWorkloadSpreadStrategy.mk (Some seconds)) in *.
  set (allowed := allowedMax _).
  assert (Hadaptive : WorkloadSpreadScheduleStrategy.Adaptive
                        (WorkloadSpreadSpec.ScheduleStrategy (WorkloadSpread.Spec obj))
                      = Some adaptive) by (rewrite Hstrategy; reflexivity).
  destruct (checkAdaptive_Done (WorkloadSpread.Spec obj) fldPath adaptive Hadaptive Hlen)
    as (typeErrs & lastErrs & Hcheck & HtypeErrs & _ & HlastErrs & _).
  fold allowed in Hcheck.
  pose proof (validateTargetRef_fields obj fldPath) as HrefErrs.
  unfold validateWorkloadSpreadSpec.
  destruct (validateTargetRef h obj fldPath) as [refErrs workloadTemplate].
  simpl in Hsubsets, HrefErrs. rewrite Hsubsets. cbn [mbind Outcome_bind].
  rewrite Hcheck. cbn [mbind Outcome_bind].
  apply (validateWorkloadSpreadSubsets_under _ _ _ _ _ Hval) in Hsubsets.
  eexists. split; [reflexivity|].
  assert (Hreschedule :
            checkRescheduleCriticalSeconds fldPath adaptive allowed
            = if (seconds <? 0) || (seconds >? allowed)
              then [rescheduleError fldPath seconds allowed] else []) by reflexivity.
  assert (Hiff : (seconds <? 0) || (seconds >? allowed) = true
                 <-> seconds < 0 \/ seconds > allowed).
  { rewrite orb_true_iff, Z.ltb_lt, Z.gtb_gt. reflexivity. }
  assert (Hin : seconds < 0 \/ seconds > allowed ->
                In (rescheduleError fldPath seconds allowed)
                   ((((refErrs ++ subsetErrs) ++
                      checkScheduleStrategyType h (WorkloadSpread.Spec obj) fldPath) ++
                     typeErrs ++ lastErrs ++
                     checkRescheduleCriticalSeconds fldPath adaptive allowed) ++
                    checkTargetFilter h (WorkloadSpread.Spec obj) fldPath)).
  { intros Hout%Hiff. rewrite Hreschedule, Hout, !in_app_iff. simpl. tauto. }
  split; [split|split].
  - intros (e & He & _ & Hfield). rewrite Hreschedule in He.
    destruct ((seconds <? 0) || (seconds >? allowed)) eqn:Hout; [apply Hiff; reflexivity|].
    exfalso. rewrite !in_app_iff in He.
    destruct He as [[[[He|He]|He]|[He|[He|[]]]]|He].
    + rewrite Forall_forall in HrefErrs. apply list_elem_of_In, HrefErrs in He.
      unfold rescheduleField in Hfield. congruence.
    + rewrite Forall_forall in Hsubsets. apply list_elem_of_In, Hsubsets in He.
      rewrite Hfield in He. exact (rescheduleField_not_under_subsets fldPath He).
    + unfold checkScheduleStrategyType in He. destruct (_ && _); [|contradiction].
      destruct He as [<-|[]]. discriminate.
    + destruct HtypeErrs as [-> | ->]; [|contradiction].
      destruct He as [<-|[]]. discriminate.
    + destruct HlastErrs as [-> | ->]; [|contradiction].
      destruct He as [<-|[]]. discriminate.
    + unfold checkTargetFilter in He.
      destruct (WorkloadSpreadSpec.TargetFilter _) as [filter|]; [|contradiction].
      destruct (LabelSelectorAsSelector h _); [|contradiction].
      destruct He as [<-|[]]. discriminate.
  - intros Hout. exists (rescheduleError fldPath seconds allowed).
    split; [apply Hin, Hout | split; reflexivity].
  - exact Hin.
  - intros ->. apply Hin. left. lia.
Qed.

(** *** Fetching the target *)

(** C9. When the reference is of a recognized kind and group and the
    fetch of the workload fails, whatever the failure, the [targetRef] block
    reports no error and leaves the workload template unset; with the
    template unset the patch block of every subset reports nothing, and the
    subsets are validated as if they had no patch. *)
Theorem failed_fetch_reports_nothing_and_skips_patches :
  forall (obj : WorkloadSpread K) (fldPath : Path) (ref : TargetReference),
    WorkloadSpreadSpec.TargetReference (WorkloadSpread.Spec obj) = Some ref ->
    TargetReference.APIVersion ref <> "" ->
    TargetReference.Name ref <> "" ->
    recognizedButNotFetched obj ref ->
    validateTargetRef h obj fldPath = ([], None) /\
    (forall subsetsPath i subset,
        checkPatch h (snd (validateTargetRef h obj fldPath)) subsetsPath i subset = Done []) /\
    (forall subsetsPath,
        validateWorkloadSpreadSubsets h obj (subsetsOf obj)
          (snd (validateTargetRef h obj fldPath)) subsetsPath
        = validateWorkloadSpreadSubsets h obj (withoutPatch <$> subsetsOf obj)
            None subsetsPath).
Proof.
  intros obj fldPath ref Href Hversion Hname Hmissing.
  assert (Hresolve : validateTargetRef h obj fldPath = ([], None)).
  { unfold validateTargetRef. rewrite Href.
    destruct (String.eqb_spec (TargetReference.APIVersion ref) ""); [contradiction|].
    destruct (String.eqb_spec (TargetReference.Name ref) ""); [contradiction|].
    cbn [controllerKruiseKindCS controllerKindDep controllerKindRS controllerKindJob
         controllerKindSts WithKind GroupVersionKind.Kind orb].
    destruct Hmissing as [err Hkind Hverify Hget | err Hkind Hverify Hget
                         | err Hkind Hverify Hget | err Hkind Hverify Hget
                         | err Hkind Hverify Hget];
      rewrite Hkind; cbn [String.eqb Ascii.eqb Bool.eqb andb];
      cbn [controllerKruiseKindCS controllerKindDep controllerKindRS controllerKindJob
           controllerKindSts WithKind GroupVersionKind.Kind] in Hverify |- *;
      rewrite Hverify; cbn [negb orb notNil]; rewrite Hget; reflexivity. }
  split; [exact Hresolve|]. split.
  - intros subsetsPath i subset. rewrite Hresolve. apply checkPatch_no_template.
  - intros subsetsPath. rewrite Hresolve. apply validateWorkloadSpreadSubsets_withoutPatch.
Qed.

(** * Further properties *)

(** ** [verifyGroupKind] *)

(** X1. [verifyGroupKind] answers true exactly when the API version
    parses, the kind is the expected one and the parsed group is one of the
    expected groups; the error it returns is the error of the parse, and it
    never answers true together with an error. *)
Theorem verifyGroupKind_accepts_exactly :
  forall (ref : TargetReference) (expectedKind : string) (expectedGroups : list string),
    (verifyGroupKind h ref expectedKind expectedGroups = (true, None)
     <-> snd (ParseGroupVersion h (TargetReference.APIVersion ref)) = None /\
         TargetReference.Kind ref = expectedKind /\
         In (parsedGroup ref) expectedGroups) /\
    snd (verifyGroupKind h ref expectedKind expectedGroups)
    = snd (ParseGroupVersion h (TargetReference.APIVersion ref)) /\
    (fst (verifyGroupKind h ref expectedKind expectedGroups) = true ->
     snd (verifyGroupKind h ref expectedKind expectedGroups) = None).
Proof.
  intros ref expectedKind expectedGroups. unfold verifyGroupKind, parsedGroup.
  destruct (ParseGroupVersion h (TargetReference.APIVersion ref)) as [gv [e|]]; simpl.
  { repeat split; try discriminate. intros [? _]. discriminate. }
  destruct (String.eqb_spec (TargetReference.Kind ref) expectedKind) as [Hkind|Hkind]; simpl.
  2:{ repeat split; try discriminate. intros (_ & ? & _). contradiction. }
  destruct (existsb _ expectedGroups) eqn:Hgroups; repeat split; auto; try discriminate.
  - apply existsb_exists in Hgroups as (group & Hin & Heq).
    apply String.eqb_eq in Heq. subst group. exact Hin.
  - intros (_ & _ & Hin). exfalso.
    assert (Htrue : existsb (fun group => (group =? GroupVersion.Group gv)%string)
                      expectedGroups = true).
    { apply existsb_exists. exists (GroupVersion.Group gv). split; [exact Hin|].
      apply String.eqb_refl. }
    congruence.
Qed.

(** ** [withVolumeClaimTemplates] *)

Lemma withVolumeClaimTemplates_addVolumes claims : forall pod,
  withVolumeClaimTemplates pod claims = addVolumes pod (claimVolume <$> claims).
Proof.
  unfold withVolumeClaimTemplates.
  induction claims as [|pvc rest IH]; intros [meta [volumes fields]]; simpl.
  - unfold addVolumes. simpl. rewrite app_nil_r. reflexivity.
  - rewrite IH. unfold addVolumes, claimVolume. simpl. rewrite <- app_assoc. reflexivity.
Qed.

(** X2. [withVolumeClaimTemplates] keeps the metadata, the other fields
    and the volumes of the pod template, and adds after them one volume per
    claim template, in the order of the claims, named after its claim and
    bound to it; adding the claims in two batches is adding them at once. *)
Theorem withVolumeClaimTemplates_appends_one_volume_per_claim :
  forall (pod : PodTemplateSpec) (claims more : list PersistentVolumeClaim),
    Template_ObjectMeta (withVolumeClaimTemplates pod claims) = Template_ObjectMeta pod /\
    podSpecFields (Template_Spec (withVolumeClaimTemplates pod claims))
    = podSpecFields (Template_Spec pod) /\
    Volumes (Template_Spec (withVolumeClaimTemplates pod claims))
    = Volumes (Template_Spec pod) ++ (claimVolume <$> claims) /\
    (forall j pvc,
        claims !! j = Some pvc ->
        Volumes (Template_Spec (withVolumeClaimTemplates pod claims))
          !! (length (Volumes (Template_Spec pod)) + j)%nat
        = Some (claimVolume pvc)) /\
    withVolumeClaimTemplates (withVolumeClaimTemplates pod claims) more
    = withVolumeClaimTemplates pod (claims ++ more).
Proof.
  intros pod claims more. rewrite !withVolumeClaimTemplates_addVolumes.
  repeat split; try reflexivity.
  - intros j pvc Hj. simpl. rewrite lookup_app_r by lia.
    replace (length (Volumes (Template_Spec pod)) + j - length (Volumes (Template_Spec pod)))%nat
      with j by lia.
    rewrite list_lookup_fmap, Hj. reflexivity.
  - unfold addVolumes. simpl. rewrite fmap_app, app_assoc. reflexivity.
Qed.

(** ** The [targetRef] block *)

Lemma verifyGroupKind_true ref expectedKind expectedGroups :
  fst (verifyGroupKind h ref expectedKind expectedGroups) = true
  <-> snd (ParseGroupVersion h (TargetReference.APIVersion ref)) = None /\
      TargetReference.Kind ref = expectedKind /\
      In (parsedGroup ref) expectedGroups.
Proof.
  unfold verifyGroupKind, parsedGroup.
  destruct (ParseGroupVersion h (TargetReference.APIVersion ref)) as [gv [e|]]; simpl.
  { split; [discriminate | intros [? _]; discriminate]. }
  destruct (String.eqb_spec (TargetReference.Kind ref) expectedKind) as [Hkind|Hkind]; simpl.
  2:{ split; [discriminate | intros (_ & ? & _); contradiction]. }
  destruct (existsb _ expectedGroups) eqn:Hgroups; simpl.
  - split; [|reflexivity]. intros _. repeat split; auto.
    apply existsb_exists in Hgroups as (group & Hin & Heq).
    apply String.eqb_eq in Heq. subst group. exact Hin.
  - split; [discriminate|]. intros (_ & _ & Hin). exfalso.
    assert (Htrue : existsb (fun group => (group =? GroupVersion.Group gv)%string)
                      expectedGroups = true).
    { apply existsb_exists. exists (GroupVersion.Group gv). split; [exact Hin|].
      apply String.eqb_refl. }
    congruence.
Qed.

(** X3. The [targetRef] block reports at most one error, always on the
    [targetRef] field, and it leaves a workload template only when it
    reports no error: the template is then the object the client returned
    for the reference, of the Go type of the reference's kind. *)
Theorem validateTargetRef_one_error_or_a_template :
  forall (obj : WorkloadSpread K) (fldPath : Path),
    (length (fst (validateTargetRef h obj fldPath)) <= 1)%nat /\
    (forall e, In e (fst (validateTargetRef h obj fldPath)) ->
               Field e = Child fldPath "targetRef") /\
    (forall template,
        snd (validateTargetRef h obj fldPath) = Some template ->
        fst (validateTargetRef h obj fldPath) = [] /\
        exists ref,
          WorkloadSpreadSpec.TargetReference (WorkloadSpread.Spec obj) = Some ref /\
          TargetReference.APIVersion ref <> "" /\
          TargetReference.Name ref <> "" /\
          fetchedFor obj ref template).
Proof.
  intros obj fldPath. split; [|split].
  - unfold validateTargetRef.
    repeat match goal with
           | |- context [match ?x with _ => _ end] => destruct x
           end; simpl; lia.
  - intros e He. pose proof (validateTargetRef_fields obj fldPath) as Hall.
    rewrite Forall_forall in Hall. apply Hall, list_elem_of_In, He.
  - intros template. unfold validateTargetRef, fetchedFor, targetKey.
    destruct (WorkloadSpreadSpec.TargetReference (WorkloadSpread.Spec obj)) as [ref|];
      [|discriminate].
    destruct (String.eqb_spec (TargetReference.APIVersion ref) ""); [discriminate|].
    destruct (String.eqb_spec (TargetReference.Name ref) ""); [discriminate|].
    destruct (String.eqb_spec (TargetReference.Kind ref) ""); [discriminate|].
    cbn [controllerKruiseKindCS controllerKindDep controllerKindRS controllerKindJob
         controllerKindSts WithKind GroupVersionKind.Kind orb].
    destruct (String.eqb_spec (TargetReference.Kind ref) "CloneSet") as [Hkind|_].
    { destruct (verifyGroupKind h ref _ _) as [ok err].
      destruct (negb ok || notNil err); [discriminate|].
      destruct (Get_CloneSet h _) as [o|] eqn:Hget; [|discriminate].
      intros [= <-]. split; [reflexivity|]. exists ref. auto. }
    destruct (String.eqb_spec (TargetReference.Kind ref) "Deployment") as [Hkind|_].
    { destruct (verifyGroupKind h ref _ _) as [ok err].
      destruct (negb ok || notNil err); [discriminate|].
      destruct (Get_Deployment h _) as [o|] eqn:Hget; [|discriminate].
      intros [= <-]. split; [reflexivity|]. exists ref. auto. }
    destruct (String.eqb_spec (TargetReference.Kind ref) "ReplicaSet") as [Hkind|_].
    { destruct (verifyGroupKind h ref _ _) as [ok err].
      destruct (negb ok || notNil err); [discriminate|].
      destruct (Get_ReplicaSet h _) as [o|] eqn:Hget; [|discriminate].
      intros [= <-]. split; [reflexivity|]. exists ref. auto. }
    destruct (String.eqb_spec (TargetReference.Kind ref) "Job") as [Hkind|_].
    { destruct (verifyGroupKind h ref _ _) as [ok err].
      destruct (negb ok || notNil err); [discriminate|].
      destruct (Get_Job h _) as [o|] eqn:Hget; [|discriminate].
      intros [= <-]. split; [reflexivity|]. exists ref. auto. }
    destruct (String.eqb_spec (TargetReference.Kind ref) "StatefulSet") as [Hkind|_].
    { destruct (verifyGroupKind h ref _ _) as [ok err].
      destruct (negb ok || notNil err); [discriminate|].
      destruct (Get_StatefulSet h _) as [o|] eqn:Hget; [|discriminate].
      intros [= <-]. split; [reflexivity|]. exists ref. auto. }
    destruct (GetWSWatchCustomWorkloadWhiteList h); [|discriminate].
    destruct (negb _); discriminate.
Qed.

(** X4. For a reference with its three fields set and a kind the
    validation does not know by name, the [targetRef] block consults the
    white list of custom workloads: a failure to read it is an internal
    error; otherwise the reference passes exactly when its API version parses
    and the list names its kind with its parsed group. No workload is
    fetched in either case. *)
Theorem custom_kind_passes_exactly_when_white_listed :
  forall (obj : WorkloadSpread K) (fldPath : Path) (ref : TargetReference),
    WorkloadSpreadSpec.TargetReference (WorkloadSpread.Spec obj) = Some ref ->
    TargetReference.APIVersion ref <> "" ->
    TargetReference.Name ref <> "" ->
    TargetReference.Kind ref <> "" ->
    ~ builtinKind (TargetReference.Kind ref) ->
    (forall err,
        GetWSWatchCustomWorkloadWhiteList h = Err err ->
        validateTargetRef h obj fldPath
        = ([InternalError (Child fldPath "targetRef") err], None)) /\
    (forall whiteList,
        GetWSWatchCustomWorkloadWhiteList h = Ok whiteList ->
        (whiteListed whiteList ref -> validateTargetRef h obj fldPath = ([], None)) /\
        (~ whiteListed whiteList ref ->
         validateTargetRef h obj fldPath = ([notPermittedError fldPath ref], None))).
Proof.
  intros obj fldPath ref Href Hversion Hname Hkind Hcustom.
  assert (Hunfold : validateTargetRef h obj fldPath =
            match GetWSWatchCustomWorkloadWhiteList h with
            | Err err => ([InternalError (Child fldPath "targetRef") err], None)
            | Ok whiteList =>
                if negb (existsb (fun wl => fst (verifyGroupKind h ref (SchemaGroupKind.Kind wl)
                                                   [SchemaGroupKind.Group wl])) whiteList)
                then ([notPermittedError fldPath ref], None)
                else ([], None)
            end).
  { unfold validateTargetRef. rewrite Href.
    destruct (String.eqb_spec (TargetReference.APIVersion ref) ""); [contradiction|].
    destruct (String.eqb_spec (TargetReference.Name ref) ""); [contradiction|].
    destruct (String.eqb_spec (TargetReference.Kind ref) ""); [contradiction|].
    cbn [controllerKruiseKindCS controllerKindDep controllerKindRS controllerKindJob
         controllerKindSts WithKind GroupVersionKind.Kind orb].
    unfold builtinKind in Hcustom.
    destruct (String.eqb_spec (TargetReference.Kind ref) "CloneSet"); [tauto|].
    destruct (String.eqb_spec (TargetReference.Kind ref) "Deployment"); [tauto|].
    destruct (String.eqb_spec (TargetReference.Kind ref) "ReplicaSet"); [tauto|].
    destruct (String.eqb_spec (TargetReference.Kind ref) "Job"); [tauto|].
    destruct (String.eqb_spec (TargetReference.Kind ref) "StatefulSet"); [tauto|].
    reflexivity. }
  rewrite Hunfold. split.
  - intros err ->. reflexivity.
  - intros whiteList ->.
    assert (Hmatched : existsb (fun wl => fst (verifyGroupKind h ref (SchemaGroupKind.Kind wl)
                                                 [SchemaGroupKind.Group wl])) whiteList = true
                       <-> whiteListed whiteList ref).
    { rewrite existsb_exists. unfold whiteListed. split.
      - intros (wl & Hin & Hok). apply verifyGroupKind_true in Hok as (Hparse & Hk & Hg).
        split; [exact Hparse|]. exists wl. repeat split; auto.
        destruct Hg as [Hg | []]. exact Hg.
      - intros (Hparse & wl & Hin & Hk & Hg). exists wl. split; [exact Hin|].
        apply verifyGroupKind_true. repeat split; auto. left. auto. }
    destruct (existsb _ whiteList); simpl; split; intros Hw; try reflexivity.
    + exfalso. apply Hw, Hmatched. reflexivity.
    + apply Hmatched in Hw. discriminate.
Qed.

(** ** Subset validation: what it keeps and what it never does *)

(** An iteration only adds to the errors it is given. *)
Lemma subsetsLoop_grows ws tmpl fldPath subsets : forall i v r,
  subsetsLoop h ws tmpl fldPath i subsets v = Done r ->
  exists more, errorsOf r = allErrs v ++ more.
Proof.
  induction subsets as [|subset rest IH]; intros i v r; simpl.
  - intros [= <-]. exists []. simpl. rewrite app_nil_r. reflexivity.
  - destruct (subsetBody h ws tmpl fldPath i subset v) as [r'|why] eqn:Hbody; simpl;
      [|discriminate].
    apply subsetBody_Done in Hbody as (patchErrs & _ & Hr). simpl in Hr.
    destruct (checkMaxReplicas _ _ _ _ _ _ _) as [sum first|e]; subst r'.
    + intros Hloop. apply IH in Hloop as [more Hmore]. simpl in Hmore.
      rewrite Hmore, <- app_assoc. eexists. reflexivity.
    + intros [= <-]. simpl. rewrite <- app_assoc. eexists. reflexivity.
Qed.

(** A loop that returns early returns at least the error of the rejection. *)
Lemma subsetsLoop_Return_nonempty ws tmpl fldPath subsets : forall i v errs,
  subsetsLoop h ws tmpl fldPath i subsets v = Done (Return errs) -> errs <> [].
Proof.
  induction subsets as [|subset rest IH]; intros i v errs; simpl; [discriminate|].
  destruct (subsetBody h ws tmpl fldPath i subset v) as [r'|why] eqn:Hbody; simpl;
    [|discriminate].
  apply subsetBody_Done in Hbody as (patchErrs & _ & Hr). simpl in Hr.
  destruct (checkMaxReplicas _ _ _ _ _ _ _) as [sum first|e]; subst r'.
  - apply IH.
  - intros [= <-]. intros Hnil. apply app_eq_nil in Hnil as [_ Hnil]. discriminate.
Qed.

(** An accepted list is not empty, its loop ran to its end without
    reporting anything, and the check after the loop did not fire. *)
Lemma accepted_ran_clean ws subsets tmpl fldPath :
  validateWorkloadSpreadSubsets h ws subsets tmpl fldPath = Done [] ->
  subsets <> [] /\
  ~ sumFallsShort subsets /\
  exists v,
    subsetsLoop h ws tmpl fldPath 0 subsets initialVars = Done (Continue v) /\
    allErrs v = [].
Proof.
  intros Hok.
  assert (Hne : subsets <> []).
  { intros ->. discriminate. }
  split; [exact Hne|].
  destruct (subsetsLoop h ws tmpl fldPath 0 subsets initialVars) as [[v|errs]|why] eqn:Hloop.
  - destruct (validateWorkloadSpreadSubsets_Continue ws subsets tmpl fldPath v Hne Hloop)
      as [[_ Hrun] | [Hshort Hrun]]; rewrite Hrun in Hok.
    + injection Hok as Hok. apply app_eq_nil in Hok as [_ ?]. discriminate.
    + injection Hok as Hok. split; [exact Hshort|]. exists v. auto.
  - exfalso. apply subsetsLoop_Return_nonempty in Hloop as Hnonempty.
    unfold validateWorkloadSpreadSubsets in Hok. fold initialVars in Hok.
    rewrite Hloop in Hok.
    destruct (length subsets =? 0)%nat; [discriminate|].
    cbn [mbind Outcome_bind] in Hok. congruence.
  - exfalso. unfold validateWorkloadSpreadSubsets in Hok. fold initialVars in Hok.
    rewrite Hloop in Hok. destruct (length subsets =? 0)%nat; discriminate.
Qed.

(** What the name check reports and what it leaves in [subSetNames]. *)
Lemma checkName_cases fldPath i (subset : WorkloadSpreadSubset K) names :
  let name := WorkloadSpreadSubset.Name subset in
  (name = "" /\
   checkName fldPath i subset names = ([emptyNameError fldPath i], names)) \/
  (name <> "" /\ (name ∈ names) /\
   checkName fldPath i subset names
   = ([duplicatedNameError fldPath i name], {[name]} ∪ names)) \/
  (name <> "" /\ (name ∉ names) /\
   checkName fldPath i subset names = ([], {[name]} ∪ names)).
Proof.
  intros name. unfold checkName. fold name.
  destruct (String.eqb_spec name "") as [Hempty|Hname].
  - left. rewrite Hempty. auto.
  - right. destruct (bool_decide_reflect (name ∈ names)); [left|right]; auto.
Qed.

(** The names a loop that ran to its end has met: the non-empty names of
    its subsets. *)
Lemma subsetsLoop_names ws tmpl fldPath subsets : forall i v v' name,
  subsetsLoop h ws tmpl fldPath i subsets v = Done (Continue v') ->
  (name ∈ subSetNames v')
  <-> (name ∈ subSetNames v) \/ (name <> "" /\ In name (namesOf subsets)).
Proof.
  induction subsets as [|subset rest IH]; intros i v v' name; simpl.
  - intros [= <-]. split; [auto | intros [? | [_ []]]; auto].
  - destruct (subsetBody h ws tmpl fldPath i subset v) as [r'|why] eqn:Hbody; simpl;
      [|discriminate].
    apply subsetBody_Done in Hbody as (patchErrs & _ & Hr). simpl in Hr.
    destruct (checkMaxReplicas _ _ _ _ _ _ _) as [sum first|e]; subst r'; [|discriminate].
    intros Hloop. rewrite (IH _ _ _ name Hloop). simpl.
    destruct (checkName_cases fldPath i subset (subSetNames v))
      as [[Hn ->] | [(Hn & _ & ->) | (Hn & _ & ->)]]; simpl.
    + rewrite Hn. split; [intros [? | [? ?]]; auto | intros [? | [? [? | ?]]]; auto].
      congruence.
    + rewrite elem_of_union, elem_of_singleton.
      split; [intros [[-> | ?] | [? ?]]; auto | intros [? | [? [<- | ?]]]; auto].
    + rewrite elem_of_union, elem_of_singleton.
      split; [intros [[-> | ?] | [? ?]]; auto | intros [? | [? [<- | ?]]]; auto].
Qed.

(** A loop that ran to its end without reporting anything met only
    non-empty names, each of them once. *)
Lemma subsetsLoop_clean_names ws tmpl fldPath subsets : forall i v v',
  subsetsLoop h ws tmpl fldPath i subsets v = Done (Continue v') ->
  allErrs v' = [] ->
  Forall (fun name => name <> "" /\ name ∉ subSetNames v) (namesOf subsets) /\
  NoDup (namesOf subsets).
Proof.
  induction subsets as [|subset rest IH]; intros i v v'; simpl.
  - intros _ _. split; constructor.
  - destruct (subsetBody h ws tmpl fldPath i subset v) as [r'|why] eqn:Hbody; simpl;
      [|discriminate].
    apply subsetBody_Done in Hbody as (patchErrs & _ & Hr). simpl in Hr.
    destruct (checkMaxReplicas _ _ _ _ _ _ _) as [sum first|e]; subst r'; [|discriminate].
    intros Hloop Hclean.
    destruct (subsetsLoop_grows _ _ _ _ _ _ _ Hloop) as [more Hmore]. simpl in Hmore.
    rewrite Hclean in Hmore. symmetry in Hmore.
    apply app_eq_nil in Hmore as [Hmore _]. apply app_eq_nil in Hmore as [_ Hstruct].
    unfold structuralErrs in Hstruct. apply app_eq_nil in Hstruct as [Hname _].
    destruct (IH _ _ _ Hloop Hclean) as [Hrest Hnodup]. simpl in Hrest.
    destruct (checkName_cases fldPath i subset (subSetNames v))
      as [[Hn Hc] | [(Hn & Hin & Hc) | (Hn & Hin & Hc)]];
      rewrite Hc in Hname, Hrest; simpl in Hname, Hrest; try discriminate.
    split.
    + constructor; [auto|]. eapply Forall_impl; [exact Hrest|].
      intros name [Hne Hnotin]. split; [exact Hne|].
      intros Hin'. apply Hnotin, elem_of_union. right. exact Hin'.
    + apply NoDup_cons. split; [|exact Hnodup].
      intros Hdup. rewrite Forall_forall in Hrest.
      destruct (Hrest _ Hdup) as [_ Hnotin].
      apply Hnotin, elem_of_union. left. apply elem_of_singleton. reflexivity.
Qed.

Lemma isStatefulSet_true ws :
  statefulSetTarget ws ->
  match WorkloadSpreadSpec.TargetReference (WorkloadSpread.Spec ws) with
  | None => false
  | Some ref => (TargetReference.Kind ref =? GroupVersionKind.Kind (controllerKindSts h))%string
  end = true.
Proof.
  intros (ref & -> & Hkind). cbn [controllerKindSts WithKind GroupVersionKind.Kind].
  rewrite Hkind. reflexivity.
Qed.

Lemma firstTypeFrom_Some type (subsets : list (WorkloadSpreadSubset K)) :
  firstTypeFrom (Some type) subsets = Some type.
Proof. induction subsets as [|subset rest IH]; simpl; auto. Qed.

(** What the [MaxReplicas] block has checked of a cap it accepts. *)
Lemma checkMaxReplicas_Accept_cap ws fldPath i subset sum first sum' first' maxReplicas :
  checkMaxReplicas h ws fldPath i subset sum first = Accept sum' first' ->
  WorkloadSpreadSubset.MaxReplicas subset = Some maxReplicas ->
  (first = None \/ first = Some (IntOrString.Type_ maxReplicas)) /\
  (statefulSetTarget ws -> IntOrString.Type_ maxReplicas = intstr.Int) /\
  (exists value,
      GetValueFromIntOrPercent h (Some maxReplicas) 100 true = (value, None) /\ 0 <= value) /\
  (sum <= 100 -> sum' <= 100).
Proof.
  unfold checkMaxReplicas. intros Hcheck Hcap. rewrite Hcap in Hcheck.
  assert (Hfirst : first = None \/ first = Some (IntOrString.Type_ maxReplicas)).
  { destruct first as [t|]; [|auto].
    destruct (Z.eqb_spec (IntOrString.Type_ maxReplicas) t); [subst; auto|discriminate]. }
  split; [exact Hfirst|].
  replace (match first with None => false | Some f => negb (IntOrString.Type_ maxReplicas =? f) end)
    with false in Hcheck.
  2:{ destruct Hfirst as [-> | ->]; [reflexivity|]. rewrite Z.eqb_refl. reflexivity. }
  destruct (match WorkloadSpreadSpec.TargetReference (WorkloadSpread.Spec ws) with
            | None => false
            | Some ref => _
            end) eqn:Hsts.
  - destruct (Z.eqb_spec (IntOrString.Type_ maxReplicas) intstr.Int) as [Hint|];
      [|discriminate].
    cbn [negb andb] in Hcheck.
    destruct (GetValueFromIntOrPercent h (Some maxReplicas) 100 true) as [value [err|]];
      [discriminate|].
    cbn [notNil orb] in Hcheck.
    destruct (Z.ltb_spec value 0); [discriminate|].
    rewrite Hint in Hcheck. change (intstr.Int =? intstr.String) with false in Hcheck.
    injection Hcheck as <- _.
    split; [auto|]. split; [exists value; auto | auto].
  - cbn [andb] in Hcheck.
    destruct (GetValueFromIntOrPercent h (Some maxReplicas) 100 true) as [value [err|]];
      [discriminate|].
    cbn [notNil orb] in Hcheck.
    destruct (Z.ltb_spec value 0); [discriminate|].
    split.
    { intros Hyes. apply isStatefulSet_true in Hyes. congruence. }
    split; [exists value; auto|].
    destruct (IntOrString.Type_ maxReplicas =? intstr.String).
    + destruct (Z.gtb_spec (int_add sum value) 100); [discriminate|].
      injection Hcheck as <- _. lia.
    + injection Hcheck as <- _. auto.
Qed.

(** The caps of a loop that ran to its end. *)
Lemma subsetsLoop_caps ws tmpl fldPath subsets : forall i v v',
  subsetsLoop h ws tmpl fldPath i subsets v = Done (Continue v') ->
  forall subset maxReplicas,
    In subset subsets ->
    WorkloadSpreadSubset.MaxReplicas subset = Some maxReplicas ->
    firstTypeFrom (firstMaxReplicasType v) subsets = Some (IntOrString.Type_ maxReplicas) /\
    (statefulSetTarget ws -> IntOrString.Type_ maxReplicas = intstr.Int) /\
    exists value,
      GetValueFromIntOrPercent h (Some maxReplicas) 100 true = (value, None) /\ 0 <= value.
Proof.
  induction subsets as [|subset0 rest IH]; intros i v v' Hloop subset maxReplicas Hin Hcap;
    [destruct Hin|].
  simpl in Hloop.
  destruct (subsetBody h ws tmpl fldPath i subset0 v) as [r'|why] eqn:Hbody; simpl in Hloop;
    [|discriminate].
  apply subsetBody_Done in Hbody as (patchErrs & _ & Hr). simpl in Hr.
  destruct (checkMaxReplicas _ _ _ _ _ _ _) as [sum first|e] eqn:Hcheck; subst r';
    [|discriminate].
  pose proof (checkMaxReplicas_Accept _ _ _ _ _ _ _ _ Hcheck) as [_ Hfirst'].
  destruct Hin as [<- | Hin].
  - destruct (checkMaxReplicas_Accept_cap _ _ _ _ _ _ _ _ _ Hcheck Hcap)
      as (Hfirst & Hsts & Hvalue & _).
    split; [|auto]. simpl. rewrite Hcap.
    destruct Hfirst as [-> | ->]; apply firstTypeFrom_Some.
  - specialize (IH _ _ _ Hloop subset maxReplicas Hin Hcap). simpl in IH.
    rewrite Hfirst' in IH. exact IH.
Qed.

(** The running sum of a loop that ran to its end never passed 100. *)
Lemma subsetsLoop_sums ws tmpl fldPath subsets : forall i v v',
  subsetsLoop h ws tmpl fldPath i subsets v = Done (Continue v') ->
  maxReplicasSum v <= 100 ->
  forall k, percentSumFrom (maxReplicasSum v) (take k subsets) <= 100.
Proof.
  induction subsets as [|subset0 rest IH]; intros i v v' Hloop Hsum k.
  - rewrite take_nil. exact Hsum.
  - destruct k as [|k]; [exact Hsum|]. simpl in Hloop |- *.
    destruct (subsetBody h ws tmpl fldPath i subset0 v) as [r'|why] eqn:Hbody; simpl in Hloop;
      [|discriminate].
    apply subsetBody_Done in Hbody as (patchErrs & _ & Hr). simpl in Hr.
    destruct (checkMaxReplicas _ _ _ _ _ _ _) as [sum first|e] eqn:Hcheck; subst r';
      [|discriminate].
    pose proof (checkMaxReplicas_Accept _ _ _ _ _ _ _ _ Hcheck) as [Hsum' _].
    rewrite <- Hsum'. apply (IH _ _ _ Hloop). simpl.
    destruct (WorkloadSpreadSubset.MaxReplicas subset0) as [maxReplicas|] eqn:Hcap.
    + destruct (checkMaxReplicas_Accept_cap _ _ _ _ _ _ _ _ _ Hcheck Hcap) as (_ & _ & _ & Hle).
      auto.
    + unfold percentOf in Hsum'. rewrite Hcap in Hsum'. lia.
Qed.

(** X5. The subsets of an accepted list bear names that are not empty
    and differ from one another, and the list is not empty. *)
Theorem accepted_subsets_have_distinct_names :
  forall (ws : WorkloadSpread K) (subsets : list (WorkloadSpreadSubset K))
         (tmpl : option clientObject) (fldPath : Path),
    validateWorkloadSpreadSubsets h ws subsets tmpl fldPath = Done [] ->
    subsets <> [] /\
    Forall (fun name => name <> "") (namesOf subsets) /\
    NoDup (namesOf subsets).
Proof.
  intros ws subsets tmpl fldPath Hok.
  destruct (accepted_ran_clean ws subsets tmpl fldPath Hok) as (Hne & _ & v & Hloop & Hclean).
  destruct (subsetsLoop_clean_names _ _ _ _ _ _ _ Hloop Hclean) as [Hnames Hnodup].
  split; [exact Hne|]. split; [|exact Hnodup].
  eapply Forall_impl; [exact Hnames|]. intros name [Hname _]. exact Hname.
Qed.

(** X6. The caps of an accepted list are all of the type of the first
    cap, each resolves against 100, without error, to a value that is not
    negative, and for a StatefulSet each is a count. *)
Theorem accepted_caps_share_one_type_and_resolve :
  forall (ws : WorkloadSpread K) (subsets : list (WorkloadSpreadSubset K))
         (tmpl : option clientObject) (fldPath : Path),
    validateWorkloadSpreadSubsets h ws subsets tmpl fldPath = Done [] ->
    forall subset maxReplicas,
      In subset subsets ->
      WorkloadSpreadSubset.MaxReplicas subset = Some maxReplicas ->
      firstType subsets = Some (IntOrString.Type_ maxReplicas) /\
      (statefulSetTarget ws -> IntOrString.Type_ maxReplicas = intstr.Int) /\
      exists value,
        GetValueFromIntOrPercent h (Some maxReplicas) 100 true = (value, None) /\ 0 <= value.
Proof.
  intros ws subsets tmpl fldPath Hok subset maxReplicas Hin Hcap.
  destruct (accepted_ran_clean ws subsets tmpl fldPath Hok) as (_ & _ & v & Hloop & _).
  exact (subsetsLoop_caps _ _ _ _ _ _ _ Hloop subset maxReplicas Hin Hcap).
Qed.

(** X7. In an accepted list the percentages summed over any prefix of
    the subsets stay within 100, and when the caps are percentages and the
    last subset has its cap set they sum to exactly 100. *)
Theorem accepted_percentages_sum_to_100 :
  forall (ws : WorkloadSpread K) (subsets : list (WorkloadSpreadSubset K))
         (tmpl : option clientObject) (fldPath : Path),
    validateWorkloadSpreadSubsets h ws subsets tmpl fldPath = Done [] ->
    (forall k, percentSum (take k subsets) <= 100) /\
    (firstType subsets = Some intstr.String -> lastCapSet subsets ->
     percentSum subsets = 100).
Proof.
  intros ws subsets tmpl fldPath Hok.
  destruct (accepted_ran_clean ws subsets tmpl fldPath Hok) as (_ & Hshort & v & Hloop & _).
  assert (Hsums : forall k, percentSum (take k subsets) <= 100).
  { intros k. apply (subsetsLoop_sums _ _ _ _ _ _ _ Hloop). simpl. lia. }
  split; [exact Hsums|]. intros Hpercent Hlast.
  specialize (Hsums (length subsets)). rewrite firstn_all in Hsums.
  unfold sumFallsShort in Hshort.
  destruct (Z.lt_ge_cases (percentSum subsets) 100); [tauto | lia].
Qed.

(** What validation returns is what its loop ended with, possibly followed
    by the error of the check after the loop. *)
Lemma validateWorkloadSpreadSubsets_loop ws subsets tmpl fldPath errs :
  subsets <> [] ->
  validateWorkloadSpreadSubsets h ws subsets tmpl fldPath = Done errs ->
  exists r more,
    subsetsLoop h ws tmpl fldPath 0 subsets initialVars = Done r /\
    errs = errorsOf r ++ more.
Proof.
  intros Hne Hrun.
  destruct (subsetsLoop h ws tmpl fldPath 0 subsets initialVars) as [[v|ret]|why] eqn:Hloop.
  - destruct (validateWorkloadSpreadSubsets_Continue ws subsets tmpl fldPath v Hne Hloop)
      as [[_ Hv] | [_ Hv]]; rewrite Hv in Hrun; injection Hrun as <-.
    + eexists _, _. split; reflexivity.
    + exists (Continue v), []. rewrite app_nil_r. auto.
  - unfold validateWorkloadSpreadSubsets in Hrun. fold initialVars in Hrun.
    rewrite Hloop in Hrun.
    destruct (length subsets =? 0)%nat eqn:Hlen.
    { apply Nat.eqb_eq, length_zero_iff_nil in Hlen. contradiction. }
    cbn [mbind Outcome_bind] in Hrun. injection Hrun as <-.
    exists (Return ret), []. rewrite app_nil_r. auto.
  - unfold validateWorkloadSpreadSubsets in Hrun. fold initialVars in Hrun.
    rewrite Hloop in Hrun. destruct (length subsets =? 0)%nat eqn:Hlen; [|discriminate].
    apply Nat.eqb_eq, length_zero_iff_nil in Hlen. contradiction.
Qed.

(** X8. When validation reaches a subset whose name is empty, or is
    the name of a subset before it, the result holds the Invalid error on the
    [name] field of that subset, whatever else is reported. *)
Theorem empty_and_repeated_names_are_reported :
  forall (ws : WorkloadSpread K) (tmpl : option clientObject) (fldPath : Path)
         (pre post : list (WorkloadSpreadSubset K)) (subset : WorkloadSpreadSubset K)
         (errs : ErrorList),
    (exists v, subsetsLoop h ws tmpl fldPath 0 pre initialVars = Done (Continue v)) ->
    validateWorkloadSpreadSubsets h ws (pre ++ subset :: post) tmpl fldPath = Done errs ->
    (WorkloadSpreadSubset.Name subset = "" ->
     In (emptyNameError fldPath (length pre)) errs) /\
    (WorkloadSpreadSubset.Name subset <> "" ->
     In (WorkloadSpreadSubset.Name subset) (namesOf pre) ->
     In (duplicatedNameError fldPath (length pre) (WorkloadSpreadSubset.Name subset)) errs).
Proof.
  intros ws tmpl fldPath pre post subset errs [v Hpre] Hrun.
  assert (Hne : pre ++ subset :: post <> []) by (destruct pre; discriminate).
  destruct (validateWorkloadSpreadSubsets_loop _ _ _ _ _ Hne Hrun) as (r & more & Hloop & ->).
  rewrite subsetsLoop_app, Hpre in Hloop. simpl in Hloop.
  destruct (subsetBody h ws tmpl fldPath (length pre) subset v) as [r'|why] eqn:Hbody;
    simpl in Hloop; [|discriminate].
  apply subsetBody_Done in Hbody as (patchErrs & _ & Hr'). simpl in Hr'.
  assert (Hreported : forall e,
             In e (fst (checkName fldPath (length pre) subset (subSetNames v))) ->
             In e (errorsOf r ++ more)).
  { intros e He. apply in_or_app. left.
    assert (Hstruct : In e (allErrs v ++
              structuralErrs fldPath (length pre) subset (subSetNames v) patchErrs)).
    { apply in_or_app. right. unfold structuralErrs. apply in_or_app. left. exact He. }
    destruct (checkMaxReplicas _ _ _ _ _ _ _) as [sum first|e']; subst r'.
    - destruct (subsetsLoop_grows _ _ _ _ _ _ _ Hloop) as [more' ->]. simpl.
      apply in_or_app. left. exact Hstruct.
    - injection Hloop as <-. simpl. apply in_or_app. left. exact Hstruct. }
  pose proof (subsetsLoop_names _ _ _ _ _ _ _ (WorkloadSpreadSubset.Name subset) Hpre)
    as Hnames.
  destruct (checkName_cases fldPath (length pre) subset (subSetNames v))
    as [[Hn Hc] | [(Hn & Hin & Hc) | (Hn & Hin & Hc)]]; rewrite Hc in Hreported;
    simpl in Hreported.
  - split; [|contradiction]. intros _. apply Hreported. auto.
  - split; [contradiction|]. intros _ _. apply Hreported. auto.
  - split; [contradiction|]. intros _ Hdup. exfalso. apply Hin, Hnames. auto.
Qed.

(** X9. For a StatefulSet, when validation reaches a cap that is not a
    count it rejects the subset and returns, whatever subsets follow: with
    the StatefulSet error when no cap was set before, and with the error of
    the type mismatch otherwise, the caps before being counts. *)
Theorem statefulSet_cap_that_is_no_count_returns_at_once :
  forall (ws : WorkloadSpread K) (tmpl : option clientObject) (fldPath : Path)
         (pre : list (WorkloadSpreadSubset K)) (subset : WorkloadSpreadSubset K)
         (maxReplicas : IntOrString) (v : loopVars) (patchErrs : ErrorList),
    statefulSetTarget ws ->
    subsetsLoop h ws tmpl fldPath 0 pre initialVars = Done (Continue v) ->
    checkPatch h tmpl fldPath (length pre) subset = Done patchErrs ->
    WorkloadSpreadSubset.MaxReplicas subset = Some maxReplicas ->
    IntOrString.Type_ maxReplicas <> intstr.Int ->
    exists e,
      (firstType pre = None /\ e = statefulSetTypeError fldPath (length pre) maxReplicas \/
       firstType pre = Some intstr.Int /\
       e = typeMismatchError fldPath (length pre) maxReplicas) /\
      forall post,
        validateWorkloadSpreadSubsets h ws (pre ++ subset :: post) tmpl fldPath
        = Done ((allErrs v
                 ++ structuralErrs fldPath (length pre) subset (subSetNames v) patchErrs)
                ++ [e]).
Proof.
  intros ws tmpl fldPath pre subset maxReplicas v patchErrs Hsts Hloop Hpatch Hcap Hne.
  pose proof (subsetsLoop_counters ws tmpl fldPath pre 0 initialVars v Hloop) as [_ Hv].
  simpl in Hv. fold (firstType pre) in Hv.
  assert (Hfirst : firstType pre = None \/ firstType pre = Some intstr.Int).
  { destruct (firstType pre) as [t|] eqn:Hfirst; [right|auto].
    assert (Hsome : exists s mr, In s pre /\ WorkloadSpreadSubset.MaxReplicas s = Some mr).
    { unfold firstType in Hfirst. clear -Hfirst.
      induction pre as [|s rest IH]; simpl in Hfirst; [discriminate|].
      destruct (WorkloadSpreadSubset.MaxReplicas s) as [mr|] eqn:Hmr.
      - exists s, mr. simpl. auto.
      - destruct (IH Hfirst) as (s' & mr' & Hin & Hmr'). exists s', mr'. simpl. auto. }
    destruct Hsome as (s & mr & Hin & Hmr).
    destruct (subsetsLoop_caps _ _ _ _ _ _ _ Hloop s mr Hin Hmr) as (Htype & Hint & _).
    simpl in Htype. fold (firstType pre) in Htype. rewrite Hfirst in Htype.
    rewrite (Hint Hsts) in Htype. exact Htype. }
  destruct Hfirst as [Hfirst | Hfirst]; rewrite Hfirst in Hv.
  - exists (statefulSetTypeError fldPath (length pre) maxReplicas). split; [auto|].
    intros post. eapply validateWorkloadSpreadSubsets_Reject; eauto.
    unfold checkMaxReplicas. rewrite Hcap, Hv, (isStatefulSet_true ws Hsts).
    destruct (Z.eqb_spec (IntOrString.Type_ maxReplicas) intstr.Int); [contradiction|].
    reflexivity.
  - exists (typeMismatchError fldPath (length pre) maxReplicas). split; [auto|].
    intros post. eapply validateWorkloadSpreadSubsets_Reject; eauto.
    unfold checkMaxReplicas. rewrite Hcap, Hv.
    destruct (Z.eqb_spec (IntOrString.Type_ maxReplicas) intstr.Int); [contradiction|].
    reflexivity.
Qed.

(** *** Lists that are accepted *)

Lemma checkPatch_nothing tmpl fldPath i (subset : WorkloadSpreadSubset K) :
  tmpl = None \/ patchless subset ->
  checkPatch h tmpl fldPath i subset = Done [].
Proof.
  unfold checkPatch, patchless. intros [-> | ->]; [|reflexivity].
  destruct (RawExtension.Raw _); reflexivity.
Qed.

Lemma nothingToPatch_lookup tmpl subsets fldPath i :
  nothingToPatch tmpl subsets ->
  forall j subset, subsets !! j = Some subset ->
                   checkPatch h tmpl fldPath (i + j) subset = Done [].
Proof.
  intros Hnothing j subset Hj. apply checkPatch_nothing.
  destruct Hnothing as [-> | Hall]; [auto|]. right.
  rewrite Forall_lookup in Hall. exact (Hall j subset Hj).
Qed.

(** A loop that ran to its end over subsets without constraints and
    without patch errors, whose names are new, reported nothing. *)
Lemma subsetsLoop_clean ws tmpl fldPath subsets : forall i v v',
  subsetsLoop h ws tmpl fldPath i subsets v = Done (Continue v') ->
  Forall unconstrained subsets ->
  (forall j subset, subsets !! j = Some subset ->
                    checkPatch h tmpl fldPath (i + j) subset = Done []) ->
  Forall (fun name => name <> "" /\ name ∉ subSetNames v) (namesOf subsets) ->
  NoDup (namesOf subsets) ->
  allErrs v' = allErrs v.
Proof.
  induction subsets as [|subset rest IH]; intros i v v' Hloop Hfree Hpatch Hnames Hnodup.
  - simpl in Hloop. injection Hloop as <-. reflexivity.
  - simpl in Hloop.
    pose proof (Hpatch 0%nat subset eq_refl) as Hp. rewrite Nat.add_0_r in Hp.
    rewrite (subsetBody_intro ws tmpl fldPath i subset v [] Hp) in Hloop. cbv zeta in Hloop.
    apply Forall_cons in Hfree as [(Hreq & Hpref & Htol) Hfree].
    simpl in Hnames. apply Forall_cons in Hnames as [[Hname Hnew] Hnames].
    simpl in Hnodup. apply NoDup_cons in Hnodup as [Hfresh Hnodup].
    assert (Hstruct : structuralErrs fldPath i subset (subSetNames v) [] = []).
    { unfold structuralErrs, checkRequiredNodeSelectorTerm, checkPreferredNodeSelectorTerms,
        checkTolerations.
      rewrite Hreq, Hpref, Htol.
      destruct (checkName_cases fldPath i subset (subSetNames v))
        as [[Hn _] | [(_ & Hin & _) | (_ & _ & ->)]]; [contradiction|contradiction|].
      reflexivity. }
    assert (Hseen : snd (checkName fldPath i subset (subSetNames v))
                    = {[WorkloadSpreadSubset.Name subset]} ∪ subSetNames v).
    { destruct (checkName_cases fldPath i subset (subSetNames v))
        as [[Hn _] | [(_ & Hin & _) | (_ & _ & ->)]]; [contradiction|contradiction|].
      reflexivity. }
    rewrite Hstruct, Hseen, app_nil_r in Hloop.
    destruct (checkMaxReplicas _ _ _ _ _ _ _) as [sum first|e];
      cbn [mbind Outcome_bind] in Hloop; [|discriminate].
    rewrite (IH _ _ _ Hloop); auto.
    + intros j s Hj. replace (S i + j)%nat with (i + S j)%nat by lia.
      apply Hpatch. exact Hj.
    + simpl. rewrite Forall_forall in Hnames |- *. intros name Hin.
      destruct (Hnames name Hin) as [Hne Hnotin]. split; [exact Hne|].
      rewrite elem_of_union, elem_of_singleton. intros [-> | Hold]; [|contradiction].
      apply Hfresh. exact Hin.
Qed.

(** A count that resolves to a value that is not negative is accepted,
    whatever the target. *)
Lemma checkMaxReplicas_count_Accept ws fldPath i subset sum first :
  countTyped subset ->
  resolvesNonNegative subset ->
  first = None \/ first = Some intstr.Int ->
  checkMaxReplicas h ws fldPath i subset sum first
  = Accept sum (firstTypeFrom first [subset]).
Proof.
  intros Htyped Hres Hfirst. unfold checkMaxReplicas. cbn [firstTypeFrom].
  destruct (WorkloadSpreadSubset.MaxReplicas subset) as [maxReplicas|] eqn:Hcap.
  2:{ destruct first; reflexivity. }
  rewrite (Htyped maxReplicas Hcap).
  destruct (Hres maxReplicas Hcap) as (value & -> & Hpos).
  change (intstr.Int =? intstr.Int) with true.
  change (intstr.Int =? intstr.String) with false.
  rewrite andb_false_r.
  destruct Hfirst as [-> | ->]; cbn [notNil orb negb].
  all: change (intstr.Int =? intstr.Int) with true; cbn [negb].
  all: destruct (Z.ltb_spec value 0); [lia|reflexivity].
Qed.

(** The loop runs to its end over counts that resolve. *)
Lemma subsetsLoop_count_runs ws tmpl fldPath subsets : forall i v,
  firstMaxReplicasType v = None \/ firstMaxReplicasType v = Some intstr.Int ->
  Forall countTyped subsets ->
  Forall resolvesNonNegative subsets ->
  (forall j subset, subsets !! j = Some subset ->
                    exists patchErrs,
                      checkPatch h tmpl fldPath (i + j) subset = Done patchErrs) ->
  exists v',
    subsetsLoop h ws tmpl fldPath i subsets v = Done (Continue v') /\
    (firstMaxReplicasType v' = None \/ firstMaxReplicasType v' = Some intstr.Int).
Proof.
  induction subsets as [|subset rest IH]; intros i v Hfirst Htyped Hres Hpatch; simpl.
  - exists v. auto.
  - apply Forall_cons in Htyped as [Htyped Htyped'].
    apply Forall_cons in Hres as [Hres Hres'].
    destruct (Hpatch 0%nat subset eq_refl) as [patchErrs Hp].
    rewrite Nat.add_0_r in Hp.
    rewrite (subsetBody_intro ws tmpl fldPath i subset v patchErrs Hp). cbv zeta.
    rewrite (checkMaxReplicas_count_Accept ws fldPath i subset _ _ Htyped Hres Hfirst).
    cbn [mbind Outcome_bind].
    apply IH; simpl; auto.
    + destruct Hfirst as [-> | ->]; [|auto].
      destruct (WorkloadSpreadSubset.MaxReplicas subset) as [maxReplicas|] eqn:Hcap; [|auto].
      right. rewrite (Htyped maxReplicas Hcap). reflexivity.
    + intros j s Hj. replace (S (i + j)) with (i + S j)%nat by lia.
      apply Hpatch. exact Hj.
Qed.

Lemma wellNamed_fresh (subsets : list (WorkloadSpreadSubset K)) :
  wellNamed subsets ->
  Forall (fun name => name <> "" /\ name ∉ subSetNames initialVars) (namesOf subsets).
Proof.
  intros [Hnames _]. eapply Forall_impl; [exact Hnames|].
  intros name Hne. split; [exact Hne|]. simpl. apply not_elem_of_empty.
Qed.

Lemma accepted_wellNamed ws subsets tmpl fldPath :
  validateWorkloadSpreadSubsets h ws subsets tmpl fldPath = Done [] ->
  wellNamed subsets.
Proof.
  intros Hok.
  destruct (accepted_ran_clean ws subsets tmpl fldPath Hok) as (_ & _ & v & Hloop & Hclean).
  destruct (subsetsLoop_clean_names _ _ _ _ _ _ _ Hloop Hclean) as [Hnames Hnodup].
  split; [|exact Hnodup].
  eapply Forall_impl; [exact Hnames|]. intros name [Hname _]. exact Hname.
Qed.

Lemma accepted_resolves ws subsets tmpl fldPath :
  validateWorkloadSpreadSubsets h ws subsets tmpl fldPath = Done [] ->
  Forall resolvesNonNegative subsets.
Proof.
  intros Hok.
  destruct (accepted_ran_clean ws subsets tmpl fldPath Hok) as (_ & _ & v & Hloop & _).
  apply List.Forall_forall. intros subset Hin maxReplicas Hcap.
  destruct (subsetsLoop_caps _ _ _ _ _ _ _ Hloop subset maxReplicas Hin Hcap) as (_ & _ & Hv).
  exact Hv.
Qed.

(** Percentage caps, the last of them set, make the first type a
    percentage. *)
Lemma firstTypeFrom_percent (subsets : list (WorkloadSpreadSubset K)) : forall first,
  first = None \/ first = Some intstr.String ->
  Forall percentTyped subsets ->
  (exists subset, In subset subsets /\ WorkloadSpreadSubset.MaxReplicas subset <> None) ->
  firstTypeFrom first subsets = Some intstr.String.
Proof.
  induction subsets as [|subset rest IH]; intros first Hfirst Htyped (s & Hin & Hset);
    [destruct Hin|].
  apply Forall_cons in Htyped as [Htyped Htyped']. simpl.
  destruct Hfirst as [-> | ->]; [|apply firstTypeFrom_Some].
  destruct (WorkloadSpreadSubset.MaxReplicas subset) as [maxReplicas|] eqn:Hcap.
  - rewrite (Htyped maxReplicas Hcap). apply firstTypeFrom_Some.
  - destruct Hin as [<- | Hin]; [congruence|]. apply IH; eauto.
Qed.

(** X10. Subsets without constraints and without patches to examine,
    whose caps are counts, are accepted exactly when there is at least one
    subset, the names are not empty and differ from one another, and every
    count resolves to a value that is not negative. *)
Theorem counts_are_accepted_exactly_when_well_formed :
  forall (ws : WorkloadSpread K) (subsets : list (WorkloadSpreadSubset K))
         (tmpl : option clientObject) (fldPath : Path),
    nothingToPatch tmpl subsets ->
    Forall unconstrained subsets ->
    Forall countTyped subsets ->
    validateWorkloadSpreadSubsets h ws subsets tmpl fldPath = Done []
    <-> subsets <> [] /\ wellNamed subsets /\ Forall resolvesNonNegative subsets.
Proof.
  intros ws subsets tmpl fldPath Hnothing Hfree Htyped. split.
  - intros Hok. split; [intros ->; discriminate|].
    split; [exact (accepted_wellNamed _ _ _ _ Hok) | exact (accepted_resolves _ _ _ _ Hok)].
  - intros (Hne & Hnamed & Hres).
    pose proof (nothingToPatch_lookup tmpl subsets fldPath 0 Hnothing) as Hpatch.
    destruct (subsetsLoop_count_runs ws tmpl fldPath subsets 0 initialVars)
      as (v & Hloop & Hfirst); auto.
    { intros j s Hj. exists []. apply Hpatch. exact Hj. }
    pose proof (subsetsLoop_clean _ _ _ _ _ _ _ Hloop Hfree Hpatch
                  (wellNamed_fresh _ Hnamed) (proj2 Hnamed)) as Hclean.
    simpl in Hclean.
    destruct (validateWorkloadSpreadSubsets_Continue ws subsets tmpl fldPath v Hne Hloop)
      as [[Hshort _] | [_ ->]]; [|rewrite Hclean; reflexivity].
    exfalso. destruct Hshort as (Hpercent & _).
    pose proof (subsetsLoop_counters ws tmpl fldPath subsets 0 initialVars v Hloop) as [_ Hv].
    simpl in Hv. fold (firstType subsets) in Hv. rewrite Hpercent in Hv.
    destruct Hfirst as [Hf | Hf]; rewrite Hf in Hv; discriminate.
Qed.

(** X11. Subsets without constraints and without patches to examine,
    whose caps are percentages, for a target that is no StatefulSet, are
    accepted exactly when there is at least one subset, the names are not
    empty and differ from one another, every percentage resolves to a value
    that is not negative, the sum over every prefix stays within 100, and the
    sum is 100 when the last subset has its cap set. *)
Theorem percentages_are_accepted_exactly_when_they_fit :
  forall (ws : WorkloadSpread K) (subsets : list (WorkloadSpreadSubset K))
         (tmpl : option clientObject) (fldPath : Path),
    ~ statefulSetTarget ws ->
    nothingToPatch tmpl subsets ->
    Forall unconstrained subsets ->
    Forall percentTyped subsets ->
    validateWorkloadSpreadSubsets h ws subsets tmpl fldPath = Done []
    <-> subsets <> [] /\ wellNamed subsets /\ Forall resolvesNonNegative subsets /\
        (forall k, percentSum (take k subsets) <= 100) /\
        (lastCapSet subsets -> percentSum subsets = 100).
Proof.
  intros ws subsets tmpl fldPath Hsts Hnothing Hfree Htyped. split.
  - intros Hok.
    destruct (accepted_ran_clean ws subsets tmpl fldPath Hok) as (Hne & Hshort & v & Hloop & _).
    assert (Hsums : forall k, percentSum (take k subsets) <= 100).
    { intros k. apply (subsetsLoop_sums _ _ _ _ _ _ _ Hloop). simpl. lia. }
    split; [exact Hne|].
    split; [exact (accepted_wellNamed _ _ _ _ Hok)|].
    split; [exact (accepted_resolves _ _ _ _ Hok)|].
    split; [exact Hsums|]. intros Hlast.
    assert (Hpercent : firstType subsets = Some intstr.String).
    { apply firstTypeFrom_percent; auto.
      destruct Hlast as (s & Hs & Hset). exists s. split; [|exact Hset].
      apply last_Some in Hs as [l' ->]. apply in_or_app. right. left. reflexivity. }
    specialize (Hsums (length subsets)). rewrite firstn_all in Hsums.
    unfold sumFallsShort in Hshort.
    destruct (Z.lt_ge_cases (percentSum subsets) 100); [tauto | lia].
  - intros (Hne & Hnamed & Hres & Hsums & Hfull).
    pose proof (nothingToPatch_lookup tmpl subsets fldPath 0 Hnothing) as Hpatch.
    destruct (subsetsLoop_percent_runs ws tmpl fldPath subsets Hsts 0 initialVars)
      as (v & Hloop & Hfirst); auto.
    { intros j s Hj. exists []. apply Hpatch. exact Hj. }
    pose proof (subsetsLoop_clean _ _ _ _ _ _ _ Hloop Hfree Hpatch
                  (wellNamed_fresh _ Hnamed) (proj2 Hnamed)) as Hclean.
    simpl in Hclean.
    destruct (validateWorkloadSpreadSubsets_Continue ws subsets tmpl fldPath v Hne Hloop)
      as [[Hshort _] | [_ ->]]; [|rewrite Hclean; reflexivity].
    exfalso. destruct Hshort as (_ & Hlt & Hlast). specialize (Hfull Hlast). lia.
Qed.

(** X12. Nothing in subset validation panics outside the patch block:
    without a template, or when no subset carries a patch, validation returns
    a list of errors. *)
Theorem subsets_validation_returns_when_nothing_to_patch :
  forall (ws : WorkloadSpread K) (subsets : list (WorkloadSpreadSubset K))
         (tmpl : option clientObject) (fldPath : Path),
    nothingToPatch tmpl subsets ->
    exists errs, validateWorkloadSpreadSubsets h ws subsets tmpl fldPath = Done errs.
Proof.
  intros ws subsets tmpl fldPath Hnothing.
  apply validateWorkloadSpreadSubsets_Done. intros j subset Hj. exists [].
  exact (nothingToPatch_lookup tmpl subsets fldPath 0 Hnothing j subset Hj).
Qed.

(** *** Where and when the errors are reported *)

(** X20. Given validators that report under the path they are given,
    subset validation reports at most one error on a [maxReplicas] field,
    of type Invalid, and reports it last: every error before it is on
    another field. *)
Theorem at_most_one_cap_error_and_it_comes_last :
  forall (ws : WorkloadSpread K) (subsets : list (WorkloadSpreadSubset K))
         (tmpl : option clientObject) (fldPath : Path) (errs : ErrorList),
    ValidatorsReportUnder ->
    validateWorkloadSpreadSubsets h ws subsets tmpl fldPath = Done errs ->
    exists others capErrs : ErrorList,
      errs = (others ++ capErrs)%list /\
      (length capErrs <= 1)%nat /\
      Forall (fun e => ~ onMaxReplicas fldPath e) others /\
      Forall (fun e => onMaxReplicas fldPath e /\ Type_ e = ErrorTypeInvalid) capErrs.
Proof.
  intros ws subsets tmpl fldPath errs Hval Hrun.
  assert (Hoff : forall l, Forall (offMaxReplicas fldPath) l ->
                           Forall (fun e => ~ onMaxReplicas fldPath e) l).
  { intros l Hl. eapply Forall_impl; [exact Hl|].
    intros e He [k Hk]. exact (offMaxReplicas_neq fldPath k e He Hk). }
  destruct subsets as [|subset rest].
  { injection Hrun as <-. exists [Required fldPath "subsets number must >= 1 in WorkloadSpread"], [].
    split; [reflexivity|]. split; [simpl; lia|]. split; [|constructor].
    constructor; [|constructor]. intros [k Hk]. simpl in Hk.
    apply (f_equal depth) in Hk. simpl in Hk. lia. }
  assert (Hne : subset :: rest <> []) by discriminate.
  destruct (subsetsLoop h ws tmpl fldPath 0 (subset :: rest) initialVars)
    as [[v|ret]|why] eqn:Hloop.
  - pose proof (subsetsLoop_fields ws tmpl fldPath (subset :: rest) Hval 0 initialVars
                  (Continue v) (List.Forall_nil _) Hloop) as Hfields.
    simpl in Hfields.
    destruct (validateWorkloadSpreadSubsets_Continue ws _ tmpl fldPath v Hne Hloop)
      as [[_ Hv] | [_ Hv]]; rewrite Hv in Hrun; injection Hrun as <-.
    + exists (allErrs v), [sumError (subset :: rest) fldPath].
      split; [reflexivity|]. split; [simpl; lia|]. split; [auto|].
      constructor; [|constructor]. split; [exists 0%nat; reflexivity | reflexivity].
    + exists (allErrs v), []. rewrite app_nil_r.
      split; [reflexivity|]. split; [simpl; lia|]. split; [auto | constructor].
  - pose proof (subsetsLoop_fields ws tmpl fldPath (subset :: rest) Hval 0 initialVars
                  (Return ret) (List.Forall_nil _) Hloop) as Hfields.
    simpl in Hfields. destruct Hfields as (accumulated & e & k & -> & Hacc & Htype & Hfield).
    unfold validateWorkloadSpreadSubsets in Hrun. fold initialVars in Hrun.
    rewrite Hloop in Hrun. simpl in Hrun. injection Hrun as <-.
    exists accumulated, [e]. split; [reflexivity|]. split; [simpl; lia|]. split; [auto|].
    constructor; [|constructor]. split; [exists k; exact Hfield | exact Htype].
  - unfold validateWorkloadSpreadSubsets in Hrun. fold initialVars in Hrun.
    rewrite Hloop in Hrun. discriminate.
Qed.

(** X21. The errors accumulated over the first subsets are never
    dropped: whatever subsets follow, the result starts with the errors the
    loop has accumulated when it has run over a prefix of the list. *)
Theorem errors_of_earlier_subsets_are_kept :
  forall (ws : WorkloadSpread K) (tmpl : option clientObject) (fldPath : Path)
         (pre post : list (WorkloadSpreadSubset K)) (v : loopVars) (errs : ErrorList),
    subsetsLoop h ws tmpl fldPath 0 pre initialVars = Done (Continue v) ->
    validateWorkloadSpreadSubsets h ws (pre ++ post) tmpl fldPath = Done errs ->
    exists more, errs = allErrs v ++ more.
Proof.
  intros ws tmpl fldPath pre post v errs Hpre Hrun.
  destruct (pre ++ post) as [|s l] eqn:Hlist.
  { apply app_eq_nil in Hlist as [-> _]. simpl in Hpre. injection Hpre as <-.
    exists errs. reflexivity. }
  assert (Hne : s :: l <> []) by discriminate. rewrite <- Hlist in *.
  destruct (validateWorkloadSpreadSubsets_loop _ _ _ _ _ Hne Hrun) as (r & more & Hloop & ->).
  rewrite subsetsLoop_app, Hpre in Hloop.
  destruct (subsetsLoop_grows _ _ _ _ _ _ _ Hloop) as [more' ->].
  rewrite <- app_assoc. eexists. reflexivity.
Qed.

(** X22. When validation reaches a subset with a patch, for a template
    whose pod template can be read, and the conversion of the patched pod
    returns no pod, validation panics: no list of errors is returned,
    whatever the subsets before reported. *)
Theorem conversion_without_a_pod_panics :
  forall (ws : WorkloadSpread K) (template : clientObject) (fldPath : Path)
         (pre post : list (WorkloadSpreadSubset K)) (subset : WorkloadSpreadSubset K)
         (v : loopVars) (podSpec : PodTemplateSpec) (raw : list byte)
         (CovErr : option string),
    subsetsLoop h ws (Some template) fldPath 0 pre initialVars = Done (Continue v) ->
    podSpecOf h template = Done podSpec ->
    RawExtension.Raw (WorkloadSpreadSubset.Patch subset) = Some raw ->
    ConvertPod h
      (fst (json_Unmarshal h (fst (StrategicMergePatch h (json_Marshal h podSpec) raw))))
    = (None, CovErr) ->
    exists why,
      validateWorkloadSpreadSubsets h ws (pre ++ subset :: post) (Some template) fldPath
      = Panics why.
Proof.
  intros ws template fldPath pre post subset v podSpec raw CovErr Hpre Hpod Hraw Hconvert.
  unfold validateWorkloadSpreadSubsets.
  destruct (Nat.eqb_spec (length (pre ++ subset :: post)) 0) as [Hlen|_].
  { rewrite length_app in Hlen. simpl in Hlen. lia. }
  fold initialVars. rewrite subsetsLoop_app, Hpre. simpl subsetsLoop.
  unfold subsetBody.
  destruct (checkName fldPath _ subset (subSetNames v)) as [nameErrs names].
  unfold checkPatch. rewrite Hraw, Hpod. cbn [mbind Outcome_bind].
  destruct (StrategicMergePatch h (json_Marshal h podSpec) raw) as [modified mergeErr].
  cbn [fst] in Hconvert.
  destruct (json_Unmarshal h modified) as [newPod unmarshalErr].
  cbn [fst] in Hconvert. rewrite Hconvert. cbn [mbind Outcome_bind].
  eexists. reflexivity.
Qed.

(** ** The target reference of a kind known by name *)

Lemma verifyGroupKind_passes ref expectedKind expectedGroups :
  negb (fst (verifyGroupKind h ref expectedKind expectedGroups))
  || notNil (snd (verifyGroupKind h ref expectedKind expectedGroups)) = false
  <-> snd (ParseGroupVersion h (TargetReference.APIVersion ref)) = None /\
      TargetReference.Kind ref = expectedKind /\
      In (parsedGroup ref) expectedGroups.
Proof.
  rewrite <- verifyGroupKind_true. unfold verifyGroupKind.
  destruct (ParseGroupVersion h (TargetReference.APIVersion ref)) as [gv [e|]]; simpl.
  { split; discriminate. }
  destruct (TargetReference.Kind ref =? expectedKind)%string; simpl;
    [|split; discriminate].
  destruct (existsb _ expectedGroups); simpl; split; auto; discriminate.
Qed.

(** X13. A reference with its fields set and a kind among CloneSet,
    Deployment, ReplicaSet, Job and StatefulSet passes the [targetRef] block
    exactly when its API version parses and the parsed group is a group of
    that kind: the one group of the kind, or for a StatefulSet one of three.
    Whether the workload exists plays no part. *)
Theorem builtin_kind_passes_exactly_when_group_matches :
  forall (obj : WorkloadSpread K) (fldPath : Path) (ref : TargetReference),
    WorkloadSpreadSpec.TargetReference (WorkloadSpread.Spec obj) = Some ref ->
    TargetReference.APIVersion ref <> "" ->
    TargetReference.Name ref <> "" ->
    builtinKind (TargetReference.Kind ref) ->
    fst (validateTargetRef h obj fldPath) = []
    <-> snd (ParseGroupVersion h (TargetReference.APIVersion ref)) = None /\
        In (parsedGroup ref) (groupsOfKind (TargetReference.Kind ref)).
Proof.
  intros obj fldPath ref Href Hversion Hname Hkind.
  unfold validateTargetRef. rewrite Href.
  destruct (String.eqb_spec (TargetReference.APIVersion ref) ""); [contradiction|].
  destruct (String.eqb_spec (TargetReference.Name ref) ""); [contradiction|].
  cbn [controllerKruiseKindCS controllerKindDep controllerKindRS controllerKindJob
       controllerKindSts controllerKruiseKindAlphaSts controllerKruiseKindBetaSts
       WithKind GroupVersionKind.Kind GroupVersionKind.Group orb].
  unfold groupsOfKind.
  destruct Hkind as [Hk | [Hk | [Hk | [Hk | Hk]]]]; rewrite Hk;
    cbn [String.eqb Ascii.eqb Bool.eqb];
    match goal with
    | |- context [verifyGroupKind h ref ?kind ?groups] =>
        pose proof (verifyGroupKind_passes ref kind groups) as Hpass;
        destruct (verifyGroupKind h ref kind groups) as [ok err]
    end;
    cbn [fst snd] in Hpass;
    (destruct (negb ok || notNil err); cbn [fst];
     [split; [discriminate|]; intros [Hparse Hin];
      assert (true = false) by (apply Hpass; auto); discriminate|]);
    (assert (Hyes : snd (ParseGroupVersion h (TargetReference.APIVersion ref)) = None /\
                    In (parsedGroup ref) (groupsOfKind (TargetReference.Kind ref)))
      by (unfold groupsOfKind; rewrite Hk; cbn [String.eqb Ascii.eqb Bool.eqb];
          split; apply Hpass; reflexivity));
    unfold groupsOfKind in Hyes; rewrite Hk in Hyes;
    cbn [String.eqb Ascii.eqb Bool.eqb] in Hyes;
    match goal with
    | |- context [match ?get with Ok _ => _ | Err _ => _ end] => destruct get
    end; cbn [fst]; split; auto.
Qed.

(** ** The whole specification *)

Lemma checkAdaptive_under (spec : WorkloadSpreadSpec.t K) fldPath errs :
  checkAdaptive h spec fldPath = Done errs ->
  Forall (fun e => under fldPath (Field e)) errs.
Proof.
  unfold checkAdaptive.
  destruct (WorkloadSpreadScheduleStrategy.Adaptive _) as [adaptive|].
  2:{ intros [= <-]. constructor. }
  destruct (if 1 <? _ then _ else _) as [lastSet|]; cbn [mbind Outcome_bind]; [|discriminate].
  destruct (allowedMaxSeconds spec) as [allowed|]; cbn [mbind Outcome_bind]; [|discriminate].
  intros [= <-]. rewrite !Forall_app. split; [|split].
  - destruct (negb _); constructor; [|constructor]. simpl. right. right. apply under_refl.
  - destruct lastSet; constructor; [|constructor]. simpl. right. right. apply under_refl.
  - unfold checkRescheduleCriticalSeconds.
    destruct (AdaptiveWorkloadSpreadStrategy.RescheduleCriticalSeconds adaptive) as [s|];
      [|constructor].
    destruct (_ || _); constructor; [|constructor]. simpl. right. right. right.
    apply under_refl.
Qed.

(** X14. Given validators that report under the path they are given,
    every error of the validation of a specification is reported on
    [fldPath] or on a field below it. *)
Theorem spec_errors_are_reported_under_the_given_path :
  forall (obj : WorkloadSpread K) (fldPath : Path) (errs : ErrorList),
    ValidatorsReportUnder ->
    validateWorkloadSpreadSpec h obj fldPath = Done errs ->
    Forall (fun e => under fldPath (Field e)) errs.
Proof.
  intros obj fldPath errs Hval. unfold validateWorkloadSpreadSpec.
  pose proof (validateTargetRef_fields obj fldPath) as Href.
  destruct (validateTargetRef h obj fldPath) as [refErrs tmpl]. cbn [fst] in Href.
  destruct (validateWorkloadSpreadSubsets h obj _ tmpl _) as [subsetErrs|] eqn:Hsubsets;
    cbn [mbind Outcome_bind]; [|discriminate].
  destruct (checkAdaptive h _ fldPath) as [adaptiveErrs|] eqn:Hadaptive;
    cbn [mbind Outcome_bind]; [|discriminate].
  intros [= <-]. rewrite !Forall_app. repeat split.
  - eapply Forall_impl; [exact Href|]. intros e ->. simpl. right. apply under_refl.
  - apply (validateWorkloadSpreadSubsets_under _ _ _ _ _ Hval) in Hsubsets.
    eapply Forall_impl; [exact Hsubsets|]. intros e He.
    eapply under_trans; [|exact He]. simpl. right. apply under_refl.
  - unfold checkScheduleStrategyType. destruct (_ && _); constructor; [|constructor].
    simpl. right. right. apply under_refl.
  - exact (checkAdaptive_under _ _ _ Hadaptive).
  - unfold checkTargetFilter. destruct (WorkloadSpreadSpec.TargetFilter _) as [f|];
      [|constructor].
    destruct (LabelSelectorAsSelector h _); constructor; [|constructor].
    simpl. right. apply under_refl.
Qed.

(** What the adaptive block has checked when it reports nothing. *)
Lemma checkAdaptive_accepts (spec : WorkloadSpreadSpec.t K) fldPath adaptive :
  WorkloadSpreadScheduleStrategy.Adaptive (WorkloadSpreadSpec.ScheduleStrategy spec)
  = Some adaptive ->
  checkAdaptive h spec fldPath = Done [] ->
  WorkloadSpreadScheduleStrategy.Type_ (WorkloadSpreadSpec.ScheduleStrategy spec)
  = AdaptiveWorkloadSpreadScheduleStrategyType h /\
  ((1 < length (WorkloadSpreadSpec.Subsets spec))%nat ->
   ~ lastCapSet (WorkloadSpreadSpec.Subsets spec)) /\
  exists allowed,
    allowedMaxSeconds spec = Done allowed /\
    checkRescheduleCriticalSeconds fldPath adaptive allowed = [].
Proof.
  intros Hadaptive. unfold checkAdaptive. rewrite Hadaptive.
  set (subsets := WorkloadSpreadSpec.Subsets spec).
  assert (Hlast : forall lastSet : bool,
             (if 1 <? Z.of_nat (length subsets)
              then at_index subsets (length subsets - 1) ≫=
                   (fun last => Done (notNil (WorkloadSpreadSubset.MaxReplicas last)))
              else Done false) = Done lastSet ->
             lastSet = false ->
             (1 < length subsets)%nat -> ~ lastCapSet subsets).
  { intros lastSet Hrun -> Hn (s & Hs & Hset).
    destruct (Z.ltb_spec 1 (Z.of_nat (length subsets))); [|lia].
    unfold at_index in Hrun. rewrite Nat.sub_1_r, <- last_lookup, Hs in Hrun.
    cbn [mbind Outcome_bind] in Hrun. injection Hrun as Hrun.
    destruct (WorkloadSpreadSubset.MaxReplicas s); [discriminate|contradiction]. }
  destruct (if 1 <? _ then _ else _) as [lastSet|]; cbn [mbind Outcome_bind]; [|discriminate].
  specialize (Hlast lastSet eq_refl).
  destruct (allowedMaxSeconds spec) as [allowed|]; cbn [mbind Outcome_bind]; [|discriminate].
  intros [= Hnil]. apply app_eq_nil in Hnil as [Htype Hnil].
  apply app_eq_nil in Hnil as [HlastErrs Hseconds].
  split; [|split].
  - destruct (String.eqb_spec
                (WorkloadSpreadScheduleStrategy.Type_ (WorkloadSpreadSpec.ScheduleStrategy spec))
                (AdaptiveWorkloadSpreadScheduleStrategyType h)); [assumption|discriminate].
  - apply Hlast. destruct lastSet; [discriminate|reflexivity].
  - exists allowed. auto.
Qed.

(** What the validation of a specification that reports nothing went
    through. *)
Lemma validateWorkloadSpreadSpec_accepts obj fldPath :
  validateWorkloadSpreadSpec h obj fldPath = Done [] ->
  fst (validateTargetRef h obj fldPath) = [] /\
  validateWorkloadSpreadSubsets h obj (subsetsOf obj)
    (snd (validateTargetRef h obj fldPath)) (Child fldPath "subsets") = Done [] /\
  checkScheduleStrategyType h (WorkloadSpread.Spec obj) fldPath = [] /\
  checkAdaptive h (WorkloadSpread.Spec obj) fldPath = Done [] /\
  checkTargetFilter h (WorkloadSpread.Spec obj) fldPath = [].
Proof.
  unfold validateWorkloadSpreadSpec, subsetsOf.
  destruct (validateTargetRef h obj fldPath) as [refErrs tmpl]. cbn [fst snd].
  destruct (validateWorkloadSpreadSubsets h obj _ tmpl _) as [subsetErrs|];
    cbn [mbind Outcome_bind]; [|discriminate].
  destruct (checkAdaptive h _ fldPath) as [adaptiveErrs|];
    cbn [mbind Outcome_bind]; [|discriminate].
  intros [= Hnil].
  apply app_eq_nil in Hnil as [Hnil Hfilter].
  apply app_eq_nil in Hnil as [Hnil ->].
  apply app_eq_nil in Hnil as [Hnil Htype].
  apply app_eq_nil in Hnil as [-> ->]. auto.
Qed.

(** X15. A specification that validation accepts has a target
    reference whose API version, name and kind are set; its subsets are
    accepted against the template the reference led to; its strategy type is
    empty, Fixed or Adaptive; with an adaptive configuration the type is
    Adaptive and, when there is more than one subset, the last subset has no
    cap; and its target filter, if any, has a selector that converts. *)
Theorem accepted_spec_is_well_formed :
  forall (obj : WorkloadSpread K) (fldPath : Path),
    validateWorkloadSpreadSpec h obj fldPath = Done [] ->
    (exists ref,
        WorkloadSpreadSpec.TargetReference (WorkloadSpread.Spec obj) = Some ref /\
        TargetReference.APIVersion ref <> "" /\
        TargetReference.Name ref <> "" /\
        TargetReference.Kind ref <> "") /\
    validateWorkloadSpreadSubsets h obj (subsetsOf obj)
      (snd (validateTargetRef h obj fldPath)) (Child fldPath "subsets") = Done [] /\
    (WorkloadSpreadScheduleStrategy.Type_ (strategyOf obj) = "" \/
     WorkloadSpreadScheduleStrategy.Type_ (strategyOf obj)
     = FixedWorkloadSpreadScheduleStrategyType h \/
     WorkloadSpreadScheduleStrategy.Type_ (strategyOf obj)
     = AdaptiveWorkloadSpreadScheduleStrategyType h) /\
    (forall adaptive,
        WorkloadSpreadScheduleStrategy.Adaptive (strategyOf obj) = Some adaptive ->
        WorkloadSpreadScheduleStrategy.Type_ (strategyOf obj)
        = AdaptiveWorkloadSpreadScheduleStrategyType h /\
        ((1 < length (subsetsOf obj))%nat -> ~ lastCapSet (subsetsOf obj))) /\
    (forall filter,
        WorkloadSpreadSpec.TargetFilter (WorkloadSpread.Spec obj) = Some filter ->
        LabelSelectorAsSelector h (TargetFilter.Selector filter) = None).
Proof.
  intros obj fldPath Hok.
  apply validateWorkloadSpreadSpec_accepts in Hok
    as (Href & Hsubsets & Htype & Hadaptive & Hfilter).
  split; [|split; [exact Hsubsets|split; [|split]]].
  - unfold validateTargetRef in Href.
    destruct (WorkloadSpreadSpec.TargetReference (WorkloadSpread.Spec obj)) as [ref|];
      [|discriminate].
    exists ref. split; [reflexivity|].
    destruct (String.eqb_spec (TargetReference.APIVersion ref) ""); [discriminate|].
    destruct (String.eqb_spec (TargetReference.Name ref) ""); [discriminate|].
    destruct (String.eqb_spec (TargetReference.Kind ref) ""); [discriminate|].
    auto.
  - unfold checkScheduleStrategyType in Htype. unfold strategyOf.
    destruct (String.eqb_spec
                (WorkloadSpreadScheduleStrategy.Type_
                   (WorkloadSpreadSpec.ScheduleStrategy (WorkloadSpread.Spec obj))) "");
      [auto|].
    destruct (String.eqb_spec
                (WorkloadSpreadScheduleStrategy.Type_
                   (WorkloadSpreadSpec.ScheduleStrategy (WorkloadSpread.Spec obj)))
                (FixedWorkloadSpreadScheduleStrategyType h)); [auto|].
    destruct (String.eqb_spec
                (WorkloadSpreadScheduleStrategy.Type_
                   (WorkloadSpreadSpec.ScheduleStrategy (WorkloadSpread.Spec obj)))
                (AdaptiveWorkloadSpreadScheduleStrategyType h)); [auto|].
    discriminate.
  - intros adaptive Hset.
    destruct (checkAdaptive_accepts _ fldPath adaptive Hset Hadaptive) as (Ht & Hlast & _).
    auto.
  - intros filter Hset. unfold checkTargetFilter in Hfilter. rewrite Hset in Hfilter.
    destruct (LabelSelectorAsSelector h (TargetFilter.Selector filter));
      [discriminate|reflexivity].
Qed.

(** X16. In an accepted specification with an adaptive configuration
    the reschedule critical seconds, if set, are not negative, and with n
    subsets (n > 1, at most 2^31) they satisfy seconds * (n - 1) <= 295:
    rescheduling through all the subsets fits the scheduling failure window
    of 300 seconds less 5. *)
Theorem accepted_reschedule_seconds_fit_the_failure_window :
  forall (obj : WorkloadSpread K) (fldPath : Path)
         (adaptive : AdaptiveWorkloadSpreadStrategy.t) (seconds : Z),
    validateWorkloadSpreadSpec h obj fldPath = Done [] ->
    WorkloadSpreadScheduleStrategy.Adaptive (strategyOf obj) = Some adaptive ->
    AdaptiveWorkloadSpreadStrategy.RescheduleCriticalSeconds adaptive = Some seconds ->
    Z.of_nat (length (subsetsOf obj)) <= 2 ^ 31 ->
    0 <= seconds <= MaxInt32 /\
    ((1 < length (subsetsOf obj))%nat ->
     seconds * (Z.of_nat (length (subsetsOf obj)) - 1)
     <= MaxScheduledFailedDuration_Seconds - 5).
Proof.
  intros obj fldPath adaptive seconds Hok Hset Hseconds Hlen.
  apply validateWorkloadSpreadSpec_accepts in Hok as (_ & _ & _ & Hadaptive & _).
  destruct (checkAdaptive_accepts _ fldPath adaptive Hset Hadaptive)
    as (_ & _ & allowed & Hallowed & Hcheck).
  unfold subsetsOf in *. rewrite (allowedMaxSeconds_Done _ Hlen) in Hallowed.
  injection Hallowed as <-.
  unfold checkRescheduleCriticalSeconds in Hcheck. rewrite Hseconds in Hcheck.
  destruct (Z.ltb_spec seconds 0); [discriminate|].
  destruct (Z.gtb_spec seconds
              (allowedMax (Z.of_nat (length (WorkloadSpreadSpec.Subsets (WorkloadSpread.Spec obj))))));
    [discriminate|].
  unfold allowedMax, MaxScheduledFailedDuration_Seconds, MaxInt32 in *.
  set (n := Z.of_nat (length (WorkloadSpreadSpec.Subsets (WorkloadSpread.Spec obj)))) in *.
  destruct (Z.ltb_spec 1 n) as [Hn|Hn].
  - assert (Hfloor : (n - 1) * ((300 - 5) / (n - 1)) <= 300 - 5)
      by (apply Z.mul_div_le; lia).
    assert (0 <= (300 - 5) / (n - 1) <= 295).
    { split; [apply Z.div_pos; lia|]. apply Z.div_le_upper_bound; nia. }
    split; [lia|]. intros _. nia.
  - split; [lia|]. intros Hmany. lia.
Qed.

(** ** Conflicts and updates *)

Lemma conflict_none ws others fldPath :
  validateWorkloadSpreadConflict h ws others fldPath = []
  <-> Forall (fun other => ~ conflictsWith ws other) others.
Proof.
  induction others as [|other rest IH].
  - split; [constructor | reflexivity].
  - destruct (decide (conflictsWith ws other)) as [Hc|Hc].
    + rewrite conflict_stop by assumption. split; [discriminate|].
      intros Hall. apply Forall_cons in Hall as [Hno _]. contradiction.
    + rewrite conflict_skip by assumption. rewrite IH. split.
      * intros Hall. constructor; assumption.
      * intros Hall. apply Forall_cons in Hall as [_ Hall]. exact Hall.
Qed.

Lemma sameTarget_sym a b : sameTarget a b -> sameTarget b a.
Proof. unfold sameTarget. intros (-> & -> & ->). auto. Qed.

Lemma sameTarget_trans a b c : sameTarget a b -> sameTarget b c -> sameTarget a c.
Proof. unfold sameTarget. intros (-> & -> & ->) (-> & -> & ->). auto. Qed.

(** X17. Conflicts are mutual: a WorkloadSpread is rejected against a
    sibling exactly when the sibling is rejected against it. *)
Theorem conflict_is_mutual :
  forall (a b : WorkloadSpread K) (fldPath : Path),
    validateWorkloadSpreadConflict h a [b] fldPath = []
    <-> validateWorkloadSpreadConflict h b [a] fldPath = [].
Proof.
  assert (Hsym : forall a b, conflictsWith a b -> conflictsWith b a).
  { intros a b [Hne (r1 & r2 & E1 & E2 & Hsame)]. split; [congruence|].
    exists r2, r1. repeat split; auto; apply sameTarget_sym in Hsame; apply Hsame. }
  intros a b fldPath. rewrite !conflict_none. split.
  - intros Hall. apply Forall_cons in Hall as [Hno _].
    constructor; [|constructor]. intros Hc. apply Hno, Hsym, Hc.
  - intros Hall. apply Forall_cons in Hall as [Hno _].
    constructor; [|constructor]. intros Hc. apply Hno, Hsym, Hc.
Qed.

Lemma targetRefUpdate_none new old fldPath :
  validateWorkloadSpreadTargetRefUpdate h (Some new) (Some old) fldPath = []
  <-> sameTarget new old.
Proof.
  unfold validateWorkloadSpreadTargetRefUpdate, sameTarget.
  fold (parsedGroup new) (parsedGroup old).
  destruct (String.eqb_spec (parsedGroup new) (parsedGroup old));
    destruct (String.eqb_spec (TargetReference.Kind new) (TargetReference.Kind old));
    destruct (String.eqb_spec (TargetReference.Name new) (TargetReference.Name old));
    simpl; split; auto; try discriminate; intros (? & ? & ?); contradiction.
Qed.

(** X18. An update that validation accepts cannot bring a conflict
    in: when the old and new objects bear the same name and both have a
    target reference, the new object conflicts with the same siblings as the
    old one, so the conflict scan accepts the one exactly when it accepts the
    other. *)
Theorem accepted_update_keeps_conflicts :
  forall (new old : WorkloadSpread K) (others : list (WorkloadSpread K))
         (fldPath : Path) (newRef oldRef : TargetReference),
    WorkloadSpread.Name new = WorkloadSpread.Name old ->
    WorkloadSpreadSpec.TargetReference (WorkloadSpread.Spec new) = Some newRef ->
    WorkloadSpreadSpec.TargetReference (WorkloadSpread.Spec old) = Some oldRef ->
    validateWorkloadSpreadUpdate h new old = [] ->
    (forall other, conflictsWith new other <-> conflictsWith old other) /\
    (validateWorkloadSpreadConflict h new others fldPath = []
     <-> validateWorkloadSpreadConflict h old others fldPath = []).
Proof.
  intros new old others fldPath newRef oldRef Hname Hnew Hold Hok.
  unfold validateWorkloadSpreadUpdate in Hok. apply app_eq_nil in Hok as [_ Hok].
  rewrite Hnew, Hold in Hok. apply targetRefUpdate_none in Hok.
  assert (Hsame : forall other, conflictsWith new other <-> conflictsWith old other).
  { intros other. unfold conflictsWith. rewrite Hname, Hnew, Hold. split.
    - intros [Hne (r1 & r2 & [= <-] & E2 & Hs)]. split; [exact Hne|].
      exists oldRef, r2. repeat split; auto.
      all: apply (sameTarget_trans oldRef newRef r2); auto using sameTarget_sym.
    - intros [Hne (r1 & r2 & [= <-] & E2 & Hs)]. split; [exact Hne|].
      exists newRef, r2. repeat split; auto.
      all: apply (sameTarget_trans newRef oldRef r2); auto. }
  split; [exact Hsame|]. rewrite !conflict_none.
  split; intros Hall; eapply Forall_impl; try exact Hall; intros other Hno Hc;
    apply Hno, Hsame, Hc.
Qed.

(** ** The whole validation *)

(** X19. The validation of a WorkloadSpread accepts it exactly when
    its specification is accepted under [spec], the siblings of its
    namespace can be listed, and none of them conflicts with it. When the
    listing fails the result is never empty: it ends with the internal
    error of the listing. *)
Theorem validation_accepts_exactly_without_conflict :
  forall (obj : WorkloadSpread K),
    (validatingWorkloadSpreadFn h obj = Done []
     <-> validateWorkloadSpreadSpec h obj (NewPath "spec") = Done [] /\
         exists items,
           List_WorkloadSpread h (WorkloadSpread.Namespace obj) = Ok items /\
           Forall (fun other => ~ conflictsWith obj other) items) /\
    (forall err errs,
        List_WorkloadSpread h (WorkloadSpread.Namespace obj) = Err err ->
        validatingWorkloadSpreadFn h obj = Done errs ->
        last errs = Some (listError err)).
Proof.
  intros obj. unfold validatingWorkloadSpreadFn. split.
  - destruct (validateWorkloadSpreadSpec h obj (NewPath "spec")) as [specErrs|];
      cbn [mbind Outcome_bind].
    2:{ split; [discriminate | intros [? _]; discriminate]. }
    destruct (List_WorkloadSpread h (WorkloadSpread.Namespace obj)) as [items|err].
    + split.
      * intros [= Hnil]. apply app_eq_nil in Hnil as [-> Hnone].
        split; [reflexivity|]. exists items. split; [reflexivity|].
        apply conflict_none in Hnone. exact Hnone.
      * intros [[= ->] (items' & [= <-] & Hnone)].
        rewrite (proj2 (conflict_none obj items (NewPath "spec")) Hnone). reflexivity.
    + split.
      * intros [= Hnil]. apply app_eq_nil in Hnil as [_ ?]. discriminate.
      * intros [_ (items & ? & _)]. discriminate.
  - intros err errs ->.
    destruct (validateWorkloadSpreadSpec h obj (NewPath "spec")) as [specErrs|];
      cbn [mbind Outcome_bind]; [|discriminate].
    intros [= <-]. apply last_snoc.
Qed.

End Properties.

(** ** The theorems on the sample cluster *)

Section OnTheSampleCluster.
Import Sample.

Lemma sample_validators_report_under : ValidatorsReportUnder cluster.
Proof.
  split; unfold reportsUnder; simpl; try (intros; contradiction).
  intros pod p e. unfold requireUnder.
  destruct (bool_decide (pod = [])); [|intros []].
  intros [<- | []]. simpl. right. apply under_refl.
Qed.

Lemma sample_target_not_StatefulSet name subsets strategy :
  ~ statefulSetTarget (spread name web subsets strategy).
Proof. intros (ref & [= <-] & Hkind). discriminate. Qed.

(** On the sample cluster the broken patch is answered by three errors on
    the patch field: the failed merge, the failed decoding of what the merge
    returned, and the validation of the empty pod. *)
Example broken_patch_reports_three_errors :
  validateWorkloadSpreadSubsets cluster (spread "ws" web [brokenPatch] fixed) [brokenPatch]
    (Some (ptrDeployment webDeployment)) (Child (NewPath "spec") "subsets")
  = Done
      [mergeError (Child (NewPath "spec") "subsets") 0 [x7b] "invalid JSON";
       unmarshalError (Child (NewPath "spec") "subsets") 0 [x7b]
         "unexpected end of JSON input";
       Required (Child (Child (Index (Child (NewPath "spec") "subsets") 0) "patch")
                   "containers") ""].
Proof. vm_compute. reflexivity. Qed.

Lemma failed_merge_is_followed_by_further_patch_errors_witness :
  RawExtension.Raw (WorkloadSpreadSubset.Patch brokenPatch) = Some [x7b] /\
  podSpecOf cluster (ptrDeployment webDeployment) = Done zero_PodTemplateSpec /\
  StrategicMergePatch cluster (json_Marshal cluster zero_PodTemplateSpec) [x7b]
  = ([], Some "invalid JSON") /\
  json_Unmarshal cluster [] = ([], Some "unexpected end of JSON input") /\
  ConvertPod cluster [] = (Some [], None) /\
  checkPatch cluster (Some (ptrDeployment webDeployment)) (NewPath "subsets") 0 brokenPatch
  = Done (mergeError (NewPath "subsets") 0 [x7b] "invalid JSON"
          :: unmarshalError (NewPath "subsets") 0 [x7b] "unexpected end of JSON input"
          :: convertErrors (K := types) (NewPath "subsets") 0 []
               (Some "unexpected end of JSON input") None
          ++ ValidatePodSpec cluster [] (Child (Index (NewPath "subsets") 0) "patch")).
Proof.
  repeat (split; [reflexivity|]).
  apply (failed_merge_is_followed_by_further_patch_errors cluster
           (ptrDeployment webDeployment) (NewPath "subsets") 0 brokenPatch [x7b] []
           zero_PodTemplateSpec "invalid JSON" "unexpected end of JSON input" [] [] None);
    reflexivity.
Defined.

Lemma sum_check_fires_exactly_when_percentages_fall_short_witness :
  [subset "a" (percent "30%"); subset "b" (percent "30%")] <> [] /\
  ValidatorsReportUnder cluster /\
  (exists v,
      subsetsLoop cluster (spread "ws" web [] fixed) None (NewPath "subsets") 0
        [subset "a" (percent "30%"); subset "b" (percent "30%")] initialVars
      = Done (Continue v)) /\
  exists errs,
    validateWorkloadSpreadSubsets cluster (spread "ws" web [] fixed)
      [subset "a" (percent "30%"); subset "b" (percent "30%")] None (NewPath "subsets")
    = Done errs /\
    ((exists e, In e errs /\ Type_ e = ErrorTypeInvalid /\
                Field e = Child (Index (NewPath "subsets") 0) "maxReplicas")
     <-> firstType [subset "a" (percent "30%"); subset "b" (percent "30%")]
         = Some intstr.String /\
         percentSum cluster [subset "a" (percent "30%"); subset "b" (percent "30%")] < 100 /\
         lastCapSet [subset "a" (percent "30%"); subset "b" (percent "30%")]).
Proof.
  assert (Hrun : exists v,
             subsetsLoop cluster (spread "ws" web [] fixed) None (NewPath "subsets") 0
               [subset "a" (percent "30%"); subset "b" (percent "30%")] initialVars
             = Done (Continue v)).
  { eexists. vm_compute. reflexivity. }
  split; [discriminate|]. split; [exact sample_validators_report_under|].
  split; [exact Hrun|].
  apply sum_check_fires_exactly_when_percentages_fall_short;
    [discriminate | exact sample_validators_report_under | exact Hrun].
Defined.

Lemma type_mismatch_returns_at_once_witness :
  (exists v,
      subsetsLoop cluster (spread "ws" web [] fixed) None subsetsPath 0
        [subset "a" (percent "60%")] initialVars = Done (Continue v)) /\
  (exists patchErrs,
      checkPatch cluster None subsetsPath (length [subset "a" (percent "60%")])
        (subset "b" (count 5)) = Done patchErrs) /\
  firstType [subset "a" (percent "60%")] = Some intstr.String /\
  WorkloadSpreadSubset.MaxReplicas (subset "b" (count 5))
  = Some (IntOrString.mk intstr.Int 5 "") /\
  IntOrString.Type_ (IntOrString.mk intstr.Int 5 "") <> intstr.String /\
  exists accumulated,
    forall post,
      validateWorkloadSpreadSubsets cluster (spread "ws" web [] fixed)
        ([subset "a" (percent "60%")] ++ subset "b" (count 5) :: post) None subsetsPath
      = Done (accumulated ++
              [Invalid (Child (Index subsetsPath (length [subset "a" (percent "60%")]))
                          "maxReplicas")
                 (BadIntOrString (Some (IntOrString.mk intstr.Int 5 "")))
                 "the maxReplicas type of all subsets must be the same"]).
Proof.
  assert (Hrun : exists v,
             subsetsLoop cluster (spread "ws" web [] fixed) None subsetsPath 0
               [subset "a" (percent "60%")] initialVars = Done (Continue v)).
  { eexists. vm_compute. reflexivity. }
  assert (Hpatch : exists patchErrs,
             checkPatch cluster None subsetsPath (length [subset "a" (percent "60%")])
               (subset "b" (count 5)) = Done patchErrs).
  { eexists. reflexivity. }
  split; [exact Hrun|]. split; [exact Hpatch|].
  split; [reflexivity|]. split; [reflexivity|]. split; [discriminate|].
  apply (type_mismatch_returns_at_once cluster (spread "ws" web [] fixed) None subsetsPath
           [subset "a" (percent "60%")] (subset "b" (count 5)) intstr.String
           (IntOrString.mk intstr.Int 5 "") Hrun Hpatch);
    [reflexivity | reflexivity | discriminate].
Defined.

(** A mismatch that validation never reaches. The first cap is the count
    -1 and the second is a percentage, of another type than the first: the
    first subset is rejected for its negative value, validation returns
    there, and nothing is reported on the second subset. *)
Lemma type_mismatch_behind_a_rejected_subset :
  firstType [subset "a" (count (-1))] = Some intstr.Int /\
  WorkloadSpreadSubset.MaxReplicas (subset "b" (percent "50%"))
  = Some (IntOrString.mk intstr.String 0 "50%") /\
  intstr.String <> intstr.Int /\
  validateWorkloadSpreadSpec cluster negativeThenPercent (NewPath "spec")
  = Done [notValidError subsetsPath 0 (IntOrString.mk intstr.Int (-1) "")] /\
  validateWorkloadSpreadSubsets cluster negativeThenPercent
    [subset "a" (count (-1)); subset "b" (percent "50%")]
    (snd (validateTargetRef cluster negativeThenPercent (NewPath "spec"))) subsetsPath
  = Done [notValidError subsetsPath 0 (IntOrString.mk intstr.Int (-1) "")] /\
  ~ (exists errs e,
        validateWorkloadSpreadSubsets cluster negativeThenPercent
          [subset "a" (count (-1)); subset "b" (percent "50%")]
          (snd (validateTargetRef cluster negativeThenPercent (NewPath "spec"))) subsetsPath
        = Done errs /\
        In e errs /\ Field e = Child (Index subsetsPath 1) "maxReplicas").
Proof.
  assert (Hrun : validateWorkloadSpreadSubsets cluster negativeThenPercent
                   [subset "a" (count (-1)); subset "b" (percent "50%")]
                   (snd (validateTargetRef cluster negativeThenPercent (NewPath "spec")))
                   subsetsPath
                 = Done [notValidError subsetsPath 0 (IntOrString.mk intstr.Int (-1) "")]).
  { vm_compute. reflexivity. }
  split; [reflexivity|]. split; [reflexivity|]. split; [discriminate|].
  split; [vm_compute; reflexivity|]. split; [exact Hrun|].
  intros (errs & e & Herrs & Hin & Hfield). rewrite Hrun in Herrs.
  injection Herrs as <-. destruct Hin as [<- | []]. discriminate.
Qed.

Lemma percentages_rejected_where_sum_first_exceeds_100_witness :
  ~ statefulSetTarget (spread "ws" web [] fixed) /\
  Forall (percentTyped (K := types))
    ([subset "a" (percent "60%")] ++ [subset "b" (percent "50%")]) /\
  Forall (resolvesNonNegative cluster) [subset "a" (percent "60%")] /\
  (forall k, (k <= length [subset "a" (percent "60%")])%nat ->
             percentSum cluster (take k [subset "a" (percent "60%")]) <= 100) /\
  (forall j s, ([subset "a" (percent "60%")] ++ [subset "b" (percent "50%")]) !! j = Some s ->
               exists patchErrs, checkPatch cluster None subsetsPath j s = Done patchErrs) /\
  WorkloadSpreadSubset.MaxReplicas (subset "b" (percent "50%"))
  = Some (IntOrString.mk intstr.String 0 "50%") /\
  GetValueFromIntOrPercent cluster (Some (IntOrString.mk intstr.String 0 "50%")) 100 true
  = (50, None) /\
  percentSum cluster ([subset "a" (percent "60%")] ++ [subset "b" (percent "50%")]) > 100 /\
  exists accumulated,
    forall post,
      validateWorkloadSpreadSubsets cluster (spread "ws" web [] fixed)
        ([subset "a" (percent "60%")] ++ subset "b" (percent "50%") :: post) None subsetsPath
      = Done (accumulated ++
              [exceedsError subsetsPath (length [subset "a" (percent "60%")])
                 (IntOrString.mk intstr.String 0 "50%")]).
Proof.
  assert (Htyped : Forall (percentTyped (K := types))
                     ([subset "a" (percent "60%")] ++ [subset "b" (percent "50%")])).
  { repeat constructor; intros maxReplicas [= <-]; reflexivity. }
  assert (Hres : Forall (resolvesNonNegative cluster) [subset "a" (percent "60%")]).
  { repeat constructor. intros maxReplicas [= <-]. exists 60. split; [reflexivity|lia]. }
  assert (Hsums : forall k, (k <= length [subset "a" (percent "60%")])%nat ->
                            percentSum cluster (take k [subset "a" (percent "60%")]) <= 100).
  { intros [|[|k]] Hk; [vm_compute; discriminate | vm_compute; discriminate | simpl in Hk; lia]. }
  assert (Hpatch : forall j s,
             ([subset "a" (percent "60%")] ++ [subset "b" (percent "50%")]) !! j = Some s ->
             exists patchErrs, checkPatch cluster None subsetsPath j s = Done patchErrs).
  { intros j s _. exists []. apply checkPatch_no_template. }
  assert (Hexceeds : percentSum cluster
                       ([subset "a" (percent "60%")] ++ [subset "b" (percent "50%")]) > 100).
  { vm_compute. reflexivity. }
  split; [apply sample_target_not_StatefulSet|]. split; [exact Htyped|].
  split; [exact Hres|]. split; [exact Hsums|]. split; [exact Hpatch|].
  split; [reflexivity|]. split; [reflexivity|]. split; [exact Hexceeds|].
  destruct (percentages_rejected_where_sum_first_exceeds_100 cluster
              (spread "ws" web [] fixed) None subsetsPath [subset "a" (percent "60%")]
              (subset "b" (percent "50%")) (IntOrString.mk intstr.String 0 "50%") 50 None
              (sample_target_not_StatefulSet "ws" [] fixed) Htyped Hres Hsums Hpatch
              eq_refl eq_refl) as (accumulated & _ & Hover).
  exists accumulated. apply Hover; [reflexivity | lia | exact Hexceeds].
Defined.

(** Percentages for a StatefulSet. The caps 60% and 50% take the sum over
    100 at the second subset, but the target is a StatefulSet: the first
    subset is rejected for its type, validation returns there, and nothing is
    reported on the second subset. *)
Lemma percentages_of_a_StatefulSet_rejected_at_first_cap :
  percentSum cluster [subset "a" (percent "60%")] = 60 /\
  percentSum cluster [subset "a" (percent "60%"); subset "b" (percent "50%")] = 110 /\
  validateWorkloadSpreadSpec cluster percentagesOfStatefulSet (NewPath "spec")
  = Done [Invalid (Child (Index subsetsPath 0) "maxReplicas")
            (BadIntOrString (percent "60%"))
            "the maxReplicas type must be Int for StatefulSet"] /\
  validateWorkloadSpreadSubsets cluster percentagesOfStatefulSet
    [subset "a" (percent "60%"); subset "b" (percent "50%")]
    (snd (validateTargetRef cluster percentagesOfStatefulSet (NewPath "spec"))) subsetsPath
  = Done [Invalid (Child (Index subsetsPath 0) "maxReplicas")
            (BadIntOrString (percent "60%"))
            "the maxReplicas type must be Int for StatefulSet"] /\
  ~ (exists errs e,
        validateWorkloadSpreadSubsets cluster percentagesOfStatefulSet
          [subset "a" (percent "60%"); subset "b" (percent "50%")]
          (snd (validateTargetRef cluster percentagesOfStatefulSet (NewPath "spec")))
          subsetsPath
        = Done errs /\
        In e errs /\ Field e = Child (Index subsetsPath 1) "maxReplicas").
Proof.
  assert (Hrun : validateWorkloadSpreadSubsets cluster percentagesOfStatefulSet
                   [subset "a" (percent "60%"); subset "b" (percent "50%")]
                   (snd (validateTargetRef cluster percentagesOfStatefulSet (NewPath "spec")))
                   subsetsPath
                 = Done [Invalid (Child (Index subsetsPath 0) "maxReplicas")
                           (BadIntOrString (percent "60%"))
                           "the maxReplicas type must be Int for StatefulSet"]).
  { vm_compute. reflexivity. }
  split; [reflexivity|]. split; [reflexivity|].
  split; [vm_compute; reflexivity|]. split; [exact Hrun|].
  intros (errs & e & Herrs & Hin & Hfield). rewrite Hrun in Herrs.
  injection Herrs as <-. destruct Hin as [<- | []]. discriminate.
Qed.

Lemma sample_subsets_validation_returns seconds :
  subsetsValidationReturns cluster (adaptiveUnderFixed seconds) (NewPath "spec").
Proof. eexists. vm_compute. reflexivity. Qed.

Lemma adaptive_needs_adaptive_type_and_open_last_subset_witness :
  strategyOf (adaptiveUnderFixed 10)
  = WorkloadSpreadScheduleStrategy.mk "Fixed"
      (Some (AdaptiveWorkloadSpreadStrategy.mk (Some 10))) /\
  subsetsValidationReturns cluster (adaptiveUnderFixed 10) (NewPath "spec") /\
  Z.of_nat (length (subsetsOf (adaptiveUnderFixed 10))) <= 2 ^ 31 /\
  exists errs,
    validateWorkloadSpreadSpec cluster (adaptiveUnderFixed 10) (NewPath "spec") = Done errs /\
    ("Fixed" <> AdaptiveWorkloadSpreadScheduleStrategyType cluster ->
     In (adaptiveTypeError (NewPath "spec") (Some 10)) errs) /\
    ((1 < length (subsetsOf (adaptiveUnderFixed 10)))%nat ->
     lastCapSet (subsetsOf (adaptiveUnderFixed 10)) ->
     In (adaptiveLastSubsetError (NewPath "spec") (Some 10)) errs).
Proof.
  assert (Hlen : Z.of_nat (length (subsetsOf (adaptiveUnderFixed 10))) <= 2 ^ 31).
  { vm_compute. discriminate. }
  split; [reflexivity|]. split; [apply sample_subsets_validation_returns|].
  split; [exact Hlen|].
  apply (adaptive_needs_adaptive_type_and_open_last_subset cluster (adaptiveUnderFixed 10)
           (NewPath "spec") "Fixed" (AdaptiveWorkloadSpreadStrategy.mk (Some 10)) eq_refl
           (sample_subsets_validation_returns 10) Hlen).
Defined.

Lemma rescheduleCriticalSeconds_must_lie_within_bounds_witness :
  strategyOf (adaptiveUnderFixed (-1))
  = WorkloadSpreadScheduleStrategy.mk "Fixed"
      (Some (AdaptiveWorkloadSpreadStrategy.mk (Some (-1)))) /\
  ValidatorsReportUnder cluster /\
  subsetsValidationReturns cluster (adaptiveUnderFixed (-1)) (NewPath "spec") /\
  Z.of_nat (length (subsetsOf (adaptiveUnderFixed (-1)))) <= 2 ^ 31 /\
  exists errs,
    validateWorkloadSpreadSpec cluster (adaptiveUnderFixed (-1)) (NewPath "spec") = Done errs /\
    ((exists e, In e errs /\ Type_ e = ErrorTypeInvalid /\
                Field e = rescheduleField (NewPath "spec"))
     <-> -1 < 0 \/
         -1 > allowedMax (Z.of_nat (length (subsetsOf (adaptiveUnderFixed (-1)))))) /\
    (-1 < 0 \/ -1 > allowedMax (Z.of_nat (length (subsetsOf (adaptiveUnderFixed (-1))))) ->
     In (rescheduleError (NewPath "spec") (-1)
           (allowedMax (Z.of_nat (length (subsetsOf (adaptiveUnderFixed (-1)))))))
        errs) /\
    (-1 = -1 ->
     In (rescheduleError (NewPath "spec") (-1)
           (allowedMax (Z.of_nat (length (subsetsOf (adaptiveUnderFixed (-1)))))))
        errs).
Proof.
  assert (Hlen : Z.of_nat (length (subsetsOf (adaptiveUnderFixed (-1)))) <= 2 ^ 31).
  { vm_compute. discriminate. }
  split; [reflexivity|]. split; [exact sample_validators_report_under|].
  split; [apply sample_subsets_validation_returns|]. split; [exact Hlen|].
  apply (rescheduleCriticalSeconds_must_lie_within_bounds cluster (adaptiveUnderFixed (-1))
           (NewPath "spec") "Fixed" (-1) eq_refl sample_validators_report_under
           (sample_subsets_validation_returns (-1)) Hlen).
Defined.

(** The bound for two subsets is 295 seconds, for three 147, and for a
    single subset [MaxInt32]. *)
Example allowedMax_values :
  allowedMax 2 = 295 /\ allowedMax 3 = 147 /\ allowedMax 1 = 2147483647.
Proof. repeat split. Qed.

Lemma failed_fetch_reports_nothing_and_skips_patches_witness :
  WorkloadSpreadSpec.TargetReference
    (WorkloadSpread.Spec (spread "ws" (Some missing) [brokenPatch] fixed)) = Some missing /\
  TargetReference.APIVersion missing <> "" /\
  TargetReference.Name missing <> "" /\
  recognizedButNotFetched cluster (spread "ws" (Some missing) [brokenPatch] fixed) missing /\
  validateTargetRef cluster (spread "ws" (Some missing) [brokenPatch] fixed) (NewPath "spec")
  = ([], None) /\
  (forall subsetsPath i subset,
      checkPatch cluster
        (snd (validateTargetRef cluster (spread "ws" (Some missing) [brokenPatch] fixed)
                (NewPath "spec")))
        subsetsPath i subset = Done []) /\
  (forall subsetsPath,
      validateWorkloadSpreadSubsets cluster (spread "ws" (Some missing) [brokenPatch] fixed)
        (subsetsOf (spread "ws" (Some missing) [brokenPatch] fixed))
        (snd (validateTargetRef cluster (spread "ws" (Some missing) [brokenPatch] fixed)
                (NewPath "spec")))
        subsetsPath
      = validateWorkloadSpreadSubsets cluster (spread "ws" (Some missing) [brokenPatch] fixed)
          (withoutPatch <$> subsetsOf (spread "ws" (Some missing) [brokenPatch] fixed))
          None subsetsPath).
Proof.
  assert (Hmissing : recognizedButNotFetched cluster
                       (spread "ws" (Some missing) [brokenPatch] fixed) missing).
  { apply (missingDeployment cluster _ _ "not found"); reflexivity. }
  split; [reflexivity|]. split; [discriminate|]. split; [discriminate|].
  split; [exact Hmissing|].
  apply (failed_fetch_reports_nothing_and_skips_patches cluster
           (spread "ws" (Some missing) [brokenPatch] fixed) (NewPath "spec") missing);
    [reflexivity | discriminate | discriminate | exact Hmissing].
Defined.

(** With the Deployment missing, the broken patch of the example above
    goes unnoticed. *)
Example broken_patch_unnoticed_without_workload :
  validateWorkloadSpreadSpec cluster (spread "ws" (Some missing) [brokenPatch] fixed)
    (NewPath "spec") = Done [].
Proof. vm_compute. reflexivity. Qed.

Lemma targetRef_update_ignores_absent_reference_witness :
  (@None TargetReference = None \/ web = None) /\
  validateWorkloadSpreadTargetRefUpdate cluster None web (NewPath "spec") = [].
Proof.
  split; [left; reflexivity|].
  apply (targetRef_update_ignores_absent_reference cluster None web (NewPath "spec")).
  left. reflexivity.
Defined.

(** Renaming the target from [web] to [web2] is rejected; moving it to
    another version of its group is not. *)
Example rename_rejected_version_change_accepted :
  validateWorkloadSpreadTargetRefUpdate cluster
    (Some (TargetReference.mk "apps/v1" "Deployment" "web2")) web (NewPath "spec")
  = [changedError (TargetReference.mk "apps/v1" "Deployment" "web2") (NewPath "spec")] /\
  validateWorkloadSpreadTargetRefUpdate cluster
    (Some (TargetReference.mk "apps/v1beta1" "Deployment" "web")) web (NewPath "spec")
  = [].
Proof. split; reflexivity. Qed.

(** Two spreads of the Deployment [web]: each is in conflict with the
    other, whichever is validated, and neither with itself. *)
Example conflict_is_symmetric :
  validateWorkloadSpreadConflict cluster (spread "first" web [] fixed)
    [spread "first" web [] fixed; spread "second" web [] fixed] (NewPath "spec")
  = [conflictError (spread "first" web [] fixed) (spread "second" web [] fixed)
       (NewPath "spec")] /\
  validateWorkloadSpreadConflict cluster (spread "second" web [] fixed)
    [spread "first" web [] fixed; spread "second" web [] fixed] (NewPath "spec")
  = [conflictError (spread "second" web [] fixed) (spread "first" web [] fixed)
       (NewPath "spec")].
Proof. split; reflexivity. Qed.

(** *** The subsets of the sample cluster *)

Example no_subsets :
  validateWorkloadSpreadSubsets cluster (spread "ws" web [] fixed) [] None subsetsPath
  = Done [Required subsetsPath "subsets number must >= 1 in WorkloadSpread"].
Proof. reflexivity. Qed.

Example duplicated_name :
  validateWorkloadSpreadSubsets cluster (spread "ws" web [] fixed)
    [subset "a" None; subset "a" None] None subsetsPath
  = Done [Invalid (Child (Index subsetsPath 1) "name") (BadString "a")
            "duplicated subset name a"].
Proof. vm_compute. reflexivity. Qed.

(** Percentages that sum to 100 are accepted, with the last cap set or
    not; a sum below 100 is accepted when the last cap is not set and
    rejected when it is. *)
Example percentages_and_the_last_cap :
  validateWorkloadSpreadSubsets cluster (spread "ws" web [] fixed)
    [subset "a" (percent "60%"); subset "b" (percent "40%")] None subsetsPath = Done [] /\
  validateWorkloadSpreadSubsets cluster (spread "ws" web [] fixed)
    [subset "a" (percent "60%"); subset "b" (percent "40%"); subset "c" None] None subsetsPath
  = Done [] /\
  validateWorkloadSpreadSubsets cluster (spread "ws" web [] fixed)
    [subset "a" (percent "60%"); subset "b" None] None subsetsPath = Done [] /\
  validateWorkloadSpreadSubsets cluster (spread "ws" web [] fixed)
    [subset "a" (percent "30%"); subset "b" (percent "30%")] None subsetsPath
  = Done [sumError [subset "a" (percent "30%"); subset "b" (percent "30%")] subsetsPath].
Proof. repeat split; vm_compute; reflexivity. Qed.

(** Percentages that sum to 110 are rejected at the subset that takes the
    sum over 100, and the subsets after it are not looked at: the empty name
    of the third subset goes unreported. *)
Example percentages_summing_to_110 :
  validateWorkloadSpreadSubsets cluster (spread "ws" web [] fixed)
    [subset "a" (percent "60%"); subset "b" (percent "50%"); subset "" None] None subsetsPath
  = Done [exceedsError subsetsPath 1 (IntOrString.mk intstr.String 0 "50%")].
Proof. vm_compute. reflexivity. Qed.

(** ** The further properties on the sample cluster *)

Lemma rollout_is_no_builtin_kind : ~ builtinKind (TargetReference.Kind rollout).
Proof. intros [H | [H | [H | [H | H]]]]; discriminate. Qed.

Lemma custom_kind_passes_exactly_when_white_listed_witness :
  WorkloadSpreadSpec.TargetReference (WorkloadSpread.Spec (spread "ws" (Some rollout) zones fixed))
  = Some rollout /\
  TargetReference.APIVersion rollout <> "" /\
  TargetReference.Name rollout <> "" /\
  TargetReference.Kind rollout <> "" /\
  ~ builtinKind (TargetReference.Kind rollout) /\
  (forall err,
      GetWSWatchCustomWorkloadWhiteList cluster = Err err ->
      validateTargetRef cluster (spread "ws" (Some rollout) zones fixed) (NewPath "spec")
      = ([InternalError (Child (NewPath "spec") "targetRef") err], None)) /\
  (forall whiteList,
      GetWSWatchCustomWorkloadWhiteList cluster = Ok whiteList ->
      (whiteListed cluster whiteList rollout ->
       validateTargetRef cluster (spread "ws" (Some rollout) zones fixed) (NewPath "spec")
       = ([], None)) /\
      (~ whiteListed cluster whiteList rollout ->
       validateTargetRef cluster (spread "ws" (Some rollout) zones fixed) (NewPath "spec")
       = ([notPermittedError (NewPath "spec") rollout], None))).
Proof.
  split; [reflexivity|]. split; [discriminate|]. split; [discriminate|].
  split; [discriminate|]. split; [exact rollout_is_no_builtin_kind|].
  apply (custom_kind_passes_exactly_when_white_listed cluster
           (spread "ws" (Some rollout) zones fixed) (NewPath "spec") rollout);
    [reflexivity | discriminate | discriminate | discriminate
    | exact rollout_is_no_builtin_kind].
Defined.

(** The custom workload of the sample is not on the white list, which is
    empty: its reference is not permitted. *)
Example rollout_is_not_permitted :
  validateTargetRef cluster (spread "ws" (Some rollout) zones fixed) (NewPath "spec")
  = ([notPermittedError (NewPath "spec") rollout], None).
Proof. reflexivity. Qed.

Lemma zones_are_accepted :
  validateWorkloadSpreadSubsets cluster (spread "ws" web zones fixed) zones None subsetsPath
  = Done [].
Proof. vm_compute. reflexivity. Qed.

Lemma halves_are_accepted :
  validateWorkloadSpreadSubsets cluster (spread "ws" web halves fixed) halves None subsetsPath
  = Done [].
Proof. vm_compute. reflexivity. Qed.

Lemma accepted_subsets_have_distinct_names_witness :
  validateWorkloadSpreadSubsets cluster (spread "ws" web zones fixed) zones None subsetsPath
  = Done [] /\
  zones <> [] /\
  Forall (fun name => name <> "") (namesOf zones) /\
  NoDup (namesOf zones).
Proof.
  split; [exact zones_are_accepted|].
  apply (accepted_subsets_have_distinct_names cluster (spread "ws" web zones fixed) zones None
           subsetsPath zones_are_accepted).
Defined.

Lemma accepted_caps_share_one_type_and_resolve_witness :
  validateWorkloadSpreadSubsets cluster (spread "ws" web zones fixed) zones None subsetsPath
  = Done [] /\
  In (subset "zone-a" (count 3)) zones /\
  WorkloadSpreadSubset.MaxReplicas (subset "zone-a" (count 3))
  = Some (IntOrString.mk intstr.Int 3 "") /\
  firstType zones = Some (IntOrString.Type_ (IntOrString.mk intstr.Int 3 "")) /\
  (statefulSetTarget (spread "ws" web zones fixed) ->
   IntOrString.Type_ (IntOrString.mk intstr.Int 3 "") = intstr.Int) /\
  exists value,
    GetValueFromIntOrPercent cluster (Some (IntOrString.mk intstr.Int 3 "")) 100 true
    = (value, None) /\ 0 <= value.
Proof.
  split; [exact zones_are_accepted|]. split; [left; reflexivity|]. split; [reflexivity|].
  apply (accepted_caps_share_one_type_and_resolve cluster (spread "ws" web zones fixed) zones
           None subsetsPath zones_are_accepted (subset "zone-a" (count 3))
           (IntOrString.mk intstr.Int 3 ""));
    [left; reflexivity | reflexivity].
Defined.

Lemma accepted_percentages_sum_to_100_witness :
  validateWorkloadSpreadSubsets cluster (spread "ws" web halves fixed) halves None subsetsPath
  = Done [] /\
  (forall k, percentSum cluster (take k halves) <= 100) /\
  (firstType halves = Some intstr.String -> lastCapSet halves ->
   percentSum cluster halves = 100).
Proof.
  split; [exact halves_are_accepted|].
  apply (accepted_percentages_sum_to_100 cluster (spread "ws" web halves fixed) halves None
           subsetsPath halves_are_accepted).
Defined.

Lemma empty_and_repeated_names_are_reported_witness :
  (exists v,
      subsetsLoop cluster (spread "ws" web [] fixed) None subsetsPath 0
        [subset "a" None] initialVars = Done (Continue v)) /\
  validateWorkloadSpreadSubsets cluster (spread "ws" web [] fixed)
    ([subset "a" None] ++ subset "a" (count 1) :: []) None subsetsPath
  = Done [duplicatedNameError subsetsPath 1 "a"] /\
  (WorkloadSpreadSubset.Name (subset "a" (count 1)) = "" ->
   In (emptyNameError (K := types) subsetsPath (length [subset "a" None]))
      [duplicatedNameError subsetsPath 1 "a"]) /\
  (WorkloadSpreadSubset.Name (subset "a" (count 1)) <> "" ->
   In (WorkloadSpreadSubset.Name (subset "a" (count 1))) (namesOf [subset "a" None]) ->
   In (duplicatedNameError (K := types) subsetsPath (length [subset "a" None])
         (WorkloadSpreadSubset.Name (subset "a" (count 1))))
      [duplicatedNameError subsetsPath 1 "a"]).
Proof.
  assert (Hrun : exists v,
             subsetsLoop cluster (spread "ws" web [] fixed) None subsetsPath 0
               [subset "a" None] initialVars = Done (Continue v)).
  { eexists. vm_compute. reflexivity. }
  assert (Hall : validateWorkloadSpreadSubsets cluster (spread "ws" web [] fixed)
                   ([subset "a" None] ++ subset "a" (count 1) :: []) None subsetsPath
                 = Done [duplicatedNameError subsetsPath 1 "a"]).
  { vm_compute. reflexivity. }
  split; [exact Hrun|]. split; [exact Hall|].
  apply (empty_and_repeated_names_are_reported cluster (spread "ws" web [] fixed) None
           subsetsPath [subset "a" None] [] (subset "a" (count 1))
           [duplicatedNameError subsetsPath 1 "a"] Hrun Hall).
Defined.

Lemma sample_target_is_StatefulSet name subsets strategy :
  statefulSetTarget (spread name db subsets strategy).
Proof. eexists. split; reflexivity. Qed.

Lemma statefulSet_cap_that_is_no_count_returns_at_once_witness :
  statefulSetTarget (spread "ws" db [] fixed) /\
  subsetsLoop cluster (spread "ws" db [] fixed) None subsetsPath 0 [subset "" None]
    initialVars
  = Done (Continue {| allErrs := [emptyNameError subsetsPath 0]; subSetNames := ∅;
                      maxReplicasSum := 0; firstMaxReplicasType := None |}) /\
  checkPatch cluster None subsetsPath (length [subset "" None]) (subset "b" (percent "50%"))
  = Done [] /\
  WorkloadSpreadSubset.MaxReplicas (subset "b" (percent "50%"))
  = Some (IntOrString.mk intstr.String 0 "50%") /\
  IntOrString.Type_ (IntOrString.mk intstr.String 0 "50%") <> intstr.Int /\
  exists e,
    (firstType [subset "" None] = None /\
     e = statefulSetTypeError subsetsPath (length [subset "" None])
           (IntOrString.mk intstr.String 0 "50%") \/
     firstType [subset "" None] = Some intstr.Int /\
     e = typeMismatchError subsetsPath (length [subset "" None])
           (IntOrString.mk intstr.String 0 "50%")) /\
    forall post,
      validateWorkloadSpreadSubsets cluster (spread "ws" db [] fixed)
        ([subset "" None] ++ subset "b" (percent "50%") :: post) None subsetsPath
      = Done (([emptyNameError subsetsPath 0]
               ++ structuralErrs cluster subsetsPath (length [subset "" None])
                    (subset "b" (percent "50%")) ∅ [])
              ++ [e]).
Proof.
  split; [apply sample_target_is_StatefulSet|]. split; [vm_compute; reflexivity|].
  split; [reflexivity|]. split; [reflexivity|]. split; [discriminate|].
  apply (statefulSet_cap_that_is_no_count_returns_at_once cluster (spread "ws" db [] fixed)
           None subsetsPath [subset "" None] (subset "b" (percent "50%"))
           (IntOrString.mk intstr.String 0 "50%")
           {| allErrs := [emptyNameError subsetsPath 0]; subSetNames := ∅;
              maxReplicasSum := 0; firstMaxReplicasType := None |} []
           (sample_target_is_StatefulSet "ws" [] fixed));
    [vm_compute; reflexivity | reflexivity | reflexivity | discriminate].
Defined.

Lemma zones_nothing_to_patch tmpl : nothingToPatch tmpl zones.
Proof. right. repeat constructor. Qed.

Lemma zones_unconstrained : Forall unconstrained zones.
Proof. repeat constructor. Qed.

Lemma halves_unconstrained : Forall unconstrained halves.
Proof. repeat constructor. Qed.

Lemma zones_countTyped : Forall countTyped zones.
Proof.
  constructor; [intros maxReplicas [= <-]; reflexivity|].
  constructor; [intros maxReplicas [=] | constructor].
Qed.

Lemma halves_percentTyped : Forall percentTyped halves.
Proof. repeat constructor; intros maxReplicas [= <-]; reflexivity. Qed.

Lemma counts_are_accepted_exactly_when_well_formed_witness :
  nothingToPatch (Some (ptrDeployment webDeployment)) zones /\
  Forall unconstrained zones /\
  Forall countTyped zones /\
  (validateWorkloadSpreadSubsets cluster (spread "ws" web zones fixed) zones
     (Some (ptrDeployment webDeployment)) subsetsPath = Done []
   <-> zones <> [] /\ wellNamed zones /\ Forall (resolvesNonNegative cluster) zones).
Proof.
  split; [apply zones_nothing_to_patch|]. split; [exact zones_unconstrained|].
  split; [exact zones_countTyped|].
  apply (counts_are_accepted_exactly_when_well_formed cluster (spread "ws" web zones fixed)
           zones (Some (ptrDeployment webDeployment)) subsetsPath
           (zones_nothing_to_patch _) zones_unconstrained zones_countTyped).
Defined.

Lemma percentages_are_accepted_exactly_when_they_fit_witness :
  ~ statefulSetTarget (spread "ws" web halves fixed) /\
  nothingToPatch None halves /\
  Forall unconstrained halves /\
  Forall percentTyped halves /\
  (validateWorkloadSpreadSubsets cluster (spread "ws" web halves fixed) halves None subsetsPath
   = Done []
   <-> halves <> [] /\ wellNamed halves /\ Forall (resolvesNonNegative cluster) halves /\
       (forall k, percentSum cluster (take k halves) <= 100) /\
       (lastCapSet halves -> percentSum cluster halves = 100)).
Proof.
  split; [apply sample_target_not_StatefulSet|]. split; [left; reflexivity|].
  split; [exact halves_unconstrained|]. split; [exact halves_percentTyped|].
  apply (percentages_are_accepted_exactly_when_they_fit cluster
           (spread "ws" web halves fixed) halves None subsetsPath
           (sample_target_not_StatefulSet "ws" halves fixed) (or_introl eq_refl)
           halves_unconstrained halves_percentTyped).
Defined.

Lemma subsets_validation_returns_when_nothing_to_patch_witness :
  nothingToPatch (Some (ptrDeployment webDeployment)) zones /\
  exists errs,
    validateWorkloadSpreadSubsets cluster (spread "ws" web zones fixed) zones
      (Some (ptrDeployment webDeployment)) subsetsPath = Done errs.
Proof.
  split; [apply zones_nothing_to_patch|].
  apply (subsets_validation_returns_when_nothing_to_patch cluster
           (spread "ws" web zones fixed) zones (Some (ptrDeployment webDeployment)) subsetsPath
           (zones_nothing_to_patch _)).
Defined.

Lemma builtin_kind_passes_exactly_when_group_matches_witness :
  WorkloadSpreadSpec.TargetReference (WorkloadSpread.Spec (spread "ws" (Some webInV2) zones fixed))
  = Some webInV2 /\
  TargetReference.APIVersion webInV2 <> "" /\
  TargetReference.Name webInV2 <> "" /\
  builtinKind (TargetReference.Kind webInV2) /\
  (fst (validateTargetRef cluster (spread "ws" (Some webInV2) zones fixed) (NewPath "spec")) = []
   <-> snd (ParseGroupVersion cluster (TargetReference.APIVersion webInV2)) = None /\
       In (parsedGroup cluster webInV2) (groupsOfKind cluster (TargetReference.Kind webInV2))).
Proof.
  assert (Hkind : builtinKind (TargetReference.Kind webInV2)).
  { right. left. reflexivity. }
  split; [reflexivity|]. split; [discriminate|]. split; [discriminate|].
  split; [exact Hkind|].
  apply (builtin_kind_passes_exactly_when_group_matches cluster
           (spread "ws" (Some webInV2) zones fixed) (NewPath "spec") webInV2);
    [reflexivity | discriminate | discriminate | exact Hkind].
Defined.

(** A Deployment named in the group [apps] passes in any version; in the
    group of the CloneSets it does not. *)
Example deployment_passes_in_its_group_only :
  fst (validateTargetRef cluster (spread "ws" (Some webInV2) zones fixed) (NewPath "spec")) = [] /\
  fst (validateTargetRef cluster
         (spread "ws" (Some (TargetReference.mk "apps.kruise.io/v1alpha1" "Deployment" "web"))
            zones fixed) (NewPath "spec"))
  = [Invalid (Child (NewPath "spec") "targetRef")
       (BadTargetReference
          (Some (TargetReference.mk "apps.kruise.io/v1alpha1" "Deployment" "web")))
       "TargetReference is not valid for Deployment."].
Proof. split; reflexivity. Qed.

Lemma spec_errors_are_reported_under_the_given_path_witness :
  ValidatorsReportUnder cluster /\
  validateWorkloadSpreadSpec cluster (spread "ws" web [brokenPatch] (adaptiveAfter (-1)))
    (NewPath "spec")
  = Done [mergeError subsetsPath 0 [x7b] "invalid JSON";
          unmarshalError subsetsPath 0 [x7b] "unexpected end of JSON input";
          Required (Child (Child (Index subsetsPath 0) "patch") "containers") "";
          rescheduleError (NewPath "spec") (-1) MaxInt32] /\
  Forall (fun e => under (NewPath "spec") (Field e))
    [mergeError subsetsPath 0 [x7b] "invalid JSON";
     unmarshalError subsetsPath 0 [x7b] "unexpected end of JSON input";
     Required (K := types) (Child (Child (Index subsetsPath 0) "patch") "containers") "";
     rescheduleError (NewPath "spec") (-1) MaxInt32].
Proof.
  assert (Hrun : validateWorkloadSpreadSpec cluster
                   (spread "ws" web [brokenPatch] (adaptiveAfter (-1))) (NewPath "spec")
                 = Done [mergeError subsetsPath 0 [x7b] "invalid JSON";
                         unmarshalError subsetsPath 0 [x7b] "unexpected end of JSON input";
                         Required (Child (Child (Index subsetsPath 0) "patch") "containers") "";
                         rescheduleError (NewPath "spec") (-1) MaxInt32]).
  { vm_compute. reflexivity. }
  split; [exact sample_validators_report_under|]. split; [exact Hrun|].
  apply (spec_errors_are_reported_under_the_given_path cluster
           (spread "ws" web [brokenPatch] (adaptiveAfter (-1))) (NewPath "spec") _
           sample_validators_report_under Hrun).
Defined.

Lemma adaptive_zones_are_accepted :
  validateWorkloadSpreadSpec cluster (spread "ws" web zones (adaptiveAfter 100)) (NewPath "spec")
  = Done [].
Proof. vm_compute. reflexivity. Qed.

Lemma accepted_spec_is_well_formed_witness :
  validateWorkloadSpreadSpec cluster (spread "ws" web zones (adaptiveAfter 100)) (NewPath "spec")
  = Done [] /\
  (exists ref,
      WorkloadSpreadSpec.TargetReference
        (WorkloadSpread.Spec (spread "ws" web zones (adaptiveAfter 100))) = Some ref /\
      TargetReference.APIVersion ref <> "" /\
      TargetReference.Name ref <> "" /\
      TargetReference.Kind ref <> "") /\
  validateWorkloadSpreadSubsets cluster (spread "ws" web zones (adaptiveAfter 100))
    (subsetsOf (spread "ws" web zones (adaptiveAfter 100)))
    (snd (validateTargetRef cluster (spread "ws" web zones (adaptiveAfter 100))
            (NewPath "spec")))
    (Child (NewPath "spec") "subsets") = Done [] /\
  (WorkloadSpreadScheduleStrategy.Type_ (strategyOf (spread "ws" web zones (adaptiveAfter 100)))
   = "" \/
   WorkloadSpreadScheduleStrategy.Type_ (strategyOf (spread "ws" web zones (adaptiveAfter 100)))
   = FixedWorkloadSpreadScheduleStrategyType cluster \/
   WorkloadSpreadScheduleStrategy.Type_ (strategyOf (spread "ws" web zones (adaptiveAfter 100)))
   = AdaptiveWorkloadSpreadScheduleStrategyType cluster) /\
  (forall adaptive,
      WorkloadSpreadScheduleStrategy.Adaptive
        (strategyOf (spread "ws" web zones (adaptiveAfter 100))) = Some adaptive ->
      WorkloadSpreadScheduleStrategy.Type_
        (strategyOf (spread "ws" web zones (adaptiveAfter 100)))
      = AdaptiveWorkloadSpreadScheduleStrategyType cluster /\
      ((1 < length (subsetsOf (spread "ws" web zones (adaptiveAfter 100))))%nat ->
       ~ lastCapSet (subsetsOf (spread "ws" web zones (adaptiveAfter 100))))) /\
  (forall filter,
      WorkloadSpreadSpec.TargetFilter
        (WorkloadSpread.Spec (spread "ws" web zones (adaptiveAfter 100))) = Some filter ->
      LabelSelectorAsSelector cluster (TargetFilter.Selector filter) = None).
Proof.
  split; [exact adaptive_zones_are_accepted|].
  apply (accepted_spec_is_well_formed cluster (spread "ws" web zones (adaptiveAfter 100))
           (NewPath "spec") adaptive_zones_are_accepted).
Defined.

Lemma accepted_reschedule_seconds_fit_the_failure_window_witness :
  validateWorkloadSpreadSpec cluster (spread "ws" web zones (adaptiveAfter 100)) (NewPath "spec")
  = Done [] /\
  WorkloadSpreadScheduleStrategy.Adaptive
    (strategyOf (spread "ws" web zones (adaptiveAfter 100)))
  = Some (AdaptiveWorkloadSpreadStrategy.mk (Some 100)) /\
  AdaptiveWorkloadSpreadStrategy.RescheduleCriticalSeconds
    (AdaptiveWorkloadSpreadStrategy.mk (Some 100)) = Some 100 /\
  Z.of_nat (length (subsetsOf (spread "ws" web zones (adaptiveAfter 100)))) <= 2 ^ 31 /\
  0 <= 100 <= MaxInt32 /\
  ((1 < length (subsetsOf (spread "ws" web zones (adaptiveAfter 100))))%nat ->
   100 * (Z.of_nat (length (subsetsOf (spread "ws" web zones (adaptiveAfter 100)))) - 1)
   <= MaxScheduledFailedDuration_Seconds - 5).
Proof.
  assert (Hlen : Z.of_nat (length (subsetsOf (spread "ws" web zones (adaptiveAfter 100))))
                 <= 2 ^ 31).
  { vm_compute. discriminate. }
  split; [exact adaptive_zones_are_accepted|]. split; [reflexivity|]. split; [reflexivity|].
  split; [exact Hlen|].
  apply (accepted_reschedule_seconds_fit_the_failure_window cluster
           (spread "ws" web zones (adaptiveAfter 100)) (NewPath "spec")
           (AdaptiveWorkloadSpreadStrategy.mk (Some 100)) 100
           adaptive_zones_are_accepted eq_refl eq_refl Hlen).
Defined.

(** With two zones the window leaves 295 seconds: 296 are rejected. *)
Example reschedule_after_296_seconds_rejected :
  validateWorkloadSpreadSpec cluster (spread "ws" web zones (adaptiveAfter 296)) (NewPath "spec")
  = Done [rescheduleError (NewPath "spec") 296 295].
Proof. vm_compute. reflexivity. Qed.

Lemma accepted_update_keeps_conflicts_witness :
  WorkloadSpread.Name (spread "ws" (Some webInV2) zones fixed)
  = WorkloadSpread.Name (spread "ws" web zones fixed) /\
  WorkloadSpreadSpec.TargetReference (WorkloadSpread.Spec (spread "ws" (Some webInV2) zones fixed))
  = Some webInV2 /\
  WorkloadSpreadSpec.TargetReference (WorkloadSpread.Spec (spread "ws" web zones fixed))
  = Some (TargetReference.mk "apps/v1" "Deployment" "web") /\
  validateWorkloadSpreadUpdate cluster (spread "ws" (Some webInV2) zones fixed)
    (spread "ws" web zones fixed) = [] /\
  (forall other,
      conflictsWith cluster (spread "ws" (Some webInV2) zones fixed) other
      <-> conflictsWith cluster (spread "ws" web zones fixed) other) /\
  (validateWorkloadSpreadConflict cluster (spread "ws" (Some webInV2) zones fixed)
     [spread "other" web halves fixed] (NewPath "spec") = []
   <-> validateWorkloadSpreadConflict cluster (spread "ws" web zones fixed)
         [spread "other" web halves fixed] (NewPath "spec") = []).
Proof.
  split; [reflexivity|]. split; [reflexivity|]. split; [reflexivity|].
  split; [reflexivity|].
  apply (accepted_update_keeps_conflicts cluster (spread "ws" (Some webInV2) zones fixed)
           (spread "ws" web zones fixed) [spread "other" web halves fixed] (NewPath "spec")
           webInV2 (TargetReference.mk "apps/v1" "Deployment" "web"));
    reflexivity.
Defined.

Lemma at_most_one_cap_error_and_it_comes_last_witness :
  ValidatorsReportUnder cluster /\
  validateWorkloadSpreadSubsets cluster negativeThenPercent
    [subset "" (count (-1)); subset "b" (percent "50%")] None subsetsPath
  = Done [emptyNameError subsetsPath 0;
          notValidError subsetsPath 0 (IntOrString.mk intstr.Int (-1) "")] /\
  exists others capErrs : ErrorList,
    [emptyNameError subsetsPath 0;
     notValidError (K := types) subsetsPath 0 (IntOrString.mk intstr.Int (-1) "")]
    = (others ++ capErrs)%list /\
    (length capErrs <= 1)%nat /\
    Forall (fun e => ~ onMaxReplicas subsetsPath e) others /\
    Forall (fun e => onMaxReplicas subsetsPath e /\ Type_ e = ErrorTypeInvalid) capErrs.
Proof.
  assert (Hrun : validateWorkloadSpreadSubsets cluster negativeThenPercent
                   [subset "" (count (-1)); subset "b" (percent "50%")] None subsetsPath
                 = Done [emptyNameError subsetsPath 0;
                         notValidError subsetsPath 0 (IntOrString.mk intstr.Int (-1) "")]).
  { vm_compute. reflexivity. }
  split; [exact sample_validators_report_under|]. split; [exact Hrun|].
  apply (at_most_one_cap_error_and_it_comes_last cluster negativeThenPercent
           [subset "" (count (-1)); subset "b" (percent "50%")] None subsetsPath _
           sample_validators_report_under Hrun).
Defined.

Lemma errors_of_earlier_subsets_are_kept_witness :
  subsetsLoop cluster (spread "ws" web [] fixed) None subsetsPath 0 [subset "" None]
    initialVars
  = Done (Continue {| allErrs := [emptyNameError subsetsPath 0]; subSetNames := ∅;
                      maxReplicasSum := 0; firstMaxReplicasType := None |}) /\
  validateWorkloadSpreadSubsets cluster (spread "ws" web [] fixed)
    ([subset "" None] ++ [subset "b" (count (-1))]) None subsetsPath
  = Done [emptyNameError subsetsPath 0;
          notValidError subsetsPath 1 (IntOrString.mk intstr.Int (-1) "")] /\
  exists more,
    [emptyNameError subsetsPath 0;
     notValidError (K := types) subsetsPath 1 (IntOrString.mk intstr.Int (-1) "")]
    = [emptyNameError subsetsPath 0] ++ more.
Proof.
  assert (Hpre : subsetsLoop cluster (spread "ws" web [] fixed) None subsetsPath 0
                   [subset "" None] initialVars
                 = Done (Continue {| allErrs := [emptyNameError subsetsPath 0];
                                     subSetNames := ∅; maxReplicasSum := 0;
                                     firstMaxReplicasType := None |})).
  { vm_compute. reflexivity. }
  assert (Hrun : validateWorkloadSpreadSubsets cluster (spread "ws" web [] fixed)
                   ([subset "" None] ++ [subset "b" (count (-1))]) None subsetsPath
                 = Done [emptyNameError subsetsPath 0;
                         notValidError subsetsPath 1 (IntOrString.mk intstr.Int (-1) "")]).
  { vm_compute. reflexivity. }
  split; [exact Hpre|]. split; [exact Hrun|].
  apply (errors_of_earlier_subsets_are_kept cluster (spread "ws" web [] fixed) None subsetsPath
           [subset "" None] [subset "b" (count (-1))] _ _ Hpre Hrun).
Defined.

Lemma conversion_without_a_pod_panics_witness :
  subsetsLoop strictConversion (spread "ws" web [] fixed) (Some (ptrDeployment webDeployment))
    subsetsPath 0 [] initialVars = Done (Continue initialVars) /\
  podSpecOf strictConversion (ptrDeployment webDeployment) = Done zero_PodTemplateSpec /\
  RawExtension.Raw (WorkloadSpreadSubset.Patch brokenPatch) = Some [x7b] /\
  ConvertPod strictConversion
    (fst (json_Unmarshal strictConversion
            (fst (StrategicMergePatch strictConversion
                    (json_Marshal strictConversion zero_PodTemplateSpec) [x7b]))))
  = (None, Some "empty pod") /\
  exists why,
    validateWorkloadSpreadSubsets strictConversion (spread "ws" web [] fixed)
      ([] ++ brokenPatch :: []) (Some (ptrDeployment webDeployment)) subsetsPath
    = Panics why.
Proof.
  split; [reflexivity|]. split; [reflexivity|]. split; [reflexivity|].
  split; [reflexivity|].
  apply (conversion_without_a_pod_panics strictConversion (spread "ws" web [] fixed)
           (ptrDeployment webDeployment) subsetsPath [] [] brokenPatch initialVars
           zero_PodTemplateSpec [x7b] (Some "empty pod"));
    reflexivity.
Defined.

End OnTheSampleCluster.
